(** * ConserveBot backend: simulator, decision engine, store and server

    A shallow embedding of [backend/src/utils.js], [standards.js],
    [engine.js], [simulator.js], [store.js] and the callbacks of
    [server.js], followed by the properties proved about them.

    Conventions of the embedding.
    - A JavaScript number is an exact rational ([Q]); IEEE rounding,
      infinities and NaN are outside the model.  Values that the code
      only ever builds from [Date.now()] and integer arithmetic
      (timestamps in milliseconds) are integers ([Z]).
    - [Math.random()], [randn()] and [Date.now()] are inputs: every
      function that calls them takes the drawn values as arguments.
    - An ISO timestamp string is represented by the millisecond count it
      encodes ([Date.parse(new Date(ms).toISOString()) = ms]).
    - A template literal is a list of fragments.
    - A method that can throw returns an outcome that says so, with the
      object as the exception leaves it. *)

From Stdlib Require Import QArith Qabs ZArith String Ascii List Bool Lia Lqa Qround.
From Stdlib Require Import Sorted Morphisms.
Import ListNotations.

Open Scope Q_scope.

(* ------------------------------------------------------------------ *)
(** ** JavaScript built-ins used by the code *)

Module Js.

Definition ltb (a b : Q) : bool := negb (Qle_bool b a).
Definition leb (a b : Q) : bool := Qle_bool a b.
Definition gtb (a b : Q) : bool := ltb b a.
Definition geb (a b : Q) : bool := leb b a.

(** [Math.max(a, b)] and [Math.min(a, b)]. *)
Definition Math_max (a b : Q) : Q := if leb a b then b else a.
Definition Math_min (a b : Q) : Q := if leb a b then a else b.

(** [Math.round(x)]: the integer nearest to [x], ties going up. *)
Definition Math_round (x : Q) : Z := Qfloor (x + 0.5).

Definition pow10 (d : nat) : Z := Z.pow 10 (Z.of_nat d).

(** [Number(x.toFixed(d))]: the multiple [n / 10^d] nearest to [x]; of
    two equally near the larger is taken, after the sign has been set
    aside. *)
Definition toFixed (d : nat) (x : Q) : Q :=
  let scale := inject_Z (pow10 d) in
  if ltb x 0
  then - (inject_Z (Qfloor ((- x) * scale + 0.5)) / scale)
  else inject_Z (Qfloor (x * scale + 0.5)) / scale.

(** [s.toUpperCase()] on ASCII letters. *)
Definition upper_ascii (c : ascii) : ascii :=
  let n := nat_of_ascii c in
  if (97 <=? n)%nat && (n <=? 122)%nat then ascii_of_nat (n - 32) else c.

Fixpoint toUpperCase (s : string) : string :=
  match s with
  | EmptyString => EmptyString
  | String c r => String (upper_ascii c) (toUpperCase r)
  end.

(** Pieces of a template literal: literal text and interpolated numbers. *)
Inductive Frag : Type :=
| Txt (s : string)
| Num (q : Q)
| Cnt (n : nat).

Definition Template : Type := list Frag.

End Js.

(* ------------------------------------------------------------------ *)
(** ** utils.js *)

Module Utils.
Import Js.

Definition clamp (n min max : Q) : Q := Math_max min (Math_min max n).

Definition lerp (a b t : Q) : Q := a + (b - a) * t.

(** [rand(min, max)], [u] being the value of [Math.random()]. *)
Definition rand (min max u : Q) : Q := lerp min max u.

Definition isBetweenInclusive (x : Q) (r : Q * Q) : bool :=
  let '(a, b) := r in geb x a && leb x b.

Definition mean (nums : list Q) : Q :=
  match nums with
  | [] => 0
  | _ => fold_left Qplus nums 0 / inject_Z (Z.of_nat (length nums))
  end.

(** The accumulation loop of [slope]: [num] and [den] after the
    remaining indices. *)
Fixpoint slope_loop (tMean yMean : Q) (ts ys : list Q) (num den : Q) : Q * Q :=
  match ts, ys with
  | t :: ts', y :: ys' =>
      slope_loop tMean yMean ts' ys'
        (num + (t - tMean) * (y - yMean))
        (den + (t - tMean) * (t - tMean))
  | _, _ => (num, den)
  end.

(** [slope(points)], a point being [(t, y)] with [t] in milliseconds. *)
Definition slope (points : list (Z * Q)) : Q :=
  match points with
  | [] | [_] => 0
  | (t0, _) :: _ =>
      let ts := map (fun p => (inject_Z (fst p) - inject_Z t0) / 1000) points in
      let ys := map snd points in
      let tMean := mean ts in
      let yMean := mean ys in
      let '(num, den) := slope_loop tMean yMean ts ys 0 0 in
      if Qeq_bool den 0 then 0 else num / den
  end.

End Utils.

(* ------------------------------------------------------------------ *)
(** ** standards.js *)

Module Standards.

Record Band : Type := { safe : Q * Q; warn : Q * Q }.
Record MaxBand : Type := { safeMax : Q; warnMax : Q }.
Record Access : Type := { maxOpensPerHourSafe : Q; maxOpensPerHourWarn : Q }.

Record Entry : Type := {
  label : string;
  temperatureC : Band;
  humidityPct : Band;
  moisturePct : MaxBand;
  access : Access;
  vibration : MaxBand
}.

Definition ARTIFACT_TYPES : list string :=
  ["FOSSILS"; "ORGANIC"; "METALLIC"; "STONE"]%string.

Definition FOSSILS : Entry := {|
  label := "Fossils";
  temperatureC := {| safe := (16, 22); warn := (15, 23) |};
  humidityPct := {| safe := (40, 55); warn := (35, 60) |};
  moisturePct := {| safeMax := 5; warnMax := 6 |};
  access := {| maxOpensPerHourSafe := 2; maxOpensPerHourWarn := 4 |};
  vibration := {| safeMax := 0.25; warnMax := 0.5 |}
|}.

Definition ORGANIC : Entry := {|
  label := "Organic (wood/bone/textile)";
  temperatureC := {| safe := (16, 20); warn := (15, 22) |};
  humidityPct := {| safe := (45, 55); warn := (40, 60) |};
  moisturePct := {| safeMax := 4; warnMax := 5 |};
  access := {| maxOpensPerHourSafe := 1; maxOpensPerHourWarn := 3 |};
  vibration := {| safeMax := 0.2; warnMax := 0.4 |}
|}.

Definition METALLIC : Entry := {|
  label := "Metallic artifacts";
  temperatureC := {| safe := (16, 22); warn := (15, 23) |};
  humidityPct := {| safe := (35, 45); warn := (30, 50) |};
  moisturePct := {| safeMax := 3; warnMax := 4 |};
  access := {| maxOpensPerHourSafe := 1; maxOpensPerHourWarn := 3 |};
  vibration := {| safeMax := 0.25; warnMax := 0.5 |}
|}.

Definition STONE : Entry := {|
  label := "Stone artifacts";
  temperatureC := {| safe := (16, 24); warn := (15, 26) |};
  humidityPct := {| safe := (40, 60); warn := (35, 65) |};
  moisturePct := {| safeMax := 6; warnMax := 7 |};
  access := {| maxOpensPerHourSafe := 3; maxOpensPerHourWarn := 6 |};
  vibration := {| safeMax := 0.3; warnMax := 0.6 |}
|}.

(** The own properties of the object literal [STANDARDS_BY_TYPE], in
    source order. *)
Definition STANDARDS_BY_TYPE : list (string * Entry) :=
  [("FOSSILS", FOSSILS); ("ORGANIC", ORGANIC);
   ("METALLIC", METALLIC); ("STONE", STONE)]%string.

Fixpoint own (props : list (string * Entry)) (key : string) : option Entry :=
  match props with
  | [] => None
  | (k, v) :: rest => if String.eqb k key then Some v else own rest key
  end.

(** [STANDARDS_BY_TYPE] is written as an object literal, so its
    prototype is [Object.prototype]: a key it does not own is looked up
    there before the access yields [undefined].  These are the
    properties of [Object.prototype]; each holds a function, except
    [__proto__], whose getter returns [Object.prototype] itself.  None
    of these values is [null] or [undefined]. *)
Definition Object_prototype_keys : list string :=
  ["constructor"; "__defineGetter__"; "__defineSetter__"; "hasOwnProperty";
   "__lookupGetter__"; "__lookupSetter__"; "isPrototypeOf";
   "propertyIsEnumerable"; "toString"; "valueOf"; "__proto__";
   "toLocaleString"]%string.

Definition inherited (key : string) : bool :=
  existsb (String.eqb key) Object_prototype_keys.

(** What a property access [STANDARDS_BY_TYPE[key]] evaluates to. *)
Inductive Value : Type :=
| VEntry (e : Entry)          (* one of the four standards objects *)
| VInherited (key : string)   (* the value [Object.prototype[key]] *)
| VUndefined.

Definition get (key : string) : Value :=
  match own STANDARDS_BY_TYPE key with
  | Some e => VEntry e
  | None => if inherited key then VInherited key else VUndefined
  end.

(** [a ?? b] where [b] is a standards object. *)
Definition nullish_or (a : Value) (b : Entry) : Value :=
  match a with
  | VUndefined => VEntry b
  | _ => a
  end.

Definition getStandards (artifactType : string) : Value :=
  nullish_or (get artifactType) FOSSILS.

(** Reading [std.temperatureC], [std.humidityPct] or [std.moisturePct]
    and then a property of the result, as [_initState] and [tick] do:
    on a standards object this gives the entry; an inherited value has
    none of the three properties, so the second access is on
    [undefined] and throws a [TypeError] ([None]). *)
Definition entry_of (v : Value) : option Entry :=
  match v with
  | VEntry e => Some e
  | _ => None
  end.

(** The invariant of a standards entry: every safe bound lies within
    its warn bound.  For a band, [warn] contains [safe]. *)
Definition bandOrdered (b : Band) : Prop :=
  fst (warn b) <= fst (safe b) /\
  fst (safe b) <= snd (safe b) /\
  snd (safe b) <= snd (warn b).

Definition wellFormed (s : Entry) : Prop :=
  bandOrdered (temperatureC s) /\
  bandOrdered (humidityPct s) /\
  safeMax (moisturePct s) <= warnMax (moisturePct s) /\
  maxOpensPerHourSafe (access s) <= maxOpensPerHourWarn (access s) /\
  safeMax (vibration s) <= warnMax (vibration s).

End Standards.

(* ------------------------------------------------------------------ *)
(** ** The reading object returned by [Simulator.tick] *)

Module Reading.

Record t : Type := {
  timestamp : Z;          (* the instant encoded by the ISO string, in ms *)
  temperatureC : Q;
  humidityPct : Q;
  moisturePct : Q;
  doorState : string;
  opensPerHour : nat;
  vibration : Q;
  accessLocked : bool
}.

(** The physical bounds the simulator clamps to. *)
Definition inPhysicalBounds (r : t) : Prop :=
  5 <= temperatureC r <= 35 /\
  5 <= humidityPct r <= 95 /\
  0 <= moisturePct r <= 20 /\
  0 <= vibration r <= 1.

End Reading.

(* ------------------------------------------------------------------ *)
(** ** engine.js *)

(** The object returned by [evaluate]. *)
Module Assessment.

Record Action : Type := { type : string; label : string; reason : Js.Template }.

Record StatusColor : Type := { status : string; color : string }.

Record Statuses : Type := {
  temperature : StatusColor;
  humidity : StatusColor;
  moisture : StatusColor;
  access : StatusColor;
  vibration : StatusColor
}.

Record Trends : Type := { humiditySlopePerMin : Q }.

Record t : Type := {
  riskScore : Q;
  riskLevel : string;
  statuses : Statuses;
  trends : Trends;
  insights : list Js.Template;
  actions : list Action
}.

End Assessment.

Module Engine.
Import Js Utils.
Open Scope string_scope.
Open Scope list_scope.

Definition rangeStatus (x : Q) (b : Standards.Band) : string :=
  if isBetweenInclusive x (Standards.safe b) then "safe"
  else if isBetweenInclusive x (Standards.warn b) then "warn"
  else "danger".

Definition maxStatus (x : Q) (m : Standards.MaxBand) : string :=
  if leb x (Standards.safeMax m) then "safe"
  else if leb x (Standards.warnMax m) then "warn"
  else "danger".

Definition statusToColor (status : string) : string :=
  if String.eqb status "safe" then "green"
  else if String.eqb status "warn" then "yellow"
  else "red".

Definition riskFromRange (x : Q) (b : Standards.Band) : Q :=
  if isBetweenInclusive x (Standards.safe b) then 0
  else if isBetweenInclusive x (Standards.warn b) then
    let '(w0, w1) := Standards.warn b in
    let '(s0, s1) := Standards.safe b in
    let d := if ltb x s0 then s0 - x else if gtb x s1 then x - s1 else 0 in
    let maxD := if ltb x s0 then s0 - w0 else w1 - s1 in
    let t := if gtb maxD 0 then clamp (d / maxD) 0 1 else 1 in
    25 + 35 * t
  else
    let '(w0, w1) := Standards.warn b in
    let d := if ltb x w0 then w0 - x else if gtb x w1 then x - w1 else 0 in
    let t := clamp (d / 5) 0 1 in
    70 + 30 * t.

Definition riskFromMax (x : Q) (m : Standards.MaxBand) : Q :=
  let safeMax := Standards.safeMax m in
  let warnMax := Standards.warnMax m in
  if leb x safeMax then 0
  else if leb x warnMax then
    let t := clamp ((x - safeMax) / Math_max 0.001 (warnMax - safeMax)) 0 1 in
    25 + 35 * t
  else
    let t := clamp ((x - warnMax) / 3) 0 1 in
    70 + 30 * t.

Definition riskLevel (score : Q) : string :=
  if ltb score 30 then "LOW"
  else if ltb score 60 then "MEDIUM"
  else if ltb score 80 then "HIGH"
  else "CRITICAL".

(** [predictionForHumidity]; [None] is the [null] result. *)
Definition predictionForHumidity
  (humidityPct : Q) (humidityStatus : string) (humiditySlopePerMin : Q)
  : option string :=
  if String.eqb humidityStatus "danger" && geb humidityPct 60 then
    let rising := gtb humiditySlopePerMin 0.05 in
    Some (if rising
          then "Humidity rising fast—risk of mold formation within ~6 hours."
          else "High humidity—mold risk increases over the next day.")
  else if String.eqb humidityStatus "warn" && gtb humiditySlopePerMin 0.05 then
    Some "Humidity trending upward—keep an eye on mold/corrosion risk."
  else None.

(** The fields of a [DecisionEngine] object: [recent] holds
    [{tMs, reading}] pairs. *)
Record DecisionEngine : Type := { recent : list (Z * Reading.t) }.

Definition constructor : DecisionEngine := {| recent := [] |}.

Definition ingest (this : DecisionEngine) (reading : Reading.t) : DecisionEngine :=
  let tMs := Reading.timestamp reading in
  let pushed := recent this ++ [(tMs, reading)] in
  let cutoff := (tMs - 15 * 60000)%Z in
  {| recent := filter (fun p => (fst p >=? cutoff)%Z) pushed |}.

(** The trend read from the window. *)
Definition humiditySlopePerMin (this : DecisionEngine) : Q :=
  let humidityPoints :=
    map (fun p => (fst p, Reading.humidityPct (snd p))) (recent this) in
  let humiditySlopePerSec := slope humidityPoints in
  humiditySlopePerSec * 60.

Definition accessStatus (reading : Reading.t) (standards : Standards.Entry) : string :=
  let opens := inject_Z (Z.of_nat (Reading.opensPerHour reading)) in
  if leb opens (Standards.maxOpensPerHourSafe (Standards.access standards)) then "safe"
  else if leb opens (Standards.maxOpensPerHourWarn (Standards.access standards)) then "warn"
  else "danger".

Definition vibrationStatus (reading : Reading.t) (standards : Standards.Entry) : string :=
  if leb (Reading.vibration reading) (Standards.safeMax (Standards.vibration standards)) then "safe"
  else if leb (Reading.vibration reading) (Standards.warnMax (Standards.vibration standards)) then "warn"
  else "danger".

(** The weighted total before the amplifiers. *)
Definition weightedRisk (reading : Reading.t) (standards : Standards.Entry) : Q :=
  let riskTemp := riskFromRange (Reading.temperatureC reading) (Standards.temperatureC standards) in
  let riskHumidity := riskFromRange (Reading.humidityPct reading) (Standards.humidityPct standards) in
  let riskMoisture := riskFromMax (Reading.moisturePct reading) (Standards.moisturePct standards) in
  let riskAccess :=
    clamp
      ((inject_Z (Z.of_nat (Reading.opensPerHour reading))
        / Math_max 1 (Standards.maxOpensPerHourWarn (Standards.access standards))) * 60)
      0 100 in
  let riskVibration :=
    clamp
      ((Reading.vibration reading
        / Math_max 0.01 (Standards.warnMax (Standards.vibration standards))) * 60)
      0 100 in
  riskTemp * 0.22 +
  riskHumidity * 0.28 +
  riskMoisture * 0.22 +
  riskAccess * 0.16 +
  riskVibration * 0.12.

(** The value of [riskScore] after the last assignment to it. *)
Definition computeRiskScore
  (slopePerMin : Q) (reading : Reading.t) (standards : Standards.Entry) : Q :=
  let riskScore := weightedRisk reading standards in
  let riskScore := if gtb slopePerMin 0.08 then riskScore + 8 else riskScore in
  let riskScore := if gtb slopePerMin 0.15 then riskScore + 12 else riskScore in
  let riskScore :=
    if String.eqb (Reading.doorState reading) "open" then riskScore + 4 else riskScore in
  let riskScore := if Reading.accessLocked reading then riskScore - 3 else riskScore in
  clamp (inject_Z (Math_round riskScore)) 0 100.

(** The [insights] array after all pushes. *)
Definition buildInsights
  (slopePerMin : Q) (reading : Reading.t) (standards : Standards.Entry)
  (tempStatus humidityStatus moistureStatus accessSt vibrationSt : string)
  : list Template :=
  let insights : list Template := [] in
  let prediction :=
    predictionForHumidity (Reading.humidityPct reading) humidityStatus slopePerMin in
  let insights :=
    match prediction with
    | Some p => insights ++ [[Txt p]]
    | None => insights
    end in
  let insights :=
    if negb (String.eqb tempStatus "safe") then
      insights ++
      [[Txt "Temperature is "; Txt (toUpperCase tempStatus); Txt " (";
        Num (Reading.temperatureC reading); Txt "°C). Target ";
        Num (fst (Standards.safe (Standards.temperatureC standards))); Txt "–";
        Num (snd (Standards.safe (Standards.temperatureC standards))); Txt "°C."]]
    else insights in
  let insights :=
    if negb (String.eqb humidityStatus "safe") then
      insights ++
      [[Txt "Humidity is "; Txt (toUpperCase humidityStatus); Txt " (";
        Num (Reading.humidityPct reading); Txt "%). Target ";
        Num (fst (Standards.safe (Standards.humidityPct standards))); Txt "–";
        Num (snd (Standards.safe (Standards.humidityPct standards))); Txt "%."]]
    else insights in
  let insights :=
    if negb (String.eqb moistureStatus "safe") then
      insights ++
      [[Txt "Moisture content is "; Txt (toUpperCase moistureStatus); Txt " (";
        Num (Reading.moisturePct reading); Txt "%). Goal <";
        Num (Standards.safeMax (Standards.moisturePct standards)); Txt "%."]]
    else insights in
  let insights :=
    if negb (String.eqb accessSt "safe") then
      insights ++
      [[Txt "Repeated access detected ("; Cnt (Reading.opensPerHour reading);
        Txt " opens/hour). Exposure risk increased."]]
    else insights in
  let insights :=
    if negb (String.eqb vibrationSt "safe") then
      insights ++
      [[Txt "Vibration is "; Txt (toUpperCase vibrationSt); Txt " (level ";
        Num (Reading.vibration reading);
        Txt "). Movement can chip or crack fragile material."]]
    else insights in
  match insights with
  | [] => insights ++ [[Txt "All conditions look stable. ConserveBot is just monitoring."]]
  | _ => insights
  end.

(** The [actions] array after all pushes, before the gate. *)
Definition selectActions
  (reading : Reading.t) (standards : Standards.Entry)
  (tempStatus humidityStatus accessSt : string) : list Assessment.Action :=
  let actions : list Assessment.Action := [] in
  let safeH := Standards.safe (Standards.humidityPct standards) in
  let actions :=
    if String.eqb humidityStatus "danger"
       || (String.eqb humidityStatus "warn" && gtb (Reading.humidityPct reading) (snd safeH))
    then
      actions ++
      [{| Assessment.type := "DEHUMIDIFY";
          Assessment.label := "Trigger dehumidification";
          Assessment.reason :=
            [Txt "Humidity "; Num (Reading.humidityPct reading); Txt "% above target."] |}] ++
      [{| Assessment.type := "TRIGGER_AIRFLOW";
          Assessment.label := "Increase airflow";
          Assessment.reason := [Txt "Airflow helps stabilize humidity and moisture."] |}]
    else if String.eqb humidityStatus "warn" && ltb (Reading.humidityPct reading) (fst safeH)
    then
      actions ++
      [{| Assessment.type := "HUMIDIFY";
          Assessment.label := "Add gentle humidification";
          Assessment.reason :=
            [Txt "Humidity "; Num (Reading.humidityPct reading); Txt "% below target."] |}]
    else actions in
  let actions :=
    if String.eqb tempStatus "danger" || String.eqb tempStatus "warn" then
      let safeT := Standards.safe (Standards.temperatureC standards) in
      let mid := (fst safeT + snd safeT) / 2 in
      let dir := if gtb (Reading.temperatureC reading) mid then "DOWN" else "UP" in
      actions ++
      [{| Assessment.type :=
            if String.eqb dir "DOWN" then "ADJUST_TEMP_DOWN" else "ADJUST_TEMP_UP";
          Assessment.label :=
            if String.eqb dir "DOWN" then "Cool internal temperature"
            else "Warm internal temperature";
          Assessment.reason :=
            [Txt "Temperature "; Num (Reading.temperatureC reading);
             Txt "°C outside ideal zone."] |}]
    else actions in
  let actions :=
    if String.eqb accessSt "danger" then
      actions ++
      [{| Assessment.type := "LOCK_ACCESS_10_MIN";
          Assessment.label := "Lock access for 10 minutes";
          Assessment.reason :=
            [Txt "Too many door opens—reduce exposure while conditions stabilize."] |}]
    else actions in
  actions.

(** [evaluate({ reading, standards })]: the engine object after the call
    and the returned assessment. *)
Definition evaluate
  (this : DecisionEngine) (reading : Reading.t) (standards : Standards.Entry)
  : DecisionEngine * Assessment.t :=
  let tempStatus := rangeStatus (Reading.temperatureC reading) (Standards.temperatureC standards) in
  let humidityStatus := rangeStatus (Reading.humidityPct reading) (Standards.humidityPct standards) in
  let moistureStatus := maxStatus (Reading.moisturePct reading) (Standards.moisturePct standards) in
  let accessSt := accessStatus reading standards in
  let vibrationSt := vibrationStatus reading standards in
  let slopePerMin := humiditySlopePerMin this in
  let riskScore := computeRiskScore slopePerMin reading standards in
  let insights :=
    buildInsights slopePerMin reading standards
      tempStatus humidityStatus moistureStatus accessSt vibrationSt in
  let actions := selectActions reading standards tempStatus humidityStatus accessSt in
  let finalActions := if geb riskScore 45 then actions else [] in
  (this,
   {| Assessment.riskScore := riskScore;
      Assessment.riskLevel := riskLevel riskScore;
      Assessment.statuses :=
        {| Assessment.temperature :=
             {| Assessment.status := tempStatus; Assessment.color := statusToColor tempStatus |};
           Assessment.humidity :=
             {| Assessment.status := humidityStatus; Assessment.color := statusToColor humidityStatus |};
           Assessment.moisture :=
             {| Assessment.status := moistureStatus; Assessment.color := statusToColor moistureStatus |};
           Assessment.access :=
             {| Assessment.status := accessSt; Assessment.color := statusToColor accessSt |};
           Assessment.vibration :=
             {| Assessment.status := vibrationSt; Assessment.color := statusToColor vibrationSt |} |};
      Assessment.trends :=
        {| Assessment.humiditySlopePerMin := toFixed 3 slopePerMin |};
      Assessment.insights := insights;
      Assessment.actions := finalActions |}).

(** The actions [evaluate] has collected when it reaches the gate. *)
Definition selectedActions (reading : Reading.t) (standards : Standards.Entry)
  : list Assessment.Action :=
  selectActions reading standards
    (rangeStatus (Reading.temperatureC reading) (Standards.temperatureC standards))
    (rangeStatus (Reading.humidityPct reading) (Standards.humidityPct standards))
    (accessStatus reading standards).

End Engine.

(* ------------------------------------------------------------------ *)
(** ** simulator.js *)

Module Simulator.
Import Js Utils.
Open Scope string_scope.
Open Scope list_scope.

Definition DEMO_MODES : list string := ["normal"; "atRisk"; "remediation"].

Definition midpoint (r : Q * Q) : Q := let '(a, b) := r in (a + b) / 2.

Record Controls : Type := {
  tempBiasC : Q;
  humidityBiasPct : Q;
  airflowBoost : Q;
  accessLockedUntilMs : Z
}.

Record State : Type := {
  temperatureC : Q;
  humidityPct : Q;
  moisturePct : Q;
  doorState : string;
  lastDoorToggleMs : Z;
  opensInLastHour : list Z;
  vibration : Q
}.

(** The fields of a [Simulator] object. *)
Record t : Type := {
  artifactType : string;
  demoMode : string;
  controls : Controls;
  state : State
}.

(** How a method call ends: it returns a value, or an exception leaves
    it; either way the object is in the state [this]. *)
Inductive Outcome (A : Type) : Type :=
| Returned (a : A) (this : t)
| Thrown (this : t).
Arguments Returned {A} a this.
Arguments Thrown {A} this.

Definition after {A : Type} (o : Outcome A) : t :=
  match o with
  | Returned _ this => this
  | Thrown this => this
  end.

Definition set_state (this : t) (st : State) : t :=
  {| artifactType := artifactType this; demoMode := demoMode this;
     controls := controls this; state := st |}.

Definition set_controls (this : t) (c : Controls) : t :=
  {| artifactType := artifactType this; demoMode := demoMode this;
     controls := c; state := state this |}.

(** The three [Math.random()] values drawn by [_initState]. *)
Record InitDraws : Type := { uTemperature : Q; uHumidity : Q; uMoisture : Q }.

(** The object [_initState] assigns to [this.state]; [None] when the
    standards lookup gave an inherited value and reading
    [std.temperatureC.safe] throws. *)
Definition initialState
  (artifactType demoMode : string) (now : Z) (u : InitDraws) : option State :=
  match Standards.entry_of (Standards.getStandards artifactType) with
  | None => None
  | Some std =>
      let baseT := midpoint (Standards.safe (Standards.temperatureC std)) in
      let baseH := midpoint (Standards.safe (Standards.humidityPct std)) in
      let baseM :=
        Math_min (Standards.safeMax (Standards.moisturePct std) - 0.5)
                 (Standards.safeMax (Standards.moisturePct std)) in
      let '(startT, startH, startM) :=
        if String.eqb demoMode "remediation" then
          (baseT + rand 2.5 4.0 (uTemperature u),
           baseH + rand 8 15 (uHumidity u),
           baseM + rand 1.5 3.0 (uMoisture u))
        else if String.eqb demoMode "atRisk" then
          (baseT + rand 0.5 1.5 (uTemperature u),
           baseH + rand 3 6 (uHumidity u),
           baseM + rand 0.5 1.2 (uMoisture u))
        else
          (baseT + rand (-0.4) 0.4 (uTemperature u),
           baseH + rand (-1.5) 1.5 (uHumidity u),
           baseM + rand (-0.3) 0.3 (uMoisture u)) in
      Some {| temperatureC := startT;
              humidityPct := startH;
              moisturePct := startM;
              doorState := "closed";
              lastDoorToggleMs := now;
              opensInLastHour := [];
              vibration := 0 |}
  end.

Definition _initState (this : t) (now : Z) (u : InitDraws) : Outcome unit :=
  match initialState (artifactType this) (demoMode this) now u with
  | Some st => Returned tt (set_state this st)
  | None => Thrown this
  end.

Definition initialControls : Controls :=
  {| tempBiasC := 0; humidityBiasPct := 0; airflowBoost := 0;
     accessLockedUntilMs := 0 |}.

(** [new Simulator({ artifactType, demoMode })]; [None] when the
    constructor throws. *)
Definition constructor
  (artifactType demoMode : string) (now : Z) (u : InitDraws) : option t :=
  match initialState artifactType demoMode now u with
  | Some st =>
      Some {| artifactType := artifactType; demoMode := demoMode;
              controls := initialControls; state := st |}
  | None => None
  end.

Definition setArtifactType
  (this : t) (artifactType : string) (now : Z) (u : InitDraws) : Outcome unit :=
  _initState
    {| artifactType := artifactType; demoMode := demoMode this;
       controls := controls this; state := state this |} now u.

Definition setDemoMode
  (this : t) (demoMode : string) (now : Z) (u : InitDraws) : Outcome unit :=
  _initState
    {| artifactType := artifactType this; demoMode := demoMode;
       controls := controls this; state := state this |} now u.

(** [applyAction(actionType)], [now] being the value of [Date.now()]. *)
Definition applyAction (this : t) (actionType : string) (now : Z) : t :=
  let c := controls this in
  if String.eqb actionType "ADJUST_TEMP_DOWN" then
    set_controls this
      {| tempBiasC := tempBiasC c - 0.15; humidityBiasPct := humidityBiasPct c;
         airflowBoost := airflowBoost c; accessLockedUntilMs := accessLockedUntilMs c |}
  else if String.eqb actionType "ADJUST_TEMP_UP" then
    set_controls this
      {| tempBiasC := tempBiasC c + 0.15; humidityBiasPct := humidityBiasPct c;
         airflowBoost := airflowBoost c; accessLockedUntilMs := accessLockedUntilMs c |}
  else if String.eqb actionType "DEHUMIDIFY" then
    set_controls this
      {| tempBiasC := tempBiasC c; humidityBiasPct := humidityBiasPct c - 0.4;
         airflowBoost := clamp (airflowBoost c + 0.2) 0 1;
         accessLockedUntilMs := accessLockedUntilMs c |}
  else if String.eqb actionType "HUMIDIFY" then
    set_controls this
      {| tempBiasC := tempBiasC c; humidityBiasPct := humidityBiasPct c + 0.4;
         airflowBoost := airflowBoost c; accessLockedUntilMs := accessLockedUntilMs c |}
  else if String.eqb actionType "TRIGGER_AIRFLOW" then
    set_controls this
      {| tempBiasC := tempBiasC c; humidityBiasPct := humidityBiasPct c;
         airflowBoost := clamp (airflowBoost c + 0.25) 0 1;
         accessLockedUntilMs := accessLockedUntilMs c |}
  else if String.eqb actionType "LOCK_ACCESS_10_MIN" then
    set_controls this
      {| tempBiasC := tempBiasC c; humidityBiasPct := humidityBiasPct c;
         airflowBoost := airflowBoost c;
         accessLockedUntilMs := Z.max (accessLockedUntilMs c) (now + 10 * 60000) |}
  else this.

(** The random values one call of [tick] may draw: four [randn()]
    results and three [Math.random()] results. *)
Record Noise : Type := {
  nTemperature : Q;
  nHumidity : Q;
  nMoisture : Q;
  uToggle : Q;
  uBump : Q;
  uBumpSize : Q;
  nVibration : Q
}.

Definition drift (demoMode : string) : Q * Q :=
  if String.eqb demoMode "atRisk" then (0.004, 0.02)
  else if String.eqb demoMode "remediation" then (-0.002, -0.01)
  else (0, 0).

(** The door block of [tick]: the new [doorState], [lastDoorToggleMs]
    and [opensInLastHour]. *)
Definition doorStep
  (demoMode : string) (accessLocked : bool) (nowMs : Z) (uToggle : Q)
  (door : string) (lastToggle : Z) (opens : list Z) : string * Z * list Z :=
  let canToggle := (nowMs - lastToggle >? 10000)%Z in
  if negb accessLocked && canToggle then
    let baseChance :=
      if String.eqb demoMode "normal" then 0.01
      else if String.eqb demoMode "atRisk" then 0.03 else 0.05 in
    let toggleChance := if String.eqb door "closed" then baseChance else 0.08 in
    if ltb uToggle toggleChance then
      let door' := if String.eqb door "closed" then "open" else "closed" in
      let opens' := if String.eqb door' "open" then opens ++ [nowMs] else opens in
      (door', nowMs, opens')
    else (door, lastToggle, opens)
  else if accessLocked && String.eqb door "open" then
    ("closed", nowMs, opens)
  else (door, lastToggle, opens).

(** [tick(nowMs)]. *)
Definition tick (this : t) (nowMs : Z) (nz : Noise) : Outcome Reading.t :=
  let std := Standards.getStandards (artifactType this) in
  let c := controls this in
  let st := state this in
  let '(driftT, driftH) := drift (demoMode this) in
  let temperature1 :=
    temperatureC st + (nTemperature nz * 0.03 + driftT + tempBiasC c * 0.02) in
  let airflowEffect := airflowBoost c * -0.03 in
  let humidity1 :=
    humidityPct st +
    (nHumidity nz * 0.10 + driftH + humidityBiasPct c * 0.03 + airflowEffect) in
  match Standards.entry_of std with
  | None =>
      Thrown
        (set_state this
           {| temperatureC := temperature1; humidityPct := humidity1;
              moisturePct := moisturePct st; doorState := doorState st;
              lastDoorToggleMs := lastDoorToggleMs st;
              opensInLastHour := opensInLastHour st; vibration := vibration st |})
  | Some std =>
      let moistureTarget :=
        (humidity1 - midpoint (Standards.safe (Standards.humidityPct std))) * 0.04 +
        Math_min (Standards.safeMax (Standards.moisturePct std) - 0.8)
                 (Standards.safeMax (Standards.moisturePct std)) in
      let moisture1 :=
        moisturePct st +
        ((moistureTarget - moisturePct st) * 0.02 + nMoisture nz * 0.02) in
      let temperature2 := clamp temperature1 5 35 in
      let humidity2 := clamp humidity1 5 95 in
      let moisture2 := clamp moisture1 0 20 in
      let accessLocked := (nowMs <? accessLockedUntilMs c)%Z in
      let '(door, lastToggle, opens) :=
        doorStep (demoMode this) accessLocked nowMs (uToggle nz)
          (doorState st) (lastDoorToggleMs st) (opensInLastHour st) in
      let oneHourAgo := (nowMs - 60 * 60000)%Z in
      let opens' := filter (fun t => (t >=? oneHourAgo)%Z) opens in
      let bumpChance :=
        if String.eqb (demoMode this) "normal" then 0.01
        else if String.eqb (demoMode this) "atRisk" then 0.02 else 0.03 in
      let bump := if ltb (uBump nz) bumpChance then rand 0.3 0.9 (uBumpSize nz) else 0 in
      let decay := 0.85 in
      let vibration1 :=
        clamp (vibration st * decay + bump + nVibration nz * 0.01) 0 1 in
      Returned
        {| Reading.timestamp := nowMs;
           Reading.temperatureC := toFixed 2 temperature2;
           Reading.humidityPct := toFixed 1 humidity2;
           Reading.moisturePct := toFixed 2 moisture2;
           Reading.doorState := door;
           Reading.opensPerHour := length opens';
           Reading.vibration := toFixed 2 vibration1;
           Reading.accessLocked := accessLocked |}
        (set_state this
           {| temperatureC := temperature2; humidityPct := humidity2;
              moisturePct := moisture2; doorState := door;
              lastDoorToggleMs := lastToggle; opensInLastHour := opens';
              vibration := vibration1 |})
  end.

(** One [for (let i = n; i >= 0; i--) history.push(this.tick(now - i * stepMs))]
    loop, entered with counter [i] and the array [history]; the noise of
    the tick at counter [i] is [nz i]. *)
Fixpoint historyLoop
  (stepMs now : Z) (nz : nat -> Noise) (i : nat) (this : t)
  (history : list Reading.t) : Outcome (list Reading.t) :=
  match tick this (now - Z.of_nat i * stepMs)%Z (nz i) with
  | Thrown this' => Thrown this'
  | Returned r this' =>
      match i with
      | O => Returned (history ++ [r]) this'
      | S i' => historyLoop stepMs now nz i' this' (history ++ [r])
      end
  end.

(** [generateHistory()]: the pair [{ history24h, history7d }]. *)
Definition generateHistory
  (this : t) (now : Z) (nz24 nz7 : nat -> Noise)
  : Outcome (list Reading.t * list Reading.t) :=
  match historyLoop 60000 now nz24 (24 * 60) this [] with
  | Thrown this' => Thrown this'
  | Returned history24h this' =>
      match historyLoop (30 * 60000) now nz7 (7 * 48) this' [] with
      | Thrown this'' => Thrown this''
      | Returned history7d this'' => Returned (history24h, history7d) this''
      end
  end.

(** A caller's use of a simulator: a sequence of method calls, each
    with the clock and random values it consumes.  An exception is
    caught by the caller, who goes on with the object as it is. *)
Inductive Call : Type :=
| CallTick (nowMs : Z) (nz : Noise)
| CallApplyAction (actionType : string) (now : Z)
| CallSetArtifactType (artifactType : string) (now : Z) (u : InitDraws)
| CallSetDemoMode (demoMode : string) (now : Z) (u : InitDraws).

(** The object after one call and the reading the call returned, if
    any. *)
Definition call (this : t) (c : Call) : t * option Reading.t :=
  match c with
  | CallTick nowMs nz =>
      match tick this nowMs nz with
      | Returned r this' => (this', Some r)
      | Thrown this' => (this', None)
      end
  | CallApplyAction actionType now => (applyAction this actionType now, None)
  | CallSetArtifactType a now u => (after (setArtifactType this a now u), None)
  | CallSetDemoMode m now u => (after (setDemoMode this m now u), None)
  end.

(** The object after a sequence of calls and the readings emitted on
    the way, in order. *)
Fixpoint run (this : t) (cs : list Call) : t * list Reading.t :=
  match cs with
  | [] => (this, [])
  | c :: rest =>
      let '(this', r) := call this c in
      let '(this'', rs) := run this' rest in
      (this'', match r with Some x => x :: rs | None => rs end)
  end.

(** The counters a loop started at [i] goes through: [i], ..., 1, 0. *)
Definition countdown (i : nat) : list nat := rev (seq 0 (S i)).

(** The end of the access lock. *)
Definition lockEnd (this : t) : Z := accessLockedUntilMs (controls this).

(** A sequence of [applyAction] calls, each with its clock value. *)
Definition applyActions (this : t) (acts : list (string * Z)) : t :=
  fold_left (fun s a => applyAction s (fst a) (snd a)) acts this.

(** [t] lies in the hour that ends at [now]. *)
Definition inTrailingHour (now t : Z) : bool :=
  (now - 3600000 <=? t)%Z && (t <=? now)%Z.

(** The door went from not open to open between two states. *)
Definition openedBetween (before after : t) : bool :=
  negb (String.eqb (doorState (state before)) "open")
  && String.eqb (doorState (state after)) "open".

(** The door-open events on record once a tick at [nowMs] has taken
    the simulator from [before] to [after]: those on record before,
    and the tick's own if it opened the door. *)
Definition recordedOpens (before after : t) (nowMs : Z) : list Z :=
  opensInLastHour (state before) ++
  (if openedBetween before after then [nowMs] else []).

End Simulator.

(* ------------------------------------------------------------------ *)
(** ** The risk score as the specification words it

    A second definition of the composite score, written from the prose
    of the specification and not from [engine.js]; it is compared with
    [Engine.computeRiskScore] below.  The humidity slope is taken as
    given. *)

Module RiskReference.
Import Js.

Definition dist (a b : Q) : Q := Qabs (a - b).

Definition within (x : Q) (r : Q * Q) : bool := leb (fst r) x && leb x (snd r).

Definition clamp01 (t : Q) : Q := Math_max 0 (Math_min 1 t).

Definition nearestSafeBound (x : Q) (safe : Q * Q) : Q :=
  if leb (dist x (fst safe)) (dist x (snd safe)) then fst safe else snd safe.

Definition warnEdgeOnSide (x bound : Q) (warn : Q * Q) : Q :=
  if ltb x bound then fst warn else snd warn.

(** Band metrics: 0 inside safe; in the warn band 25 + 35 times the
    distance from the nearest safe bound over the distance from that
    bound to the warn edge on the same side; outside warn 70 + 30 times
    the distance past the warn edge over 5; both fractions clamped to
    [0,1]. *)
Definition bandContribution (x : Q) (b : Standards.Band) : Q :=
  let safe := Standards.safe b in
  let warn := Standards.warn b in
  if within x safe then 0
  else if within x warn then
    let bound := nearestSafeBound x safe in
    let edge := warnEdgeOnSide x bound warn in
    25 + 35 * clamp01 (dist x bound / dist bound edge)
  else
    let past := Math_min (dist x (fst warn)) (dist x (snd warn)) in
    70 + 30 * clamp01 (past / 5).

(** Max-threshold metric (moisture): 0 at or under safeMax; 25 + 35
    times the interpolation across [safeMax, warnMax]; beyond warnMax
    70 + 30 times the distance past warnMax over 3, clamped.  [gap]
    is the width the interpolation divides by. *)
Definition maxContributionOver (gap x : Q) (m : Standards.MaxBand) : Q :=
  let safeMax := Standards.safeMax m in
  let warnMax := Standards.warnMax m in
  if leb x safeMax then 0
  else if leb x warnMax then 25 + 35 * clamp01 ((x - safeMax) / gap)
  else 70 + 30 * clamp01 ((x - warnMax) / 3).

(** Access and vibration: value / divisor * 60, clamped to [0,100]. *)
Definition linearContributionOver (divisor value : Q) : Q :=
  Math_max 0 (Math_min 100 (value / divisor * 60)).

Definition amplifiers (slopePerMin : Q) (reading : Reading.t) : Q :=
  (if ltb 0.08 slopePerMin then 8 else 0) +
  (if ltb 0.15 slopePerMin then 12 else 0) +
  (if String.eqb (Reading.doorState reading) "open" then 4 else 0) -
  (if Reading.accessLocked reading then 3 else 0).

Definition weightedSumOver
  (moistureGap accessDivisor vibrationDivisor : Q)
  (reading : Reading.t) (standards : Standards.Entry) : Q :=
  0.22 * bandContribution (Reading.temperatureC reading) (Standards.temperatureC standards) +
  0.28 * bandContribution (Reading.humidityPct reading) (Standards.humidityPct standards) +
  0.22 * maxContributionOver moistureGap
           (Reading.moisturePct reading) (Standards.moisturePct standards) +
  0.16 * linearContributionOver accessDivisor
           (inject_Z (Z.of_nat (Reading.opensPerHour reading))) +
  0.12 * linearContributionOver vibrationDivisor (Reading.vibration reading).

(** The nearest integer, the upper one of two equally near. *)
Definition nearestInteger (x : Q) : Z := Qfloor (x + 0.5).

Definition riskScoreOver
  (moistureGap accessDivisor vibrationDivisor slopePerMin : Q)
  (reading : Reading.t) (standards : Standards.Entry) : Q :=
  let total :=
    weightedSumOver moistureGap accessDivisor vibrationDivisor reading standards
    + amplifiers slopePerMin reading in
  Math_max 0 (Math_min 100 (inject_Z (nearestInteger total))).

(** The score as specified: the moisture interpolation divides by
    warnMax - safeMax, the access and vibration terms by their
    warnMax. *)
Definition riskScore
  (slopePerMin : Q) (reading : Reading.t) (standards : Standards.Entry) : Q :=
  riskScoreOver
    (Standards.warnMax (Standards.moisturePct standards)
     - Standards.safeMax (Standards.moisturePct standards))
    (Standards.maxOpensPerHourWarn (Standards.access standards))
    (Standards.warnMax (Standards.vibration standards))
    slopePerMin reading standards.

(** The same score with each of the three divisors kept at or above a
    floor: 0.001, 1 and 0.01. *)
Definition riskScoreFloored
  (slopePerMin : Q) (reading : Reading.t) (standards : Standards.Entry) : Q :=
  riskScoreOver
    (Math_max 0.001
       (Standards.warnMax (Standards.moisturePct standards)
        - Standards.safeMax (Standards.moisturePct standards)))
    (Math_max 1 (Standards.maxOpensPerHourWarn (Standards.access standards)))
    (Math_max 0.01 (Standards.warnMax (Standards.vibration standards)))
    slopePerMin reading standards.

(** The standards entries on which no floor is in force. *)
Definition divisorsAtLeastFloor (s : Standards.Entry) : Prop :=
  0.001 <= Standards.warnMax (Standards.moisturePct s)
           - Standards.safeMax (Standards.moisturePct s) /\
  1 <= Standards.maxOpensPerHourWarn (Standards.access s) /\
  0.01 <= Standards.warnMax (Standards.vibration s).

End RiskReference.

(* ------------------------------------------------------------------ *)
(** ** The risk computation with every division checked

    The functions of [utils.js] and [engine.js] that divide, written
    again with a division that fails on a zero divisor; [None] is a
    division by zero. *)

Module Checked.
Import Js.
Open Scope list_scope.

Definition div (a b : Q) : option Q :=
  if Qeq_bool b 0 then None else Some (a / b).

Definition bind {A B : Type} (m : option A) (f : A -> option B) : option B :=
  match m with
  | Some a => f a
  | None => None
  end.

Notation "x <- m ;; k" := (bind m (fun x => k))
  (at level 61, m at next level, right associativity).

Fixpoint traverse {A B : Type} (f : A -> option B) (l : list A) : option (list B) :=
  match l with
  | [] => Some []
  | a :: rest =>
      b <- f a ;;
      bs <- traverse f rest ;;
      Some (b :: bs)
  end.

Definition mean (nums : list Q) : option Q :=
  match nums with
  | [] => Some 0
  | _ => div (fold_left Qplus nums 0) (inject_Z (Z.of_nat (length nums)))
  end.

Definition slope (points : list (Z * Q)) : option Q :=
  match points with
  | [] | [_] => Some 0
  | (t0, _) :: _ =>
      ts <- traverse (fun p => div (inject_Z (fst p) - inject_Z t0) 1000) points ;;
      let ys := map snd points in
      tMean <- mean ts ;;
      yMean <- mean ys ;;
      let '(num, den) := Utils.slope_loop tMean yMean ts ys 0 0 in
      if Qeq_bool den 0 then Some 0 else div num den
  end.

Definition riskFromRange (x : Q) (b : Standards.Band) : option Q :=
  if Utils.isBetweenInclusive x (Standards.safe b) then Some 0
  else if Utils.isBetweenInclusive x (Standards.warn b) then
    let '(w0, w1) := Standards.warn b in
    let '(s0, s1) := Standards.safe b in
    let d := if ltb x s0 then s0 - x else if gtb x s1 then x - s1 else 0 in
    let maxD := if ltb x s0 then s0 - w0 else w1 - s1 in
    t <- (if gtb maxD 0
          then q <- div d maxD ;; Some (Utils.clamp q 0 1)
          else Some 1) ;;
    Some (25 + 35 * t)
  else
    let '(w0, w1) := Standards.warn b in
    let d := if ltb x w0 then w0 - x else if gtb x w1 then x - w1 else 0 in
    q <- div d 5 ;;
    let t := Utils.clamp q 0 1 in
    Some (70 + 30 * t).

Definition riskFromMax (x : Q) (m : Standards.MaxBand) : option Q :=
  let safeMax := Standards.safeMax m in
  let warnMax := Standards.warnMax m in
  if leb x safeMax then Some 0
  else if leb x warnMax then
    q <- div (x - safeMax) (Math_max 0.001 (warnMax - safeMax)) ;;
    let t := Utils.clamp q 0 1 in
    Some (25 + 35 * t)
  else
    q <- div (x - warnMax) 3 ;;
    let t := Utils.clamp q 0 1 in
    Some (70 + 30 * t).

Definition humiditySlopePerMin (this : Engine.DecisionEngine) : option Q :=
  let humidityPoints :=
    map (fun p => (fst p, Reading.humidityPct (snd p))) (Engine.recent this) in
  humiditySlopePerSec <- slope humidityPoints ;;
  Some (humiditySlopePerSec * 60).

Definition weightedRisk (reading : Reading.t) (standards : Standards.Entry) : option Q :=
  riskTemp <- riskFromRange (Reading.temperatureC reading) (Standards.temperatureC standards) ;;
  riskHumidity <- riskFromRange (Reading.humidityPct reading) (Standards.humidityPct standards) ;;
  riskMoisture <- riskFromMax (Reading.moisturePct reading) (Standards.moisturePct standards) ;;
  qAccess <- div (inject_Z (Z.of_nat (Reading.opensPerHour reading)))
                 (Math_max 1 (Standards.maxOpensPerHourWarn (Standards.access standards))) ;;
  let riskAccess := Utils.clamp (qAccess * 60) 0 100 in
  qVibration <- div (Reading.vibration reading)
                    (Math_max 0.01 (Standards.warnMax (Standards.vibration standards))) ;;
  let riskVibration := Utils.clamp (qVibration * 60) 0 100 in
  Some (riskTemp * 0.22 +
        riskHumidity * 0.28 +
        riskMoisture * 0.22 +
        riskAccess * 0.16 +
        riskVibration * 0.12).

(** The [riskScore] of [evaluate], from the window to the final clamp. *)
Definition riskScore
  (this : Engine.DecisionEngine) (reading : Reading.t) (standards : Standards.Entry)
  : option Q :=
  slopePerMin <- humiditySlopePerMin this ;;
  riskScore <- weightedRisk reading standards ;;
  let riskScore := if gtb slopePerMin 0.08 then riskScore + 8 else riskScore in
  let riskScore := if gtb slopePerMin 0.15 then riskScore + 12 else riskScore in
  let riskScore :=
    if String.eqb (Reading.doorState reading) "open" then riskScore + 4 else riskScore in
  let riskScore := if Reading.accessLocked reading then riskScore - 3 else riskScore in
  Some (Utils.clamp (inject_Z (Math_round riskScore)) 0 100).

End Checked.

(* ------------------------------------------------------------------ *)
(** ** Concrete objects used in the examples below *)

Module Samples.
Open Scope string_scope.
Open Scope list_scope.

(** Every [Math.random()] of [_initState] gives 0.5. *)
Definition draws : Simulator.InitDraws :=
  {| Simulator.uTemperature := 0.5; Simulator.uHumidity := 0.5;
     Simulator.uMoisture := 0.5 |}.

(** No noise; the draws 0.5 toggle no door and cause no bump. *)
Definition quiet : Simulator.Noise :=
  {| Simulator.nTemperature := 0; Simulator.nHumidity := 0;
     Simulator.nMoisture := 0; Simulator.uToggle := 0.5;
     Simulator.uBump := 0.5; Simulator.uBumpSize := 0.5;
     Simulator.nVibration := 0 |}.

(** As [quiet], but the door draw 0 toggles the door when it may. *)
Definition toggling : Simulator.Noise :=
  {| Simulator.nTemperature := 0; Simulator.nHumidity := 0;
     Simulator.nMoisture := 0; Simulator.uToggle := 0;
     Simulator.uBump := 0.5; Simulator.uBumpSize := 0.5;
     Simulator.nVibration := 0 |}.

(** A [FOSSILS] simulator in [normal] mode with its controls untouched,
    at the values [new Simulator()] starts from at time 0 with
    [draws]. *)
Definition fossils : Simulator.t :=
  {| Simulator.artifactType := "FOSSILS";
     Simulator.demoMode := "normal";
     Simulator.controls := Simulator.initialControls;
     Simulator.state :=
       {| Simulator.temperatureC := 19;
          Simulator.humidityPct := 47.5;
          Simulator.moisturePct := 4.5;
          Simulator.doorState := "closed";
          Simulator.lastDoorToggleMs := 0;
          Simulator.opensInLastHour := [];
          Simulator.vibration := 0 |} |}.

(** A reading inside every safe band of [FOSSILS]. *)
Definition calm : Reading.t :=
  {| Reading.timestamp := 0;
     Reading.temperatureC := 19;
     Reading.humidityPct := 47.5;
     Reading.moisturePct := 4.5;
     Reading.doorState := "closed";
     Reading.opensPerHour := 0;
     Reading.vibration := 0.01;
     Reading.accessLocked := false |}.

(** As [calm], with the temperature far outside the warn band. *)
Definition hot : Reading.t :=
  {| Reading.timestamp := 0;
     Reading.temperatureC := 30;
     Reading.humidityPct := 47.5;
     Reading.moisturePct := 4.5;
     Reading.doorState := "closed";
     Reading.opensPerHour := 0;
     Reading.vibration := 0.01;
     Reading.accessLocked := false |}.


(** [fossils] with three door opens on record, made 3700 s, 1800 s
    and 60 s before the instant 4,000,000. *)
Definition threeOpens : Simulator.t :=
  Simulator.set_state fossils
    {| Simulator.temperatureC := 19;
       Simulator.humidityPct := 47.5;
       Simulator.moisturePct := 4.5;
       Simulator.doorState := "closed";
       Simulator.lastDoorToggleMs := 3940000;
       Simulator.opensInLastHour := [300000; 2200000; 3940000]%Z;
       Simulator.vibration := 0 |}.

End Samples.

(* ------------------------------------------------------------------ *)
(** ** store.js *)

Module Store.
Open Scope string_scope.
Open Scope list_scope.

Section Fields.

(** The store does not look inside what it keeps: [Snapshot] is the
    live tick object, [Point] a history point, [Log] a log entry.  The
    two history arrays are distinct objects, as [setHistory] is only
    given the pair of arrays [generateHistory] has just built. *)
Variables Snapshot Point Log : Type.

Record t : Type := {
  live : option Snapshot;      (* [None] is [null] *)
  history24h : list Point;
  history7d : list Point;
  logs : list Log
}.

Definition constructor : t :=
  {| live := None; history24h := []; history7d := []; logs := [] |}.

Definition setHistory (this : t) (h24 h7 : list Point) : t :=
  {| live := live this; history24h := h24; history7d := h7; logs := logs this |}.

Definition setLive (this : t) (snapshot : Snapshot) : t :=
  {| live := Some snapshot; history24h := history24h this;
     history7d := history7d this; logs := logs this |}.

(** [arr.push(x); if (arr.length > max) arr.splice(0, arr.length - max)]:
    the array afterwards. *)
Definition pushCapped {A : Type} (max : nat) (arr : list A) (x : A) : list A :=
  let arr := arr ++ [x] in
  if (max <? length arr)%nat then skipn (length arr - max) arr else arr.

Definition pushLog (this : t) (entry : Log) : t :=
  {| live := live this; history24h := history24h this;
     history7d := history7d this; logs := pushCapped 500 (logs this) entry |}.

Definition getHistory (this : t) (range : string) : list Point :=
  if String.eqb range "7d" then history7d this else history24h this.

Definition appendToHistory (this : t) (range : string) (point : Point) : t :=
  if String.eqb range "7d" then
    {| live := live this; history24h := history24h this;
       history7d := pushCapped 400 (history7d this) point; logs := logs this |}
  else
    {| live := live this;
       history24h := pushCapped 2000 (history24h this) point;
       history7d := history7d this; logs := logs this |}.

(** The value of [Number(limit)]. *)
Inductive Number : Type :=
| NaN
| Finite (q : Q)
| PosInfinity
| NegInfinity.

(** [clamp(Number(limit) || 50, 1, 500)].  [NaN] and 0 are falsy and
    give 50.  [Math.min(500, Infinity)] is 500, [Math.min(500, -Infinity)]
    is [-Infinity] and [Math.max(1, -Infinity)] is 1. *)
Definition safeLimit (number : Number) : Q :=
  match number with
  | NaN => Utils.clamp 50 1 500
  | Finite q => Utils.clamp (if Qeq_bool q 0 then 50 else q) 1 500
  | PosInfinity => 500
  | NegInfinity => 1
  end.

(** [getLogs(limit)]: [logs.slice(-safeLimit).reverse()].  The slice
    starts [trunc(safeLimit)] places before the end, or at the start of
    a shorter array. *)
Definition getLogs (this : t) (number : Number) : list Log :=
  let k := Z.to_nat (Qfloor (safeLimit number)) in
  rev (skipn (length (logs this) - k) (logs this)).

End Fields.

Arguments live {Snapshot Point Log} _.
Arguments history24h {Snapshot Point Log} _.
Arguments history7d {Snapshot Point Log} _.
Arguments logs {Snapshot Point Log} _.
Arguments constructor {Snapshot Point Log}.
Arguments setHistory {Snapshot Point Log} _ _ _.
Arguments setLive {Snapshot Point Log} _ _.
Arguments pushLog {Snapshot Point Log} _ _.
Arguments getHistory {Snapshot Point Log} _ _.
Arguments appendToHistory {Snapshot Point Log} _ _ _.
Arguments getLogs {Snapshot Point Log} _ _.

End Store.

(* ------------------------------------------------------------------ *)
(** ** server.js *)

(** The [config] object. *)
Module Config.
Record t : Type := { artifactType : string; demoMode : string }.
End Config.

(** The object the main loop stores as [live] and broadcasts. *)
Module Tick.
Record t : Type := {
  timestamp : Z;
  artifactType : string;
  demoMode : string;
  reading : Reading.t;
  standards : Standards.Entry;
  assessment : Assessment.t
}.
End Tick.

(** The entries handed to [logEvent]; the constructor is the [kind]
    field.  [id] is the value of [crypto.randomUUID()], [timestamp]
    the instant of [nowIso()]. *)
Module LogEntry.

Record Context : Type := {
  temperatureC : Q;
  humidityPct : Q;
  moisturePct : Q;
  opensPerHour : nat;
  vibration : Q
}.

Inductive t : Type :=
| AUTO_REMEDIATION
    (id : string) (timestamp : Z) (actionType label : string)
    (reason : Js.Template) (context : Context)
| CONFIG (id : string) (timestamp : Z) (message : Js.Template).

(** The [actionType] field, [None] where the entry has none. *)
Definition actionType (e : t) : option string :=
  match e with
  | AUTO_REMEDIATION _ _ ty _ _ _ => Some ty
  | CONFIG _ _ _ => None
  end.

End LogEntry.

Module Server.
Import Js.
Open Scope string_scope.
Open Scope list_scope.

(** A message handed to [broadcast]. *)
Inductive Message : Type :=
| LogMessage (data : LogEntry.t)     (* [{ type: "log", data }] *)
| TickMessage (data : Tick.t).       (* [{ type: "tick", data }] *)

(** The module-level objects of the server.  [broadcasts] is the trace
    of the messages handed to [broadcast], oldest first; which sockets
    are open at each of them is left out. *)
Record t : Type := {
  config : Config.t;
  simulator : Simulator.t;
  engine : Engine.DecisionEngine;
  store : Store.t Tick.t Reading.t LogEntry.t;
  broadcasts : list Message
}.

Definition set_config (sv : t) (c : Config.t) : t :=
  {| config := c; simulator := simulator sv; engine := engine sv;
     store := store sv; broadcasts := broadcasts sv |}.

Definition set_simulator (sv : t) (s : Simulator.t) : t :=
  {| config := config sv; simulator := s; engine := engine sv;
     store := store sv; broadcasts := broadcasts sv |}.

Definition set_engine (sv : t) (e : Engine.DecisionEngine) : t :=
  {| config := config sv; simulator := simulator sv; engine := e;
     store := store sv; broadcasts := broadcasts sv |}.

Definition set_store (sv : t) (s : Store.t Tick.t Reading.t LogEntry.t) : t :=
  {| config := config sv; simulator := simulator sv; engine := engine sv;
     store := s; broadcasts := broadcasts sv |}.

Definition broadcast (sv : t) (msg : Message) : t :=
  {| config := config sv; simulator := simulator sv; engine := engine sv;
     store := store sv; broadcasts := broadcasts sv ++ [msg] |}.

Definition logEvent (sv : t) (entry : LogEntry.t) : t :=
  broadcast (set_store sv (Store.pushLog (store sv) entry)) (LogMessage entry).

(** The module initialisation: the store, the engine, the config, the
    simulator built from it and the first [setHistory].  [None] when
    the constructor or [generateHistory] throws and the process does
    not start. *)
Definition start
  (now0 : Z) (u : Simulator.InitDraws) (now1 : Z) (nz24 nz7 : nat -> Simulator.Noise)
  : option t :=
  let config := {| Config.artifactType := "FOSSILS"; Config.demoMode := "normal" |} in
  match Simulator.constructor (Config.artifactType config) (Config.demoMode config) now0 u with
  | None => None
  | Some simulator =>
      match Simulator.generateHistory simulator now1 nz24 nz7 with
      | Simulator.Thrown _ => None
      | Simulator.Returned (history24h, history7d) simulator =>
          Some {| config := config;
                  simulator := simulator;
                  engine := Engine.constructor;
                  store := Store.setHistory Store.constructor history24h history7d;
                  broadcasts := [] |}
      end
  end.

(** What one turn of the loop in [applyActions] consumes: the
    [Date.now()] of [applyAction], the [crypto.randomUUID()] and the
    [nowIso()] of the log entry. *)
Record Stamp : Type := { clock : Z; id : string; iso : Z }.

(** [applyActions(actions, reading)]; the turn for the action at
    position [i] of the array takes [stamps (k + i)]. *)
Fixpoint applyActions
  (sv : t) (actions : list Assessment.Action) (reading : Reading.t)
  (stamps : nat -> Stamp) (k : nat) : t :=
  match actions with
  | [] => sv
  | action :: rest =>
      let s := stamps k in
      let sv :=
        set_simulator sv
          (Simulator.applyAction (simulator sv) (Assessment.type action) (clock s)) in
      let sv :=
        logEvent sv
          (LogEntry.AUTO_REMEDIATION (id s) (iso s)
             (Assessment.type action) (Assessment.label action) (Assessment.reason action)
             {| LogEntry.temperatureC := Reading.temperatureC reading;
                LogEntry.humidityPct := Reading.humidityPct reading;
                LogEntry.moisturePct := Reading.moisturePct reading;
                LogEntry.opensPerHour := Reading.opensPerHour reading;
                LogEntry.vibration := Reading.vibration reading |}) in
      applyActions sv rest reading stamps (S k)
  end.

(** How a callback of the server ends: it returns, or an exception
    leaves it uncaught. *)
Inductive Result : Type :=
| Done (sv : t)
| Crashed (sv : t).

(** One run of the [setInterval] callback; [nowMs] is the [Date.now()]
    of [tick], [nz] its random values.  [Date.parse(reading.timestamp)]
    gives back the instant the ISO string was made from, and [%] is
    the remainder with the sign of the dividend. *)
Definition cycle
  (sv : t) (nowMs : Z) (nz : Simulator.Noise) (stamps : nat -> Stamp) : Result :=
  match Simulator.tick (simulator sv) nowMs nz with
  | Simulator.Thrown simulator => Crashed (set_simulator sv simulator)
  | Simulator.Returned reading simulator =>
      let sv := set_simulator sv simulator in
      let sv := set_engine sv (Engine.ingest (engine sv) reading) in
      match Standards.entry_of (Standards.getStandards (Config.artifactType (config sv))) with
      | None => Crashed sv
      | Some standards =>
          let '(engine, assessment) := Engine.evaluate (engine sv) reading standards in
          let sv := set_engine sv engine in
          let sv :=
            match Assessment.actions assessment with
            | [] => sv
            | actions => applyActions sv actions reading stamps 0
            end in
          let tick :=
            {| Tick.timestamp := Reading.timestamp reading;
               Tick.artifactType := Config.artifactType (config sv);
               Tick.demoMode := Config.demoMode (config sv);
               Tick.reading := reading;
               Tick.standards := standards;
               Tick.assessment := assessment |} in
          let sv := set_store sv (Store.setLive (store sv) tick) in
          let sv := broadcast sv (TickMessage tick) in
          let ms := Reading.timestamp reading in
          let sv :=
            if (Z.rem ms 60000 <? 1000)%Z
            then set_store sv (Store.appendToHistory (store sv) "24h" reading)
            else sv in
          let sv :=
            if (Z.rem ms (30 * 60000) <? 1000)%Z
            then set_store sv (Store.appendToHistory (store sv) "7d" reading)
            else sv in
          Done sv
      end
  end.

(** A property of the parsed JSON body of a request, as far as the
    handler tells values apart; arrays and objects are [JCompound]. *)
Inductive Json : Type :=
| JNull
| JBool (b : bool)
| JNumber (q : Q)
| JString (s : string)
| JCompound.

(** Truthiness of a property read from the body; [None] is
    [undefined]. *)
Definition truthy (v : option Json) : bool :=
  match v with
  | None => false
  | Some JNull => false
  | Some (JBool b) => b
  | Some (JNumber q) => negb (Qeq_bool q 0)
  | Some (JString s) => negb (String.eqb s "")
  | Some JCompound => true
  end.

(** [list.includes(v)] for an array of strings: only an equal string
    is found. *)
Definition includes (list : list string) (v : option Json) : bool :=
  match v with
  | Some (JString s) => existsb (String.eqb s) list
  | _ => false
  end.

(** [if (v) config.field = v], [old] being the field before.  The
    handler gets here only with [v] falsy or a string of the list it
    was checked against. *)
Definition assigned (old : string) (v : option Json) : string :=
  match v with
  | Some (JString s) => if truthy v then s else old
  | _ => old
  end.

(** The answer of [POST /api/config]. *)
Inductive Response : Type :=
| Ok (config : Config.t)         (* 200 [{ ok: true, config }] *)
| BadRequest (error : string)    (* 400 [{ error }] *)
| InternalError.                 (* the handler threw *)

(** The clock and random values an accepted request consumes. *)
Record ConfigEnv : Type := {
  nowType : Z; drawsType : Simulator.InitDraws;
  nowMode : Z; drawsMode : Simulator.InitDraws;
  nowHistory : Z; noise24h : nat -> Simulator.Noise; noise7d : nat -> Simulator.Noise;
  logId : string; logIso : Z
}.

(** The handler of [POST /api/config], [artifactType] and [demoMode]
    being the two properties read from [req.body ?? {}]. *)
Definition postConfig
  (sv : t) (artifactType demoMode : option Json) (env : ConfigEnv) : t * Response :=
  if truthy artifactType && negb (includes Standards.ARTIFACT_TYPES artifactType) then
    (sv, BadRequest "Unknown artifactType")
  else if truthy demoMode && negb (includes Simulator.DEMO_MODES demoMode) then
    (sv, BadRequest "Unknown demoMode")
  else
    let config :=
      {| Config.artifactType := assigned (Config.artifactType (config sv)) artifactType;
         Config.demoMode := assigned (Config.demoMode (config sv)) demoMode |} in
    let sv := set_config sv config in
    match Simulator.setArtifactType (simulator sv) (Config.artifactType config)
            (nowType env) (drawsType env) with
    | Simulator.Thrown simulator => (set_simulator sv simulator, InternalError)
    | Simulator.Returned _ simulator =>
        match Simulator.setDemoMode simulator (Config.demoMode config)
                (nowMode env) (drawsMode env) with
        | Simulator.Thrown simulator => (set_simulator sv simulator, InternalError)
        | Simulator.Returned _ simulator =>
            match Simulator.generateHistory simulator (nowHistory env)
                    (noise24h env) (noise7d env) with
            | Simulator.Thrown simulator => (set_simulator sv simulator, InternalError)
            | Simulator.Returned (history24h, history7d) simulator =>
                let sv := set_simulator sv simulator in
                let sv := set_store sv (Store.setHistory (store sv) history24h history7d) in
                let sv :=
                  logEvent sv
                    (LogEntry.CONFIG (logId env) (logIso env)
                       [Txt "Config updated: artifactType=";
                        Txt (Config.artifactType config);
                        Txt ", demoMode=";
                        Txt (Config.demoMode config)]) in
                (sv, Ok config)
            end
        end
    end.

(** The config names a listed artifact type and a listed demo mode,
    and the simulator runs with both. *)
Definition consistent (sv : t) : Prop :=
  In (Config.artifactType (config sv)) Standards.ARTIFACT_TYPES /\
  In (Config.demoMode (config sv)) Simulator.DEMO_MODES /\
  Simulator.artifactType (simulator sv) = Config.artifactType (config sv) /\
  Simulator.demoMode (simulator sv) = Config.demoMode (config sv).

End Server.

(* ------------------------------------------------------------------ *)
(** ** Notions used to state further properties *)

Module Trend.

(** Seconds from [t0] to the time of a point. *)
Definition elapsed (t0 : Z) (p : Z * Q) : Q :=
  (inject_Z (fst p) - inject_Z t0) / 1000.


End Trend.

Module Outputs.
Open Scope string_scope.
Open Scope list_scope.

Definition stableInsight : Js.Template :=
  [Js.Txt "All conditions look stable. ConserveBot is just monitoring."].

(** All five statuses of an assessment are ["safe"]. *)
Definition allSafe (a : Assessment.t) : Prop :=
  let s := Assessment.statuses a in
  Assessment.status (Assessment.temperature s) = "safe" /\
  Assessment.status (Assessment.humidity s) = "safe" /\
  Assessment.status (Assessment.moisture s) = "safe" /\
  Assessment.status (Assessment.access s) = "safe" /\
  Assessment.status (Assessment.vibration s) = "safe".

(** The [type] fields of the actions [evaluate] selects, in order. *)
Definition selectedTypes (reading : Reading.t) (standards : Standards.Entry) : list string :=
  map Assessment.type (Engine.selectedActions reading standards).

(** [y] is at least as far out of the safe band as [x], on the same
    side. *)
Definition fartherOut (b : Standards.Band) (x y : Q) : Prop :=
  (fst (Standards.safe b) <= x /\ x <= y) \/ (y <= x /\ x <= snd (Standards.safe b)).

End Outputs.

Module Actuators.
Open Scope string_scope.
Open Scope list_scope.

(** The cases of the [switch] in [applyAction]. *)
Definition knownActionTypes : list string :=
  ["ADJUST_TEMP_DOWN"; "ADJUST_TEMP_UP"; "DEHUMIDIFY"; "HUMIDIFY";
   "TRIGGER_AIRFLOW"; "LOCK_ACCESS_10_MIN"].

Definition airflowInRange (this : Simulator.t) : Prop :=
  0 <= Simulator.airflowBoost (Simulator.controls this) <= 1.

End Actuators.

(** Inputs the further properties are tried on. *)
Module Scenarios.
Open Scope string_scope.
Open Scope list_scope.

(** As [Samples.calm], with the humidity under the warn band of
    [FOSSILS]. *)
Definition parched : Reading.t :=
  {| Reading.timestamp := 0;
     Reading.temperatureC := 19;
     Reading.humidityPct := 30;
     Reading.moisturePct := 4.5;
     Reading.doorState := "closed";
     Reading.opensPerHour := 0;
     Reading.vibration := 0.01;
     Reading.accessLocked := false |}.

(** A server with the initial config whose simulator is
    [Samples.fossils], with nothing stored and nothing sent yet. *)
Definition idle : Server.t :=
  {| Server.config := {| Config.artifactType := "FOSSILS"; Config.demoMode := "normal" |};
     Server.simulator := Samples.fossils;
     Server.engine := Engine.constructor;
     Server.store := Store.constructor;
     Server.broadcasts := [] |}.

Definition stamps (i : nat) : Server.Stamp :=
  {| Server.clock := 1000; Server.id := "log"; Server.iso := 1000 |}.

Definition env : Server.ConfigEnv :=
  {| Server.nowType := 1000; Server.drawsType := Samples.draws;
     Server.nowMode := 1000; Server.drawsMode := Samples.draws;
     Server.nowHistory := 1000;
     Server.noise24h := fun _ => Samples.quiet;
     Server.noise7d := fun _ => Samples.quiet;
     Server.logId := "log"; Server.logIso := 1000 |}.

End Scenarios.

(* ================================================================== *)
(** * Properties *)

(* ------------------------------------------------------------------ *)
(** ** Comparisons, [Math.max], [Math.min], [clamp] *)

Section Comparisons.
Import Js.

Lemma leb_true_iff (a b : Q) : leb a b = true <-> a <= b.
Proof. unfold leb. apply Qle_bool_iff. Qed.

Lemma leb_false_iff (a b : Q) : leb a b = false <-> b < a.
Proof.
  unfold leb. split; intro H.
  - apply Qnot_le_lt. intro Hle. apply Qle_bool_iff in Hle. congruence.
  - destruct (Qle_bool a b) eqn:E; [|reflexivity].
    apply Qle_bool_iff in E. exfalso. apply (Qlt_not_le _ _ H E).
Qed.

Lemma ltb_true_iff (a b : Q) : ltb a b = true <-> a < b.
Proof.
  unfold ltb. rewrite negb_true_iff. apply leb_false_iff.
Qed.

Lemma ltb_false_iff (a b : Q) : ltb a b = false <-> b <= a.
Proof.
  unfold ltb. rewrite negb_false_iff. apply leb_true_iff.
Qed.

Lemma leb_spec (a b : Q) : BoolSpec (a <= b) (b < a) (leb a b).
Proof.
  destruct (leb a b) eqn:E; constructor.
  - now apply leb_true_iff.
  - now apply leb_false_iff.
Qed.

Lemma ltb_spec (a b : Q) : BoolSpec (a < b) (b <= a) (ltb a b).
Proof.
  destruct (ltb a b) eqn:E; constructor.
  - now apply ltb_true_iff.
  - now apply ltb_false_iff.
Qed.

Lemma leb_true (a b : Q) : a <= b -> leb a b = true.
Proof. apply leb_true_iff. Qed.

Lemma leb_false (a b : Q) : b < a -> leb a b = false.
Proof. apply leb_false_iff. Qed.

Lemma ltb_true (a b : Q) : a < b -> ltb a b = true.
Proof. apply ltb_true_iff. Qed.

Lemma ltb_false (a b : Q) : b <= a -> ltb a b = false.
Proof. apply ltb_false_iff. Qed.

#[export] Instance leb_proper : Proper (Qeq ==> Qeq ==> eq) leb.
Proof. intros a a' Ha b b' Hb. unfold leb. now rewrite Ha, Hb. Qed.

#[export] Instance ltb_proper : Proper (Qeq ==> Qeq ==> eq) ltb.
Proof. intros a a' Ha b b' Hb. unfold ltb. now rewrite Ha, Hb. Qed.

#[export] Instance Math_max_proper : Proper (Qeq ==> Qeq ==> Qeq) Math_max.
Proof.
  intros a a' Ha b b' Hb. unfold Math_max. rewrite Ha, Hb.
  destruct (leb a' b'); assumption.
Qed.

#[export] Instance Math_min_proper : Proper (Qeq ==> Qeq ==> Qeq) Math_min.
Proof.
  intros a a' Ha b b' Hb. unfold Math_min. rewrite Ha, Hb.
  destruct (leb a' b'); assumption.
Qed.

#[export] Instance clamp_proper : Proper (Qeq ==> Qeq ==> Qeq ==> Qeq) Utils.clamp.
Proof.
  intros n n' Hn lo lo' Hlo hi hi' Hhi. unfold Utils.clamp.
  now rewrite Hn, Hlo, Hhi.
Qed.

Lemma Math_max_lub (a b c : Q) : a <= c -> b <= c -> Math_max a b <= c.
Proof. intros; unfold Math_max; destruct (leb a b); assumption. Qed.

Lemma Math_max_l (a b : Q) : a <= Math_max a b.
Proof. unfold Math_max. destruct (leb_spec a b); lra. Qed.

Lemma Math_max_r (a b : Q) : b <= Math_max a b.
Proof. unfold Math_max. destruct (leb_spec a b); lra. Qed.

Lemma Math_min_l (a b : Q) : Math_min a b <= a.
Proof. unfold Math_min. destruct (leb_spec a b); lra. Qed.

Lemma Math_min_r (a b : Q) : Math_min a b <= b.
Proof. unfold Math_min. destruct (leb_spec a b); lra. Qed.

(** [clamp] lands between its bounds whenever they are ordered. *)
Lemma clamp_bounds (n lo hi : Q) :
  lo <= hi -> lo <= Utils.clamp n lo hi <= hi.
Proof.
  intro H. unfold Utils.clamp. split.
  - apply Math_max_l.
  - apply Math_max_lub; [assumption | apply Math_min_l].
Qed.

(** Inside the bounds [clamp] changes nothing. *)
Lemma clamp_id (n lo hi : Q) : lo <= n <= hi -> Utils.clamp n lo hi == n.
Proof.
  intros [H1 H2]. unfold Utils.clamp, Math_max, Math_min.
  destruct (leb_spec hi n);
    [destruct (leb_spec lo hi) | destruct (leb_spec lo n)]; lra.
Qed.

(** [Math.round] gives an integer at most one half away. *)
Lemma Math_round_nearest (x : Q) :
  x - 0.5 < inject_Z (Math_round x) <= x + 0.5.
Proof.
  unfold Math_round. split.
  - pose proof (Qlt_floor (x + 0.5)) as H. rewrite inject_Z_plus in H.
    change (inject_Z 1) with 1 in H. lra.
  - apply Qfloor_le.
Qed.

End Comparisons.

(* ------------------------------------------------------------------ *)
(** ** Standards lookup *)

Section StandardsLookup.
Import Standards.
Open Scope string_scope.

Lemma getStandards_own (key : string) (e : Entry) :
  own STANDARDS_BY_TYPE key = Some e -> getStandards key = VEntry e.
Proof. unfold getStandards, get. now intros ->. Qed.

(** A key that is neither in the table nor a property of
    [Object.prototype] gets the [FOSSILS] entry. *)
Lemma getStandards_fallback (key : string) :
  own STANDARDS_BY_TYPE key = None -> inherited key = false ->
  getStandards key = VEntry FOSSILS.
Proof. unfold getStandards, get. now intros -> ->. Qed.

(** The lookup never yields [undefined]. *)
Lemma getStandards_defined (key : string) : getStandards key <> VUndefined.
Proof.
  unfold getStandards, get.
  destruct (own STANDARDS_BY_TYPE key); [discriminate|].
  destruct (inherited key); discriminate.
Qed.

Lemma getStandards_listed (key : string) :
  In key ARTIFACT_TYPES -> exists e, getStandards key = VEntry e.
Proof.
  simpl. intros [<-|[<-|[<-|[<-|[]]]]]; eexists; reflexivity.
Qed.

(** Every entry the lookup can return is well formed and has its
    three guarded divisors at or above their floors. *)
Lemma table_wellFormed (key : string) (e : Entry) :
  getStandards key = VEntry e ->
  wellFormed e /\ RiskReference.divisorsAtLeastFloor e.
Proof.
  unfold getStandards, get, STANDARDS_BY_TYPE. cbn [own].
  assert (HF : wellFormed FOSSILS /\ RiskReference.divisorsAtLeastFloor FOSSILS).
  { unfold wellFormed, bandOrdered, RiskReference.divisorsAtLeastFloor; cbn.
    repeat split; lra. }
  destruct (String.eqb "FOSSILS" key);
    [cbn; intro H; injection H as <-; exact HF|].
  destruct (String.eqb "ORGANIC" key).
  { cbn; intro H; injection H as <-.
    unfold wellFormed, bandOrdered, RiskReference.divisorsAtLeastFloor; cbn.
    repeat split; lra. }
  destruct (String.eqb "METALLIC" key).
  { cbn; intro H; injection H as <-.
    unfold wellFormed, bandOrdered, RiskReference.divisorsAtLeastFloor; cbn.
    repeat split; lra. }
  destruct (String.eqb "STONE" key).
  { cbn; intro H; injection H as <-.
    unfold wellFormed, bandOrdered, RiskReference.divisorsAtLeastFloor; cbn.
    repeat split; lra. }
  destruct (inherited key); cbn; intro H; [discriminate H|].
  injection H as <-. exact HF.
Qed.

(** C9, at the key ["constructor"]: the table does not own it, yet the
    lookup does not fall back to the [FOSSILS] entry. The access finds
    the property inherited from [Object.prototype], which is not
    nullish, so [??] keeps it; the result is not a standards entry, and
    reading a threshold from it fails. *)
Theorem getStandards_constructor_not_fallback :
  own STANDARDS_BY_TYPE "constructor" = None /\
  getStandards "constructor" = VInherited "constructor" /\
  getStandards "constructor" <> VEntry FOSSILS /\
  entry_of (getStandards "constructor") = None.
Proof. repeat split; try reflexivity. discriminate. Qed.

End StandardsLookup.

(* ------------------------------------------------------------------ *)
(** ** Control biases *)

Section ControlBiases.
Import Simulator.
Open Scope string_scope.
Open Scope Z_scope.

Lemma applyAction_lock (this : Simulator.t) (now : Z) :
  lockEnd (applyAction this "LOCK_ACCESS_10_MIN" now) =
  Z.max (lockEnd this) (now + 600000).
Proof. reflexivity. Qed.

Lemma applyAction_lock_le (this : Simulator.t) (actionType : string) (now : Z) :
  lockEnd this <= lockEnd (applyAction this actionType now).
Proof.
  unfold lockEnd, applyAction.
  repeat match goal with
         | |- context [String.eqb ?a ?b] => destruct (String.eqb a b)
         end; simpl; lia.
Qed.

Lemma applyActions_lock_le (acts : list (string * Z)) :
  forall this, lockEnd this <= lockEnd (applyActions this acts).
Proof.
  induction acts as [|a acts IH]; intro this; simpl.
  - lia.
  - etransitivity; [apply (applyAction_lock_le this (fst a) (snd a))|].
    apply IH.
Qed.

(** C6: [LOCK_ACCESS_10_MIN] moves the lock end to the larger of its
    current value and [now] + 10 minutes; over any sequence of
    [applyAction] calls the lock end never decreases; and a
    [LOCK_ACCESS_10_MIN] aiming before the current lock end leaves it
    as it is. *)
Theorem lock_access_never_shortens (this : Simulator.t) (now : Z) :
  lockEnd (applyAction this "LOCK_ACCESS_10_MIN" now)
    = Z.max (lockEnd this) (now + 10 * 60000) /\
  (forall acts, lockEnd this <= lockEnd (applyActions this acts)) /\
  (now + 10 * 60000 <= lockEnd this ->
   lockEnd (applyAction this "LOCK_ACCESS_10_MIN" now) = lockEnd this).
Proof.
  split; [apply applyAction_lock|].
  split; [intro acts; apply applyActions_lock_le|].
  intro H. rewrite applyAction_lock. lia.
Qed.

(** Two locks two minutes apart, the second with a clock that went
    back: the end set by the first one stays. *)
Lemma lock_access_never_shortens_witness :
  let locked := applyAction Samples.fossils "LOCK_ACCESS_10_MIN" 120000 in
  lockEnd locked = 720000 /\
  0 + 10 * 60000 <= lockEnd locked /\
  lockEnd (applyAction locked "LOCK_ACCESS_10_MIN" 0) = 720000.
Proof.
  split; [reflexivity|].
  split; [vm_compute; discriminate|].
  apply (proj2 (proj2 (lock_access_never_shortens
           (applyAction Samples.fossils "LOCK_ACCESS_10_MIN" 120000) 0))).
  vm_compute; discriminate.
Defined.

End ControlBiases.

(* ------------------------------------------------------------------ *)
(** ** The decision engine: gate and purity *)

Section EngineGate.
Import Engine.
Open Scope string_scope.

(** C2: below a risk score of 45 the returned [actions] are empty; from
    45 on they are the selected actions, unchanged. *)
Theorem actions_gated_at_45
  (this : DecisionEngine) (reading : Reading.t) (standards : Standards.Entry) :
  let a := snd (evaluate this reading standards) in
  (Assessment.riskScore a < 45 -> Assessment.actions a = []) /\
  (45 <= Assessment.riskScore a ->
   Assessment.actions a = selectedActions reading standards).
Proof.
  cbv zeta. unfold evaluate, selectedActions. cbn [snd Assessment.riskScore Assessment.actions].
  unfold Js.geb.
  destruct (leb_spec 45 (computeRiskScore (humiditySlopePerMin this) reading standards)) as [H|H].
  - split; [intro H'; lra | reflexivity].
  - split; [reflexivity | intro H'; lra].
Qed.

(** A temperature in danger with everything else safe scores 22: an
    action was selected, none is returned. *)
Lemma actions_gated_at_45_witness :
  let a := snd (evaluate constructor Samples.hot Standards.FOSSILS) in
  Assessment.status (Assessment.temperature (Assessment.statuses a)) = "danger" /\
  selectedActions Samples.hot Standards.FOSSILS <> [] /\
  Assessment.riskScore a < 45 /\
  Assessment.actions a = [].
Proof.
  split; [reflexivity|].
  split; [vm_compute; discriminate|].
  split; [reflexivity|].
  apply (proj1 (actions_gated_at_45 constructor Samples.hot Standards.FOSSILS)).
  reflexivity.
Defined.

(** C8: [evaluate] leaves the engine, and so the trend window, as it
    found it, and a second call with the same reading and standards
    returns the same assessment. *)
Theorem evaluate_pure_idempotent
  (this : DecisionEngine) (reading : Reading.t) (standards : Standards.Entry) :
  let '(this1, a1) := evaluate this reading standards in
  let '(this2, a2) := evaluate this1 reading standards in
  this1 = this /\ recent this1 = recent this /\
  this2 = this /\ a2 = a1.
Proof.
  unfold evaluate. repeat split; reflexivity.
Qed.

End EngineGate.

(* ------------------------------------------------------------------ *)
(** ** What touches the control biases *)

Section ControlsFrame.
Import Simulator.
Open Scope string_scope.

Lemma tick_controls (this : Simulator.t) (nowMs : Z) (nz : Noise) :
  controls (after (tick this nowMs nz)) = controls this.
Proof.
  unfold tick.
  destruct (drift (demoMode this)) as [driftT driftH].
  destruct (Standards.entry_of _); [|reflexivity].
  destruct (doorStep _ _ _ _ _ _ _) as [[door lastToggle] opens].
  reflexivity.
Qed.

Lemma tick_artifactType (this : Simulator.t) (nowMs : Z) (nz : Noise) :
  artifactType (after (tick this nowMs nz)) = artifactType this /\
  demoMode (after (tick this nowMs nz)) = demoMode this.
Proof.
  unfold tick.
  destruct (drift (demoMode this)) as [driftT driftH].
  destruct (Standards.entry_of _); [|split; reflexivity].
  destruct (doorStep _ _ _ _ _ _ _) as [[door lastToggle] opens].
  split; reflexivity.
Qed.

Lemma initState_controls (this : Simulator.t) (now : Z) (u : InitDraws) :
  controls (after (_initState this now u)) = controls this.
Proof.
  unfold _initState. destruct (initialState _ _ _ _); reflexivity.
Qed.

(** C4 as stated fails: after a [HUMIDIFY] action, [setArtifactType]
    (and likewise [setDemoMode]) leaves the humidity bias at 0.4 where
    a newly constructed simulator has 0, so the object differs from
    the reconstructed one. *)
Lemma reinit_resets_controls_counterexample :
  let biased := applyAction Samples.fossils "HUMIDIFY" 0 in
  let retyped := after (setArtifactType biased "STONE" 1000 Samples.draws) in
  let remoded := after (setDemoMode biased "atRisk" 1000 Samples.draws) in
  ~ humidityBiasPct (controls retyped) == humidityBiasPct initialControls /\
  ~ humidityBiasPct (controls remoded) == humidityBiasPct initialControls /\
  Some retyped <> constructor "STONE" "normal" 1000 Samples.draws /\
  Some remoded <> constructor "FOSSILS" "atRisk" 1000 Samples.draws.
Proof.
  cbv zeta. repeat split; try (vm_compute; discriminate).
Qed.

(** C4, amended: [tick] never changes the control biases;
    [setArtifactType] and [setDemoMode] keep them as well: each gives
    the object that construction with the new parameter (and the other
    one kept) gives, except that the control biases are the old ones
    and not the zero values of construction; of the calls a caller can
    make, only [applyAction] changes them. *)
Theorem controls_changed_only_by_applyAction :
  (forall this nowMs nz, controls (after (tick this nowMs nz)) = controls this) /\
  (forall this a now u, controls (after (setArtifactType this a now u)) = controls this) /\
  (forall this m now u, controls (after (setDemoMode this m now u)) = controls this) /\
  (forall a m now u,
     match constructor a m now u with
     | Some fresh => controls fresh = initialControls
     | None => True
     end) /\
  (forall this a now u,
     match constructor a (demoMode this) now u with
     | Some fresh =>
         setArtifactType this a now u = Returned tt (set_controls fresh (controls this))
     | None => exists this', setArtifactType this a now u = Thrown this'
     end) /\
  (forall this m now u,
     match constructor (artifactType this) m now u with
     | Some fresh =>
         setDemoMode this m now u = Returned tt (set_controls fresh (controls this))
     | None => exists this', setDemoMode this m now u = Thrown this'
     end) /\
  (forall this c,
     controls (fst (call this c)) = controls this \/
     exists actionType now, c = CallApplyAction actionType now).
Proof.
  repeat apply conj.
  - apply tick_controls.
  - intros. exact (initState_controls _ now u).
  - intros. exact (initState_controls _ now u).
  - intros. unfold constructor. destruct (initialState _ _ _ _); [reflexivity|exact I].
  - intros. unfold constructor, setArtifactType, _initState. cbn [artifactType demoMode].
    destruct (initialState _ _ _ _); [reflexivity|eexists; reflexivity].
  - intros. unfold constructor, setDemoMode, _initState. cbn [artifactType demoMode].
    destruct (initialState _ _ _ _); [reflexivity|eexists; reflexivity].
  - intros this [nowMs nz|actionType now|a now u|m now u]; cbn [call].
    + left. pose proof (tick_controls this nowMs nz) as H.
      destruct (tick this nowMs nz); exact H.
    + right. eauto.
    + left. exact (initState_controls _ now u).
    + left. exact (initState_controls _ now u).
Qed.

End ControlsFrame.

(* ------------------------------------------------------------------ *)
(** ** Physical bounds of the emitted readings *)

Section ReadingBounds.
Import Simulator.
Open Scope string_scope.

(** Rounding to [d] decimals keeps a value between two bounds that
    are themselves multiples of [10^-d]. *)
Lemma toFixed_between (d : nat) (zlo zhi : Z) (lo hi x : Q) :
  lo * inject_Z (Js.pow10 d) == inject_Z zlo ->
  hi * inject_Z (Js.pow10 d) == inject_Z zhi ->
  0 <= lo -> lo <= x <= hi ->
  lo <= Js.toFixed d x <= hi.
Proof.
  intros Hlo Hhi H0 [Hx1 Hx2]. unfold Js.toFixed.
  assert (Hs : 0 < inject_Z (Js.pow10 d)).
  { change 0 with (inject_Z 0). rewrite <- Zlt_Qlt.
    unfold Js.pow10. apply Z.pow_pos_nonneg; lia. }
  set (s := inject_Z (Js.pow10 d)) in *.
  destruct (ltb_spec x 0) as [Hneg|Hpos]; [lra|].
  set (n := Qfloor (x * s + 0.5)).
  assert (Hn1 : (zlo <= n)%Z).
  { rewrite <- (Qfloor_Z zlo). apply Qfloor_resp_le.
    rewrite <- Hlo. assert (lo * s <= x * s) by (apply Qmult_le_compat_r; lra). lra. }
  assert (Hn2 : (n <= zhi)%Z).
  { apply Z.lt_succ_r. rewrite Zlt_Qlt.
    apply Qle_lt_trans with (x * s + 0.5); [apply Qfloor_le|].
    unfold Z.succ. rewrite inject_Z_plus. rewrite <- Hhi.
    assert (x * s <= hi * s) by (apply Qmult_le_compat_r; lra).
    change (inject_Z 1) with 1. lra. }
  rewrite Zle_Qle in Hn1, Hn2.
  split.
  - apply Qle_shift_div_l; [assumption|]. rewrite Hlo. assumption.
  - apply Qle_shift_div_r; [assumption|]. rewrite Hhi. assumption.
Qed.

Lemma tick_inPhysicalBounds (this this' : Simulator.t) (nowMs : Z) (nz : Noise) (r : Reading.t) :
  tick this nowMs nz = Returned r this' -> Reading.inPhysicalBounds r.
Proof.
  unfold tick.
  destruct (drift (demoMode this)) as [driftT driftH].
  destruct (Standards.entry_of _) as [std|]; [|discriminate].
  destruct (doorStep _ _ _ _ _ _ _) as [[door lastToggle] opens].
  intro H. injection H as <- _. unfold Reading.inPhysicalBounds.
  cbn [Reading.temperatureC Reading.humidityPct Reading.moisturePct Reading.vibration].
  split; [|split; [|split]].
  - apply (toFixed_between 2 500 3500 5 35);
      [reflexivity | reflexivity | lra | apply clamp_bounds; lra].
  - apply (toFixed_between 1 50 950 5 95);
      [reflexivity | reflexivity | lra | apply clamp_bounds; lra].
  - apply (toFixed_between 2 0 2000 0 20);
      [reflexivity | reflexivity | lra | apply clamp_bounds; lra].
  - apply (toFixed_between 2 0 100 0 1);
      [reflexivity | reflexivity | lra | apply clamp_bounds; lra].
Qed.

(** [Samples.fossils] holds the values construction gives. *)
Lemma fossils_constructed :
  match constructor "FOSSILS" "normal" 0 Samples.draws with
  | Some s =>
      artifactType s = "FOSSILS" /\
      demoMode s = "normal" /\
      controls s = controls Samples.fossils /\
      temperatureC (state s) == 19 /\
      humidityPct (state s) == 47.5 /\
      moisturePct (state s) == 4.5 /\
      doorState (state s) = "closed" /\
      lastDoorToggleMs (state s) = 0%Z /\
      opensInLastHour (state s) = nil /\
      vibration (state s) == 0
  | None => False
  end.
Proof. vm_compute. repeat split. Qed.

(** Two ticks around an action: two readings come out. *)
Lemma run_emits_readings :
  length (snd (run Samples.fossils
    (CallTick 1000 Samples.quiet
     :: CallApplyAction "DEHUMIDIFY" 1500
     :: CallTick 2000 Samples.quiet :: nil))) = 2%nat.
Proof. vm_compute. reflexivity. Qed.

Lemma run_cons (this : Simulator.t) (c : Call) (cs : list Call) :
  snd (run this (c :: cs)) =
  match snd (call this c) with
  | Some r => r :: snd (run (fst (call this c)) cs)
  | None => snd (run (fst (call this c)) cs)
  end.
Proof.
  cbn [run]. destruct (call this c) as [this' r]. cbn [fst snd].
  destruct (run this' cs) as [this'' rs]. destruct r; reflexivity.
Qed.

(** C3: whatever the simulator's state and mode, and whatever calls
    ([tick], [applyAction], [setArtifactType], [setDemoMode]) are made
    on it with whatever random values, every reading a [tick] returns
    has its temperature in [5,35], humidity in [5,95], moisture in
    [0,20] and vibration in [0,1]. *)
Theorem readings_within_physical_bounds (this : Simulator.t) (calls : list Call) :
  Forall Reading.inPhysicalBounds (snd (run this calls)).
Proof.
  revert this. induction calls as [|c cs IH]; intro this.
  - constructor.
  - rewrite run_cons.
    destruct c as [nowMs nz|actionType now|a now u|m now u]; cbn [call];
      try apply IH.
    destruct (tick this nowMs nz) as [r this'|this'] eqn:E; cbn [fst snd].
    + constructor; [exact (tick_inPhysicalBounds _ _ _ _ _ E) | apply IH].
    + apply IH.
Qed.

End ReadingBounds.

(* ------------------------------------------------------------------ *)
(** ** Door opens in the trailing hour *)

Section OpensPerHour.
Import Simulator.
Open Scope string_scope.
Open Scope list_scope.
Open Scope Z_scope.

(** The door block appends [nowMs] exactly when it takes the door from
    not open to open. *)
Lemma doorStep_opens
  (mode : string) (locked : bool) (nowMs : Z) (u : Q)
  (door : string) (last : Z) (opens : list Z) :
  let '(door', _, opens') := doorStep mode locked nowMs u door last opens in
  opens' =
  opens ++ (if negb (String.eqb door "open") && String.eqb door' "open"
            then [nowMs] else []).
Proof.
  unfold doorStep.
  assert (Hnil : forall l : list Z, l = l ++ []) by (intro; now rewrite app_nil_r).
  destruct (negb locked && (nowMs - last >? 10000)).
  - destruct (Js.ltb u _).
    + destruct (String.eqb_spec door "closed") as [->|Hc]; cbn; [reflexivity|].
      rewrite andb_false_r. apply Hnil.
    + destruct (String.eqb door "open"); cbn; apply Hnil.
  - destruct (locked && String.eqb door "open").
    + cbn. rewrite andb_false_r. apply Hnil.
    + destruct (String.eqb door "open"); cbn; apply Hnil.
Qed.

(** What [tick] returns as [opensPerHour] and leaves on record. *)
Lemma tick_opens (this this' : Simulator.t) (nowMs : Z) (nz : Noise) (r : Reading.t) :
  tick this nowMs nz = Returned r this' ->
  opensInLastHour (state this') =
    filter (fun t => t >=? nowMs - 60 * 60000) (recordedOpens this this' nowMs) /\
  Reading.opensPerHour r = length (opensInLastHour (state this')) /\
  Reading.timestamp r = nowMs.
Proof.
  unfold tick, recordedOpens, openedBetween.
  destruct (drift (demoMode this)) as [driftT driftH].
  destruct (Standards.entry_of _) as [std|]; [|discriminate].
  pose proof (doorStep_opens (demoMode this) (nowMs <? accessLockedUntilMs (controls this))
                nowMs (uToggle nz) (doorState (state this))
                (lastDoorToggleMs (state this)) (opensInLastHour (state this))) as Hd.
  destruct (doorStep _ _ _ _ _ _ _) as [[door lastToggle] opens].
  intro H. injection H as <- <-. cbn. rewrite Hd. auto.
Qed.

Lemma filter_trailing_hour (nowMs : Z) (l : list Z) :
  Forall (fun t => t <= nowMs) l ->
  filter (fun t => t >=? nowMs - 60 * 60000) l = filter (inTrailingHour nowMs) l.
Proof.
  intro H. apply filter_ext_in. intros t Ht.
  rewrite Forall_forall in H. specialize (H t Ht).
  unfold inTrailingHour.
  destruct (Z.leb_spec t nowMs); [|lia].
  rewrite andb_true_r. rewrite Z.geb_leb. reflexivity.
Qed.

Lemma recordedOpens_past (this this' : Simulator.t) (nowMs : Z) :
  Forall (fun t => t <= nowMs) (opensInLastHour (state this)) ->
  Forall (fun t => t <= nowMs) (recordedOpens this this' nowMs).
Proof.
  intro H. unfold recordedOpens. apply Forall_app. split; [assumption|].
  destruct (openedBetween this this'); repeat constructor. lia.
Qed.

(** With a clock that does not go back, no event on record is ever
    later than the current tick. *)
Lemma tick_keeps_opens_past (this this' : Simulator.t) (nowMs later : Z) (nz : Noise) (r : Reading.t) :
  tick this nowMs nz = Returned r this' ->
  Forall (fun t => t <= nowMs) (opensInLastHour (state this)) ->
  nowMs <= later ->
  Forall (fun t => t <= later) (opensInLastHour (state this')).
Proof.
  intros Ht Hpast Hle. destruct (tick_opens _ _ _ _ _ Ht) as [-> _].
  pose proof (recordedOpens_past this this' nowMs Hpast) as H.
  rewrite Forall_forall in *. intros t Hin.
  apply filter_In in Hin. destruct Hin as [Hin _].
  specialize (H t Hin). lia.
Qed.

(** The same over the calls a caller can make: as long as no tick is
    dated before [t0], no event on record is later than the last tick
    (or than [t0]). *)
Lemma call_keeps_opens_past (this : Simulator.t) (c : Call) (t0 : Z) :
  Forall (fun t => t <= t0) (opensInLastHour (state this)) ->
  match c with
  | CallTick nowMs _ =>
      t0 <= nowMs ->
      Forall (fun t => t <= nowMs) (opensInLastHour (state (fst (call this c))))
  | _ => Forall (fun t => t <= t0) (opensInLastHour (state (fst (call this c))))
  end.
Proof.
  intro Hpast.
  destruct c as [nowMs nz|actionType now|a now u|m now u]; cbn [call].
  - intro Hle.
    assert (Hpast' : Forall (fun t => t <= nowMs) (opensInLastHour (state this))).
    { rewrite Forall_forall in *. intros t Ht. specialize (Hpast t Ht). lia. }
    destruct (tick this nowMs nz) as [r this'|this'] eqn:E; cbn [fst].
    + apply (tick_keeps_opens_past _ _ _ nowMs _ _ E Hpast'). lia.
    + revert E. unfold tick.
      destruct (drift (demoMode this)) as [driftT driftH].
      destruct (Standards.entry_of _).
      * destruct (doorStep _ _ _ _ _ _ _) as [[door lastToggle] opens]. discriminate.
      * intro E. injection E as <-. exact Hpast'.
  - unfold applyAction.
    repeat match goal with
           | |- context [String.eqb ?a ?b] => destruct (String.eqb a b)
           end; exact Hpast.
  - unfold setArtifactType, _initState. cbn [artifactType demoMode].
    destruct (initialState _ _ _ _) as [st|] eqn:E; cbn [fst after set_state state].
    + unfold initialState in E. destruct (Standards.entry_of _); [|discriminate].
      repeat match type of E with
             | context [String.eqb ?a ?b] => destruct (String.eqb a b)
             end; injection E as <-; constructor.
    + exact Hpast.
  - unfold setDemoMode, _initState. cbn [artifactType demoMode].
    destruct (initialState _ _ _ _) as [st|] eqn:E; cbn [fst after set_state state].
    + unfold initialState in E. destruct (Standards.entry_of _); [|discriminate].
      repeat match type of E with
             | context [String.eqb ?a ?b] => destruct (String.eqb a b)
             end; injection E as <-; constructor.
    + exact Hpast.
Qed.

(** C5 as stated fails when a tick is dated before an event on record:
    the door opens at 20000 ms, and the next tick, dated 0, reports one
    open in its hour although that hour, which ends at 0, holds none. *)
Lemma opensPerHour_counterexample :
  let opened := after (tick Samples.fossils 20000 Samples.toggling) in
  opensInLastHour (state opened) = [20000] /\
  exists r this',
    tick opened 0 Samples.quiet = Returned r this' /\
    Reading.timestamp r = 0 /\
    Reading.opensPerHour r = 1%nat /\
    length (filter (inTrailingHour 0) (recordedOpens opened this' 0)) = 0%nat.
Proof.
  cbv zeta. split; [vm_compute; reflexivity|].
  eexists. eexists. split; [vm_compute; reflexivity|].
  repeat split; vm_compute; reflexivity.
Qed.

(** C5, amended: when no door-open event on record is later than
    [nowMs], the [opensPerHour] of the reading [tick] returns for
    [nowMs] is the number of recorded door-open events (the tick's own
    included) within the 3,600,000 ms that end at [nowMs]; with opens
    on record at 3700 s, 1800 s and 60 s before [nowMs] and none made
    by the tick, it is 2. *)
Theorem opensPerHour_counts_trailing_hour
  (this this' : Simulator.t) (nowMs : Z) (nz : Noise) (r : Reading.t) :
  tick this nowMs nz = Returned r this' ->
  Forall (fun t => t <= nowMs) (opensInLastHour (state this)) ->
  Reading.opensPerHour r =
    length (filter (inTrailingHour nowMs) (recordedOpens this this' nowMs)) /\
  (opensInLastHour (state this) =
     [nowMs - 3700 * 1000; nowMs - 1800 * 1000; nowMs - 60 * 1000] ->
   openedBetween this this' = false ->
   Reading.opensPerHour r = 2%nat).
Proof.
  intros Ht Hpast.
  destruct (tick_opens _ _ _ _ _ Ht) as [Hop [Hr _]].
  rewrite Hr, Hop.
  rewrite (filter_trailing_hour _ _ (recordedOpens_past this this' nowMs Hpast)).
  split; [reflexivity|].
  intros Hlist Hno. unfold recordedOpens. rewrite Hlist, Hno.
  unfold inTrailingHour. cbn [app filter].
  repeat match goal with
         | |- context [(?a <=? ?b)%Z] => destruct (Z.leb_spec a b); try lia
         end.
  reflexivity.
Qed.

(** The scenario at [nowMs] = 4,000,000: opens on record at 300,000,
    2,200,000 and 3,940,000, a tick that opens nothing, count 2. *)
Lemma opensPerHour_counts_trailing_hour_witness :
  match tick Samples.threeOpens 4000000 Samples.quiet with
  | Returned r this' =>
      Forall (fun t => t <= 4000000) (opensInLastHour (state Samples.threeOpens)) /\
      Reading.opensPerHour r = 2%nat /\
      Reading.opensPerHour r =
        length (filter (inTrailingHour 4000000)
                  (recordedOpens Samples.threeOpens this' 4000000))
  | Thrown _ => False
  end.
Proof.
  assert (Hpast : Forall (fun t => t <= 4000000)
                    (opensInLastHour (state Samples.threeOpens))).
  { repeat constructor; cbn; lia. }
  destruct (tick Samples.threeOpens 4000000 Samples.quiet) as [r this'|this'] eqn:E.
  - destruct (opensPerHour_counts_trailing_hour _ _ _ _ _ E Hpast) as [Hcount Hscenario].
    split; [exact Hpast|]. split; [|exact Hcount].
    apply Hscenario; [reflexivity|].
    vm_compute in E. injection E as _ <-. reflexivity.
  - vm_compute in E. discriminate E.
Defined.

End OpensPerHour.

(* ------------------------------------------------------------------ *)
(** ** Bulk history *)

Section History.
Import Simulator.
Open Scope string_scope.
Open Scope list_scope.
Open Scope Z_scope.

(** With an artifact type that resolves to a standards entry, [tick]
    returns, and the reading carries the time it was asked for. *)
Lemma tick_returns (this : Simulator.t) (nowMs : Z) (nz : Noise) (std : Standards.Entry) :
  Standards.entry_of (Standards.getStandards (artifactType this)) = Some std ->
  exists r this',
    tick this nowMs nz = Returned r this' /\
    Reading.timestamp r = nowMs /\
    artifactType this' = artifactType this.
Proof.
  intro Hstd. unfold tick. rewrite Hstd.
  destruct (drift (demoMode this)) as [driftT driftH].
  destruct (doorStep _ _ _ _ _ _ _) as [[door lastToggle] opens].
  eexists. eexists. repeat split.
Qed.

Lemma countdown_S (i : nat) : countdown (S i) = S i :: countdown i.
Proof.
  unfold countdown. rewrite (seq_S (S i) 0). rewrite rev_app_distr. reflexivity.
Qed.

Lemma countdown_length (i : nat) : length (countdown i) = S i.
Proof. unfold countdown. now rewrite length_rev, length_seq. Qed.

Lemma countdown_head (i : nat) : exists rest, countdown i = i :: rest.
Proof. destruct i; [now exists [] | rewrite countdown_S; eauto]. Qed.

(** The loop returns, having pushed one reading per counter value, each
    dated [now - i * stepMs]. *)
Lemma historyLoop_returns
  (stepMs now : Z) (nz : nat -> Noise) (std : Standards.Entry) (i : nat) :
  forall this history,
    Standards.entry_of (Standards.getStandards (artifactType this)) = Some std ->
    exists h this',
      historyLoop stepMs now nz i this history = Returned h this' /\
      artifactType this' = artifactType this /\
      map Reading.timestamp h =
        map Reading.timestamp history ++
        map (fun k => now - Z.of_nat k * stepMs) (countdown i).
Proof.
  induction i as [|i IH]; intros this history Hstd.
  - cbn [historyLoop].
    destruct (tick_returns this (now - Z.of_nat 0 * stepMs) (nz 0%nat) std Hstd)
      as (r & this' & -> & Hts & Hty).
    exists (history ++ [r]), this'. repeat split; [assumption|].
    rewrite map_app. cbn. now rewrite Hts.
  - cbn [historyLoop].
    destruct (tick_returns this (now - Z.of_nat (S i) * stepMs) (nz (S i)) std Hstd)
      as (r & this' & -> & Hts & Hty).
    destruct (IH this' (history ++ [r])) as (h & this'' & Hloop & Hty' & Hmap).
    { now rewrite Hty. }
    exists h, this''. repeat split; [assumption | congruence |].
    rewrite Hmap, map_app, countdown_S. cbn [map]. rewrite Hts.
    now rewrite <- app_assoc.
Qed.

(** The same for a loop that starts with an empty array. *)
Lemma historyLoop_fresh
  (stepMs now : Z) (nz : nat -> Noise) (std : Standards.Entry) (i : nat) (this : Simulator.t) :
  Standards.entry_of (Standards.getStandards (artifactType this)) = Some std ->
  exists h this',
    historyLoop stepMs now nz i this [] = Returned h this' /\
    artifactType this' = artifactType this /\
    length h = S i /\
    map Reading.timestamp h = map (fun k => now - Z.of_nat k * stepMs) (countdown i).
Proof.
  intro Hstd.
  destruct (historyLoop_returns stepMs now nz std i this [] Hstd)
    as (h & this' & Hloop & Hty & Hmap).
  exists h, this'. repeat split; try assumption.
  rewrite <- (length_map Reading.timestamp), Hmap. cbn [map app].
  now rewrite length_map, countdown_length.
Qed.

(** Going down the counters, the dates go up. *)
Lemma countdown_dates_sorted (stepMs now : Z) (i : nat) :
  0 <= stepMs ->
  Sorted Z.le (map (fun k => now - Z.of_nat k * stepMs) (countdown i)).
Proof.
  intro Hstep. induction i as [|i IH].
  - repeat constructor.
  - rewrite countdown_S. cbn [map]. constructor; [assumption|].
    destruct (countdown_head i) as [rest ->]. cbn [map]. constructor. nia.
Qed.

(** C7: [generateHistory] (on a simulator whose artifact type resolves
    to a standards entry, as every constructed one does) returns 1441
    readings for the 24-hour series and 337 for the 7-day series, each
    series with non-decreasing timestamps. *)
Theorem generateHistory_series
  (this : Simulator.t) (now : Z) (nz24 nz7 : nat -> Noise) (std : Standards.Entry) :
  Standards.entry_of (Standards.getStandards (artifactType this)) = Some std ->
  exists history24h history7d this',
    generateHistory this now nz24 nz7 = Returned (history24h, history7d) this' /\
    length history24h = 1441%nat /\
    length history7d = 337%nat /\
    Sorted Z.le (map Reading.timestamp history24h) /\
    Sorted Z.le (map Reading.timestamp history7d).
Proof.
  intro Hstd. unfold generateHistory.
  destruct (historyLoop_fresh 60000 now nz24 std (24 * 60) this Hstd)
    as (h24 & this1 & -> & Hty1 & Hlen1 & Hmap1).
  destruct (historyLoop_fresh (30 * 60000) now nz7 std (7 * 48) this1)
    as (h7 & this2 & -> & Hty2 & Hlen2 & Hmap2).
  { now rewrite Hty1. }
  exists h24, h7, this2. split; [reflexivity|].
  split; [rewrite Hlen1; reflexivity|].
  split; [rewrite Hlen2; reflexivity|].
  split.
  - rewrite Hmap1. apply countdown_dates_sorted. lia.
  - rewrite Hmap2. apply countdown_dates_sorted. lia.
Qed.

(** The [FOSSILS] simulator: both series come back with the stated
    lengths and order. *)
Lemma generateHistory_series_witness :
  exists history24h history7d this',
    generateHistory Samples.fossils 0 (fun _ => Samples.quiet) (fun _ => Samples.quiet)
      = Returned (history24h, history7d) this' /\
    length history24h = 1441%nat /\
    length history7d = 337%nat /\
    Sorted Z.le (map Reading.timestamp history24h) /\
    Sorted Z.le (map Reading.timestamp history7d).
Proof.
  apply (generateHistory_series Samples.fossils 0 _ _ Standards.FOSSILS).
  reflexivity.
Defined.

End History.

(* ------------------------------------------------------------------ *)
(** ** No division by zero in the risk computation *)

Section Divisions.
Import Checked.
Open Scope list_scope.

Lemma div_nonzero (a b : Q) : ~ b == 0 -> div a b = Some (a / b).
Proof.
  intro H. unfold div. destruct (Qeq_bool b 0) eqn:E; [|reflexivity].
  apply Qeq_bool_eq in E. contradiction.
Qed.

Lemma div_positive (a b : Q) : 0 < b -> div a b = Some (a / b).
Proof. intro H. apply div_nonzero. lra. Qed.

Lemma traverse_div_const (A : Type) (f : A -> Q) (c : Q) (l : list A) :
  ~ c == 0 ->
  traverse (fun p => div (f p) c) l = Some (map (fun p => f p / c) l).
Proof.
  intro Hc. induction l as [|a l IH]; [reflexivity|].
  cbn [traverse map]. rewrite (div_nonzero _ _ Hc). cbn [bind].
  rewrite IH. reflexivity.
Qed.

Lemma mean_checked (nums : list Q) : mean nums = Some (Utils.mean nums).
Proof.
  destruct nums as [|a l]; [reflexivity|].
  unfold mean, Utils.mean. apply div_positive.
  change 0 with (inject_Z 0). rewrite <- Zlt_Qlt. cbn [length]. lia.
Qed.

Lemma slope_checked (points : list (Z * Q)) : slope points = Some (Utils.slope points).
Proof.
  destruct points as [|[t0 y0] [|p rest]]; try reflexivity.
  unfold slope, Utils.slope.
  rewrite (traverse_div_const _ (fun p => inject_Z (fst p) - inject_Z t0) 1000)
    by (intro H; discriminate H).
  cbn [bind]. rewrite !mean_checked. cbn [bind].
  destruct (Utils.slope_loop _ _ _ _ _ _) as [num den].
  destruct (Qeq_bool den 0) eqn:E; [reflexivity|].
  apply div_nonzero. now apply Qeq_bool_neq.
Qed.

(** In the warn band and outside the safe band, the buffer on the
    side of [x] has a positive width: [riskFromRange] always reaches
    its division with a positive divisor, and its fallback [t = 1] is
    never taken. *)
Lemma warn_buffer_positive (x s0 s1 w0 w1 : Q) :
  Utils.isBetweenInclusive x (s0, s1) = false ->
  Utils.isBetweenInclusive x (w0, w1) = true ->
  0 < (if Js.ltb x s0 then s0 - w0 else w1 - s1).
Proof.
  unfold Utils.isBetweenInclusive, Js.geb. intros Hs Hw.
  apply andb_true_iff in Hw. destruct Hw as [Hw0 Hw1].
  apply leb_true_iff in Hw0. apply leb_true_iff in Hw1.
  apply andb_false_iff in Hs.
  destruct (ltb_spec x s0) as [Hlt|Hge]; [lra|].
  destruct Hs as [Hs|Hs]; apply leb_false_iff in Hs; lra.
Qed.

Lemma riskFromRange_checked (x : Q) (b : Standards.Band) :
  riskFromRange x b = Some (Engine.riskFromRange x b).
Proof.
  unfold riskFromRange, Engine.riskFromRange.
  destruct (Utils.isBetweenInclusive x (Standards.safe b)); [reflexivity|].
  destruct (Standards.warn b) as [w0 w1]. destruct (Standards.safe b) as [s0 s1].
  destruct (Utils.isBetweenInclusive x (w0, w1)).
  - set (maxD := if Js.ltb x s0 then s0 - w0 else w1 - s1).
    change (Js.gtb maxD 0) with (Js.ltb 0 maxD).
    destruct (ltb_spec 0 maxD) as [Hpos|Hle]; [|reflexivity].
    rewrite (div_positive _ _ Hpos). reflexivity.
  - rewrite div_nonzero by (intro H; discriminate H). reflexivity.
Qed.

Lemma riskFromMax_checked (x : Q) (m : Standards.MaxBand) :
  riskFromMax x m = Some (Engine.riskFromMax x m).
Proof.
  unfold riskFromMax, Engine.riskFromMax. cbv zeta.
  destruct (Js.leb x (Standards.safeMax m)); [reflexivity|].
  destruct (Js.leb x (Standards.warnMax m)).
  - rewrite div_positive; [reflexivity|].
    pose proof (Math_max_l 0.001 (Standards.warnMax m - Standards.safeMax m)). lra.
  - rewrite div_nonzero by (intro H; discriminate H). reflexivity.
Qed.

Lemma weightedRisk_checked (reading : Reading.t) (standards : Standards.Entry) :
  weightedRisk reading standards = Some (Engine.weightedRisk reading standards).
Proof.
  unfold weightedRisk, Engine.weightedRisk.
  rewrite !riskFromRange_checked, riskFromMax_checked. cbn [bind].
  rewrite div_positive.
  2:{ pose proof (Math_max_l 1 (Standards.maxOpensPerHourWarn (Standards.access standards))). lra. }
  cbn [bind]. rewrite div_positive.
  2:{ pose proof (Math_max_l 0.01 (Standards.warnMax (Standards.vibration standards))). lra. }
  reflexivity.
Qed.

(** C10: for every engine state, reading and standards entry, the risk
    computation of [evaluate] with each division checked for a zero
    divisor goes through and gives the [riskScore] that [evaluate]
    returns: no division of it, in [slope], [mean], [riskFromRange],
    [riskFromMax] or the access and vibration terms, has a zero
    divisor. *)
Theorem risk_divisions_guarded
  (this : Engine.DecisionEngine) (reading : Reading.t) (standards : Standards.Entry) :
  Checked.riskScore this reading standards =
  Some (Assessment.riskScore (snd (Engine.evaluate this reading standards))).
Proof.
  unfold riskScore, humiditySlopePerMin.
  rewrite slope_checked, weightedRisk_checked. reflexivity.
Qed.

End Divisions.

(* ------------------------------------------------------------------ *)
(** ** The risk score against its specification *)

Section RiskAgreement.
Import RiskReference.

Lemma dist_le (a b : Q) : a <= b -> dist a b == b - a.
Proof. intro H. unfold dist. rewrite Qabs_neg by lra. lra. Qed.

Lemma dist_ge (a b : Q) : b <= a -> dist a b == a - b.
Proof. intro H. unfold dist. rewrite Qabs_pos by lra. lra. Qed.


(** On an ordered band the code's case analysis by side picks the
    nearest safe bound and the warn edge on its side. *)
Lemma band_agrees (x : Q) (b : Standards.Band) :
  Standards.bandOrdered b -> Engine.riskFromRange x b == bandContribution x b.
Proof.
  destruct b as [[s0 s1] [w0 w1]]. unfold Standards.bandOrdered. cbn [Standards.safe Standards.warn fst snd].
  intros (Hw0 & Hs & Hw1).
  unfold Engine.riskFromRange, bandContribution, Utils.isBetweenInclusive, within,
    Js.geb, Js.gtb.
  cbn [Standards.safe Standards.warn fst snd].
  destruct (leb_spec s0 x) as [Hs0|Hs0]; cbn [andb].
  - destruct (leb_spec x s1) as [Hs1|Hs1]; [reflexivity|].
    (* above the safe band *)
    rewrite (leb_true w0 x) by lra. cbn [andb].
    destruct (leb_spec x w1) as [Hx1|Hx1].
    + rewrite (ltb_false x s0) by lra.
      rewrite (ltb_true s1 x) by lra.
      rewrite (ltb_true 0 (w1 - s1)) by lra.
      unfold nearestSafeBound, warnEdgeOnSide. cbn [fst snd].
      unfold Utils.clamp, clamp01.
      destruct (leb_spec (dist x s0) (dist x s1)) as [Hd|Hd].
      * rewrite (dist_ge x s0), (dist_ge x s1) in Hd by lra.
        assert (Heq : s0 == s1) by lra.
        rewrite (ltb_false x s0) by lra.
        rewrite (dist_ge x s0), (dist_le s0 w1) by lra.
        rewrite Heq. reflexivity.
      * rewrite (ltb_false x s1) by lra.
        rewrite (dist_ge x s1), (dist_le s1 w1) by lra. reflexivity.
    + rewrite (ltb_false x w0) by lra. rewrite (ltb_true w1 x) by lra.
      unfold Utils.clamp, clamp01.
      assert (Hm : Js.Math_min (dist x w0) (dist x w1) == x - w1).
      { rewrite (dist_ge x w0), (dist_ge x w1) by lra. unfold Js.Math_min.
        destruct (leb_spec (x - w0) (x - w1)); lra. }
      rewrite Hm. reflexivity.
  - (* below the safe band *)
    destruct (leb_spec w0 x) as [Hx0|Hx0]; cbn [andb].
    + rewrite (leb_true x w1) by lra.
      rewrite (ltb_true x s0) by lra.
      rewrite (ltb_true 0 (s0 - w0)) by lra.
      unfold nearestSafeBound, warnEdgeOnSide. cbn [fst snd].
      rewrite (leb_true (dist x s0) (dist x s1)).
      2:{ rewrite (dist_le x s0), (dist_le x s1) by lra. lra. }
      rewrite (ltb_true x s0) by lra.
      unfold Utils.clamp, clamp01.
      rewrite (dist_le x s0), (dist_ge s0 w0) by lra. reflexivity.
    + rewrite (ltb_true x w0) by lra.
      unfold Utils.clamp, clamp01.
      assert (Hm : Js.Math_min (dist x w0) (dist x w1) == w0 - x).
      { rewrite (dist_le x w0), (dist_le x w1) by lra. unfold Js.Math_min.
        destruct (leb_spec (w0 - x) (w1 - x)); lra. }
      rewrite Hm. reflexivity.
Qed.

(** At or above the floor, flooring changes nothing. *)
Lemma Math_max_floor (floor d : Q) : floor <= d -> Js.Math_max floor d = d.
Proof. intro H. unfold Js.Math_max. now rewrite (leb_true _ _ H). Qed.

Lemma weighted_agrees (reading : Reading.t) (standards : Standards.Entry) :
  Standards.wellFormed standards ->
  Engine.weightedRisk reading standards ==
  weightedSumOver
    (Js.Math_max 0.001
       (Standards.warnMax (Standards.moisturePct standards)
        - Standards.safeMax (Standards.moisturePct standards)))
    (Js.Math_max 1 (Standards.maxOpensPerHourWarn (Standards.access standards)))
    (Js.Math_max 0.01 (Standards.warnMax (Standards.vibration standards)))
    reading standards.
Proof.
  intros (HT & HH & _).
  unfold Engine.weightedRisk, weightedSumOver.
  rewrite (band_agrees _ _ HT), (band_agrees _ _ HH).
  unfold Engine.riskFromMax, maxContributionOver, linearContributionOver,
    Utils.clamp, clamp01.
  cbv zeta. ring.
Qed.

Lemma computeRiskScore_floored
  (slopePerMin : Q) (reading : Reading.t) (standards : Standards.Entry) :
  Standards.wellFormed standards ->
  Engine.computeRiskScore slopePerMin reading standards =
  riskScoreFloored slopePerMin reading standards.
Proof.
  intros Hwf.
  unfold Engine.computeRiskScore, riskScoreFloored, riskScoreOver, Utils.clamp,
    Js.Math_round, nearestInteger.
  cbv zeta.
  match goal with
  | |- Js.Math_max 0 (Js.Math_min 100 (inject_Z (Qfloor ?a))) =
       Js.Math_max 0 (Js.Math_min 100 (inject_Z (Qfloor ?b))) =>
      assert (E : a == b)
  end.
  { pose proof (weighted_agrees reading standards Hwf) as Hw.
    unfold amplifiers, Js.gtb.
    destruct (Js.ltb 0.08 slopePerMin), (Js.ltb 0.15 slopePerMin),
      (String.eqb (Reading.doorState reading) "open"), (Reading.accessLocked reading);
      rewrite Hw; ring. }
  rewrite (Qfloor_comp _ _ E). reflexivity.
Qed.

Lemma riskScoreFloored_plain
  (slopePerMin : Q) (reading : Reading.t) (standards : Standards.Entry) :
  divisorsAtLeastFloor standards ->
  riskScoreFloored slopePerMin reading standards = riskScore slopePerMin reading standards.
Proof.
  intros (Hm & Ha & Hv). unfold riskScoreFloored, riskScore.
  now rewrite (Math_max_floor _ _ Hm), (Math_max_floor _ _ Ha), (Math_max_floor _ _ Hv).
Qed.

(** On every entry the standards lookup can return, the code and the
    specification agree without further condition. *)
Lemma computeRiskScore_agrees_on_table
  (key : string) (e : Standards.Entry) (slopePerMin : Q) (reading : Reading.t) :
  Standards.getStandards key = Standards.VEntry e ->
  Engine.computeRiskScore slopePerMin reading e = riskScore slopePerMin reading e.
Proof.
  intro H. destruct (table_wellFormed key e H) as [Hwf Hdiv].
  rewrite (computeRiskScore_floored _ _ _ Hwf).
  now apply riskScoreFloored_plain.
Qed.





End RiskAgreement.

(* ------------------------------------------------------------------ *)
(** ** Further properties: the trend estimate of utils.js *)

Section UtilsFacts.
Import Js Utils Trend.
Open Scope list_scope.

Lemma clamp_mono (a b lo hi : Q) : a <= b -> clamp a lo hi <= clamp b lo hi.
Proof.
  intro H. unfold clamp, Math_max, Math_min.
  destruct (leb_spec hi a), (leb_spec hi b);
    repeat match goal with
           | |- context [leb ?p ?q] => destruct (leb_spec p q)
           end; lra.
Qed.

Lemma fold_sum_acc (l : list Q) (a : Q) :
  fold_left Qplus l a == a + fold_left Qplus l 0.
Proof.
  revert a. induction l as [|x l IH]; intro a; cbn [fold_left].
  - lra.
  - rewrite (IH (a + x)), (IH (0 + x)). lra.
Qed.

Lemma fold_sum_cons (x : Q) (l : list Q) :
  fold_left Qplus (x :: l) 0 == x + fold_left Qplus l 0.
Proof. cbn [fold_left]. rewrite fold_sum_acc. lra. Qed.

Lemma sum_between (lo hi : Q) (l : list Q) :
  Forall (fun x => lo <= x <= hi) l ->
  lo * inject_Z (Z.of_nat (length l)) <= fold_left Qplus l 0
  <= hi * inject_Z (Z.of_nat (length l)).
Proof.
  induction 1 as [|x l Hx Hl IH].
  - cbn [length fold_left]. change (inject_Z (Z.of_nat 0)) with 0. lra.
  - destruct IH as [IH1 IH2]. rewrite fold_sum_cons. cbn [length]. rewrite Nat2Z.inj_succ.
    unfold Z.succ. rewrite inject_Z_plus. change (inject_Z 1) with 1. lra.
Qed.












(** With every offset equal to the mean, the loop leaves [den] as it
    was. *)
Lemma slope_loop_den_flat (tMean yMean : Q) (ts ys : list Q) :
  Forall (fun t => t == tMean) ts ->
  forall num den, snd (slope_loop tMean yMean ts ys num den) == den.
Proof.
  intro H. revert ys. induction H as [|t ts Ht Hts IH]; intros ys num den.
  - destruct ys; reflexivity.
  - destruct ys as [|y ys]; [reflexivity|]. cbn [slope_loop].
    rewrite IH, Ht. ring.
Qed.

Lemma mean_zero (l : list Q) : Forall (fun x => x == 0) l -> mean l == 0.
Proof.
  intro H. destruct l as [|x l]; [reflexivity|].
  assert (H' : Forall (fun x => 0 <= x <= 0) (x :: l)).
  { eapply Forall_impl; [|exact H]. cbv beta. intros a Ha. rewrite Ha. lra. }
  pose proof (sum_between 0 0 _ H') as [H1 H2].
  unfold mean.
  assert (E : fold_left Qplus (x :: l) 0 == 0) by lra.
  rewrite E. unfold Qdiv. ring.
Qed.

(** X2: [slope] returns 0 on fewer than two points and on points
    that all carry the same time, where the least-squares denominator
    is 0. *)
Theorem slope_degenerate (points : list (Z * Q)) :
  (length points < 2)%nat \/ (exists t, Forall (fun p => fst p = t) points) ->
  slope points = 0.
Proof.
  intros [Hlen | [t Ht]].
  - destruct points as [|[t y] [|q rest]]; [reflexivity | reflexivity |].
    cbn [length] in Hlen. lia.
  - destruct points as [|[t0 y0] [|p1 rest]]; [reflexivity | reflexivity |].
    unfold slope. cbv zeta.
    set (points := (t0, y0) :: p1 :: rest) in *.
    change (map (fun p0 : Z * Q => (inject_Z (fst p0) - inject_Z t0) / 1000) points)
      with (map (elapsed t0) points).
    assert (Hts : Forall (fun x => x == 0) (map (elapsed t0) points)).
    { apply Forall_map. eapply Forall_impl; [|exact Ht].
      cbv beta. intros p Hp. unfold elapsed.
      assert (E : fst p = t0).
      { inversion Ht as [|a l Ha _]. cbn [fst] in Ha. congruence. }
      rewrite E. unfold Qdiv. ring. }
    pose proof (mean_zero _ Hts) as Hmean.
    set (tMean := mean (map (elapsed t0) points)) in *.
    assert (Hflat : Forall (fun x => x == tMean) (map (elapsed t0) points)).
    { eapply Forall_impl; [|exact Hts]. cbv beta. intros a Ha. now rewrite Ha, Hmean. }
    pose proof (slope_loop_den_flat tMean (mean (map snd points)) _ (map snd points)
                  Hflat 0 0) as Hden.
    destruct (slope_loop tMean (mean (map snd points)) (map (elapsed t0) points)
                (map snd points) 0 0) as [num den].
    cbn [snd] in Hden. cbv beta iota.
    now rewrite (Qeq_eq_bool _ _ Hden).
Qed.

Lemma slope_degenerate_witness : slope [(5%Z, 40); (5%Z, 45)] = 0.
Proof.
  apply slope_degenerate. right. exists 5%Z.
  repeat (apply Forall_cons; [reflexivity|]). apply Forall_nil.
Defined.

End UtilsFacts.

(* ------------------------------------------------------------------ *)
(** ** Further properties: the decision engine *)

Section EngineFacts.
Import Js Utils Engine Trend Outputs Actuators.
Open Scope string_scope.
Open Scope list_scope.

Lemma clamp01 (q : Q) : 0 <= clamp q 0 1 <= 1.
Proof. apply clamp_bounds. lra. Qed.

(** The three value ranges of [riskFromRange]. *)
Lemma riskFromRange_by_status (x : Q) (b : Standards.Band) :
  (rangeStatus x b = "safe" /\ riskFromRange x b = 0) \/
  (rangeStatus x b = "warn" /\ 25 <= riskFromRange x b <= 60) \/
  (rangeStatus x b = "danger" /\ 70 <= riskFromRange x b <= 100).
Proof.
  unfold rangeStatus, riskFromRange.
  destruct (isBetweenInclusive x (Standards.safe b)); [left; split; reflexivity|].
  destruct (Standards.warn b) as [w0 w1]. destruct (Standards.safe b) as [s0 s1].
  destruct (isBetweenInclusive x (w0, w1)).
  - right; left. split; [reflexivity|].
    destruct (gtb _ 0).
    + pose proof (clamp01 ((if ltb x s0 then s0 - x else if gtb x s1 then x - s1 else 0)
                            / (if ltb x s0 then s0 - w0 else w1 - s1))). lra.
    + lra.
  - right; right. split; [reflexivity|].
    pose proof (clamp01 ((if ltb x w0 then w0 - x else if gtb x w1 then x - w1 else 0) / 5)).
    lra.
Qed.

Lemma riskFromMax_by_status (x : Q) (m : Standards.MaxBand) :
  (maxStatus x m = "safe" /\ riskFromMax x m = 0) \/
  (maxStatus x m = "warn" /\ 25 <= riskFromMax x m <= 60) \/
  (maxStatus x m = "danger" /\ 70 <= riskFromMax x m <= 100).
Proof.
  unfold maxStatus, riskFromMax. cbv zeta.
  destruct (leb x (Standards.safeMax m)); [left; split; reflexivity|].
  destruct (leb x (Standards.warnMax m)).
  - right; left. split; [reflexivity|].
    pose proof (clamp01 ((x - Standards.safeMax m)
                 / Math_max 0.001 (Standards.warnMax m - Standards.safeMax m))). lra.
  - right; right. split; [reflexivity|].
    pose proof (clamp01 ((x - Standards.warnMax m) / 3)). lra.
Qed.

(** X3: the risk contribution of a metric agrees with its status:
    0 when the status is safe, between 25 and 60 when it is warn,
    between 70 and 100 when it is danger, for the range metrics
    ([riskFromRange] with [rangeStatus]) and for the max metric
    ([riskFromMax] with [maxStatus]). *)
Theorem risk_contribution_matches_status (x : Q) (b : Standards.Band) (m : Standards.MaxBand) :
  (rangeStatus x b = "safe" -> riskFromRange x b == 0) /\
  (rangeStatus x b = "warn" -> 25 <= riskFromRange x b <= 60) /\
  (rangeStatus x b = "danger" -> 70 <= riskFromRange x b <= 100) /\
  (maxStatus x m = "safe" -> riskFromMax x m == 0) /\
  (maxStatus x m = "warn" -> 25 <= riskFromMax x m <= 60) /\
  (maxStatus x m = "danger" -> 70 <= riskFromMax x m <= 100).
Proof.
  destruct (riskFromRange_by_status x b) as [[-> H]|[[-> H]|[-> H]]];
  destruct (riskFromMax_by_status x m) as [[-> H']|[[-> H']|[-> H']]];
  repeat split; intros; try discriminate; try rewrite H; try rewrite H'; try lra.
Qed.

Lemma riskFromRange_range (x : Q) (b : Standards.Band) : 0 <= riskFromRange x b <= 100.
Proof.
  destruct (riskFromRange_by_status x b) as [[_ H]|[[_ H]|[_ H]]];
    try rewrite H; lra.
Qed.

Lemma Math_round_mono (a b : Q) : a <= b -> (Math_round a <= Math_round b)%Z.
Proof. intro H. unfold Math_round. apply Qfloor_resp_le. lra. Qed.

(** X4: the [riskScore] of every assessment is a whole number
    from 0 to 100. *)
Theorem riskScore_integer_0_100
  (this : DecisionEngine) (reading : Reading.t) (standards : Standards.Entry) :
  exists z : Z,
    (0 <= z <= 100)%Z /\
    Assessment.riskScore (snd (evaluate this reading standards)) = inject_Z z.
Proof.
  unfold evaluate. cbn [snd Assessment.riskScore]. unfold computeRiskScore.
  cbv zeta.
  match goal with
  | |- exists z, _ /\ clamp (inject_Z ?n) 0 100 = _ => set (k := n)
  end.
  unfold clamp, Math_max, Math_min.
  destruct (leb_spec 100 (inject_Z k)) as [H1|H1].
  - exists 100%Z. split; [lia|]. reflexivity.
  - destruct (leb_spec 0 (inject_Z k)) as [H2|H2].
    + exists k. split; [|reflexivity].
      change 0 with (inject_Z 0) in H2. change 100 with (inject_Z 100) in H1.
      rewrite <- Zle_Qle in H2. rewrite <- Zlt_Qlt in H1. lia.
    + exists 0%Z. split; [lia|reflexivity].
Qed.

Lemma div_le_compat (a b d : Q) : 0 < d -> a <= b -> a / d <= b / d.
Proof.
  intros Hd H. unfold Qdiv. apply Qmult_le_compat_r; [assumption|].
  apply Qlt_le_weak. now apply Qinv_lt_0_compat.
Qed.

Lemma riskFromMax_le (x y : Q) (m : Standards.MaxBand) :
  x <= y -> riskFromMax x m <= riskFromMax y m.
Proof.
  intro H. unfold riskFromMax. cbv zeta.
  set (s := Standards.safeMax m). set (w := Standards.warnMax m).
  assert (Hd : 0 < Math_max 0.001 (w - s)) by (pose proof (Math_max_l 0.001 (w - s)); lra).
  pose proof (clamp01 ((x - s) / Math_max 0.001 (w - s))).
  pose proof (clamp01 ((y - s) / Math_max 0.001 (w - s))).
  pose proof (clamp01 ((x - w) / 3)).
  pose proof (clamp01 ((y - w) / 3)).
  assert (clamp ((x - s) / Math_max 0.001 (w - s)) 0 1
          <= clamp ((y - s) / Math_max 0.001 (w - s)) 0 1).
  { apply clamp_mono. apply div_le_compat; [assumption|lra]. }
  assert (clamp ((x - w) / 3) 0 1 <= clamp ((y - w) / 3) 0 1).
  { apply clamp_mono. apply div_le_compat; lra. }
  destruct (leb_spec x s), (leb_spec y s), (leb_spec x w), (leb_spec y w); lra.
Qed.

Lemma between_true (x a b : Q) : a <= x -> x <= b -> isBetweenInclusive x (a, b) = true.
Proof.
  intros H1 H2. unfold isBetweenInclusive, geb.
  now rewrite (leb_true _ _ H1), (leb_true _ _ H2).
Qed.

Lemma between_false_above (x a b : Q) : b < x -> isBetweenInclusive x (a, b) = false.
Proof.
  intro H. unfold isBetweenInclusive. rewrite (leb_false _ _ H). apply andb_false_r.
Qed.

Lemma between_false_below (x a b : Q) : x < a -> isBetweenInclusive x (a, b) = false.
Proof.
  intro H. unfold isBetweenInclusive, geb. now rewrite (leb_false _ _ H).
Qed.

Lemma riskFromRange_safe (x s0 s1 w0 w1 : Q) :
  s0 <= x <= s1 ->
  riskFromRange x {| Standards.safe := (s0, s1); Standards.warn := (w0, w1) |} = 0.
Proof.
  intros [H1 H2]. unfold riskFromRange. cbn [Standards.safe Standards.warn].
  now rewrite (between_true _ _ _ H1 H2).
Qed.

Lemma riskFromRange_warn_above (x s0 s1 w0 w1 : Q) :
  w0 <= s0 -> s0 <= s1 -> s1 < x -> x <= w1 ->
  riskFromRange x {| Standards.safe := (s0, s1); Standards.warn := (w0, w1) |} =
  25 + 35 * clamp ((x - s1) / (w1 - s1)) 0 1.
Proof.
  intros Hw Hs H1 H2. unfold riskFromRange. cbn [Standards.safe Standards.warn].
  rewrite (between_false_above _ _ _ H1).
  rewrite between_true by lra.
  unfold gtb. rewrite (ltb_false x s0) by lra. rewrite (ltb_true s1 x) by lra.
  rewrite (ltb_true 0 (w1 - s1)) by lra. reflexivity.
Qed.

Lemma riskFromRange_danger_above (x s0 s1 w0 w1 : Q) :
  w0 <= s0 -> s0 <= s1 -> s1 <= w1 -> w1 < x ->
  riskFromRange x {| Standards.safe := (s0, s1); Standards.warn := (w0, w1) |} =
  70 + 30 * clamp ((x - w1) / 5) 0 1.
Proof.
  intros Hw Hs Hw1 H1. unfold riskFromRange. cbn [Standards.safe Standards.warn].
  rewrite between_false_above by lra.
  rewrite between_false_above by lra.
  unfold gtb. rewrite (ltb_false x w0) by lra. rewrite (ltb_true w1 x) by lra.
  reflexivity.
Qed.

Lemma riskFromRange_warn_below (x s0 s1 w0 w1 : Q) :
  w0 <= x -> x < s0 -> s0 <= s1 -> s1 <= w1 ->
  riskFromRange x {| Standards.safe := (s0, s1); Standards.warn := (w0, w1) |} =
  25 + 35 * clamp ((s0 - x) / (s0 - w0)) 0 1.
Proof.
  intros H1 H2 Hs Hw1. unfold riskFromRange. cbn [Standards.safe Standards.warn].
  rewrite (between_false_below _ _ _ H2).
  rewrite between_true by lra.
  unfold gtb. rewrite (ltb_true x s0) by lra.
  rewrite (ltb_true 0 (s0 - w0)) by lra. reflexivity.
Qed.

Lemma riskFromRange_danger_below (x s0 s1 w0 w1 : Q) :
  x < w0 -> w0 <= s0 ->
  riskFromRange x {| Standards.safe := (s0, s1); Standards.warn := (w0, w1) |} =
  70 + 30 * clamp ((w0 - x) / 5) 0 1.
Proof.
  intros H1 Hw. unfold riskFromRange. cbn [Standards.safe Standards.warn].
  rewrite between_false_below by lra.
  rewrite between_false_below by lra.
  unfold gtb. rewrite (ltb_true x w0) by lra. reflexivity.
Qed.

Lemma riskFromRange_le_outward (x y : Q) (b : Standards.Band) :
  Standards.bandOrdered b ->
  (fst (Standards.safe b) <= x -> x <= y -> riskFromRange x b <= riskFromRange y b) /\
  (y <= x -> x <= snd (Standards.safe b) -> riskFromRange x b <= riskFromRange y b).
Proof.
  destruct b as [[s0 s1] [w0 w1]]. unfold Standards.bandOrdered.
  cbn [Standards.safe Standards.warn fst snd]. intros (Hw0 & Hs & Hw1).
  pose proof (clamp01 ((x - s1) / (w1 - s1))).
  pose proof (clamp01 ((y - s1) / (w1 - s1))).
  pose proof (clamp01 ((x - w1) / 5)).
  pose proof (clamp01 ((y - w1) / 5)).
  pose proof (clamp01 ((s0 - x) / (s0 - w0))).
  pose proof (clamp01 ((s0 - y) / (s0 - w0))).
  pose proof (clamp01 ((w0 - x) / 5)).
  pose proof (clamp01 ((w0 - y) / 5)).
  split.
  - intros Hx Hxy.
    destruct (Qlt_le_dec s1 x) as [Hx1|Hx1].
    2:{ rewrite (riskFromRange_safe x) by lra.
        apply (riskFromRange_range y). }
    destruct (Qlt_le_dec w1 x) as [Hx2|Hx2].
    + rewrite (riskFromRange_danger_above x), (riskFromRange_danger_above y) by lra.
      assert (clamp ((x - w1) / 5) 0 1 <= clamp ((y - w1) / 5) 0 1).
      { apply clamp_mono. apply div_le_compat; lra. }
      lra.
    + rewrite (riskFromRange_warn_above x) by lra.
      destruct (Qlt_le_dec w1 y) as [Hy2|Hy2].
      * rewrite (riskFromRange_danger_above y) by lra. lra.
      * rewrite (riskFromRange_warn_above y) by lra.
        assert (clamp ((x - s1) / (w1 - s1)) 0 1 <= clamp ((y - s1) / (w1 - s1)) 0 1).
        { apply clamp_mono. apply div_le_compat; lra. }
        lra.
  - intros Hyx Hx.
    destruct (Qlt_le_dec x s0) as [Hx1|Hx1].
    2:{ rewrite (riskFromRange_safe x) by lra.
        apply (riskFromRange_range y). }
    destruct (Qlt_le_dec x w0) as [Hx2|Hx2].
    + rewrite (riskFromRange_danger_below x), (riskFromRange_danger_below y) by lra.
      assert (clamp ((w0 - x) / 5) 0 1 <= clamp ((w0 - y) / 5) 0 1).
      { apply clamp_mono. apply div_le_compat; lra. }
      lra.
    + rewrite (riskFromRange_warn_below x) by lra.
      destruct (Qlt_le_dec y w0) as [Hy2|Hy2].
      * rewrite (riskFromRange_danger_below y) by lra. lra.
      * rewrite (riskFromRange_warn_below y) by lra.
        assert (clamp ((s0 - x) / (s0 - w0)) 0 1 <= clamp ((s0 - y) / (s0 - w0)) 0 1).
        { apply clamp_mono. apply div_le_compat; lra. }
        lra.
Qed.

(** X5: a contribution never falls as the value moves away from
    safety: [riskFromMax] is non-decreasing in the value, and on a band
    whose warn range contains its safe range [riskFromRange] does not
    fall when the value moves outward on its side of the safe range. *)
Theorem risk_contributions_monotone (x y : Q) (b : Standards.Band) (m : Standards.MaxBand) :
  (x <= y -> riskFromMax x m <= riskFromMax y m) /\
  (Standards.bandOrdered b -> fartherOut b x y -> riskFromRange x b <= riskFromRange y b).
Proof.
  split; [apply riskFromMax_le|].
  intros Hb [[H1 H2]|[H1 H2]].
  - now apply (proj1 (riskFromRange_le_outward x y b Hb)).
  - now apply (proj2 (riskFromRange_le_outward x y b Hb)).
Qed.

Lemma risk_contributions_monotone_witness :
  riskFromMax 4.5 (Standards.moisturePct Standards.FOSSILS)
    <= riskFromMax 5.5 (Standards.moisturePct Standards.FOSSILS) /\
  riskFromRange 57 (Standards.humidityPct Standards.FOSSILS)
    <= riskFromRange 62 (Standards.humidityPct Standards.FOSSILS) /\
  riskFromRange 38 (Standards.humidityPct Standards.FOSSILS)
    <= riskFromRange 33 (Standards.humidityPct Standards.FOSSILS).
Proof.
  assert (Hb : Standards.bandOrdered (Standards.humidityPct Standards.FOSSILS)).
  { unfold Standards.bandOrdered. cbn. repeat split; lra. }
  split; [|split].
  - apply (proj1 (risk_contributions_monotone 4.5 5.5
                    (Standards.humidityPct Standards.FOSSILS) _)). lra.
  - apply (proj2 (risk_contributions_monotone 57 62 _
                    (Standards.moisturePct Standards.FOSSILS)) Hb).
    left. cbn. lra.
  - apply (proj2 (risk_contributions_monotone 38 33 _
                    (Standards.moisturePct Standards.FOSSILS)) Hb).
    right. cbn. lra.
Defined.

Lemma scaled_le (a b d : Q) (lo hi : Q) :
  0 < d -> a <= b -> clamp (a / d * 60) lo hi <= clamp (b / d * 60) lo hi.
Proof.
  intros Hd H. apply clamp_mono.
  pose proof (div_le_compat a b d Hd H). lra.
Qed.

Lemma weightedRisk_le (r1 r2 : Reading.t) (standards : Standards.Entry) :
  Standards.bandOrdered (Standards.temperatureC standards) ->
  Standards.bandOrdered (Standards.humidityPct standards) ->
  fartherOut (Standards.temperatureC standards)
    (Reading.temperatureC r1) (Reading.temperatureC r2) ->
  fartherOut (Standards.humidityPct standards)
    (Reading.humidityPct r1) (Reading.humidityPct r2) ->
  Reading.moisturePct r1 <= Reading.moisturePct r2 ->
  (Reading.opensPerHour r1 <= Reading.opensPerHour r2)%nat ->
  Reading.vibration r1 <= Reading.vibration r2 ->
  weightedRisk r1 standards <= weightedRisk r2 standards.
Proof.
  intros HbT HbH HT HH HM HO HV. unfold weightedRisk. cbv zeta.
  assert (H1 : riskFromRange (Reading.temperatureC r1) (Standards.temperatureC standards)
               <= riskFromRange (Reading.temperatureC r2) (Standards.temperatureC standards)).
  { destruct HT as [[? ?]|[? ?]];
      [apply (proj1 (riskFromRange_le_outward _ _ _ HbT))
      |apply (proj2 (riskFromRange_le_outward _ _ _ HbT))]; assumption. }
  assert (H2 : riskFromRange (Reading.humidityPct r1) (Standards.humidityPct standards)
               <= riskFromRange (Reading.humidityPct r2) (Standards.humidityPct standards)).
  { destruct HH as [[? ?]|[? ?]];
      [apply (proj1 (riskFromRange_le_outward _ _ _ HbH))
      |apply (proj2 (riskFromRange_le_outward _ _ _ HbH))]; assumption. }
  pose proof (riskFromMax_le _ _ (Standards.moisturePct standards) HM) as H3.
  assert (H4 : clamp (inject_Z (Z.of_nat (Reading.opensPerHour r1))
                      / Math_max 1 (Standards.maxOpensPerHourWarn (Standards.access standards))
                      * 60) 0 100
               <= clamp (inject_Z (Z.of_nat (Reading.opensPerHour r2))
                      / Math_max 1 (Standards.maxOpensPerHourWarn (Standards.access standards))
                      * 60) 0 100).
  { apply scaled_le.
    - pose proof (Math_max_l 1 (Standards.maxOpensPerHourWarn (Standards.access standards))).
      lra.
    - rewrite <- Zle_Qle. lia. }
  assert (H5 : clamp (Reading.vibration r1
                      / Math_max 0.01 (Standards.warnMax (Standards.vibration standards))
                      * 60) 0 100
               <= clamp (Reading.vibration r2
                      / Math_max 0.01 (Standards.warnMax (Standards.vibration standards))
                      * 60) 0 100).
  { apply scaled_le; [|assumption].
    pose proof (Math_max_l 0.01 (Standards.warnMax (Standards.vibration standards))).
    lra. }
  lra.
Qed.

(** X6: with the same trend, door state and lock, a reading that is
    at least as far out on every metric gets a [riskScore] at least as
    high. *)
Theorem riskScore_monotone
  (this : DecisionEngine) (r1 r2 : Reading.t) (standards : Standards.Entry) :
  Standards.bandOrdered (Standards.temperatureC standards) ->
  Standards.bandOrdered (Standards.humidityPct standards) ->
  fartherOut (Standards.temperatureC standards)
    (Reading.temperatureC r1) (Reading.temperatureC r2) ->
  fartherOut (Standards.humidityPct standards)
    (Reading.humidityPct r1) (Reading.humidityPct r2) ->
  Reading.moisturePct r1 <= Reading.moisturePct r2 ->
  (Reading.opensPerHour r1 <= Reading.opensPerHour r2)%nat ->
  Reading.vibration r1 <= Reading.vibration r2 ->
  Reading.doorState r1 = Reading.doorState r2 ->
  Reading.accessLocked r1 = Reading.accessLocked r2 ->
  Assessment.riskScore (snd (evaluate this r1 standards))
    <= Assessment.riskScore (snd (evaluate this r2 standards)).
Proof.
  intros HbT HbH HT HH HM HO HV Hdoor Hlock.
  pose proof (weightedRisk_le r1 r2 standards HbT HbH HT HH HM HO HV) as Hw.
  unfold evaluate. cbn [snd Assessment.riskScore]. unfold computeRiskScore. cbv zeta.
  rewrite <- Hdoor, <- Hlock.
  apply clamp_mono. rewrite <- Zle_Qle. apply Math_round_mono.
  destruct (gtb (humiditySlopePerMin this) 0.08),
           (gtb (humiditySlopePerMin this) 0.15),
           (String.eqb (Reading.doorState r1) "open"),
           (Reading.accessLocked r1); lra.
Qed.

Lemma riskScore_monotone_witness :
  Assessment.riskScore (snd (evaluate Engine.constructor Samples.calm Standards.FOSSILS))
    <= Assessment.riskScore (snd (evaluate Engine.constructor Samples.hot Standards.FOSSILS)).
Proof.
  apply riskScore_monotone.
  - unfold Standards.bandOrdered. cbn. repeat split; lra.
  - unfold Standards.bandOrdered. cbn. repeat split; lra.
  - left. cbn. lra.
  - left. cbn. lra.
  - cbn. lra.
  - cbn. lia.
  - cbn. lra.
  - reflexivity.
  - reflexivity.
Defined.

(** The window after [ingest]: what was within 15 minutes of the new
    reading, in order, then the new reading. *)
Lemma ingest_recent (this : DecisionEngine) (reading : Reading.t) :
  recent (ingest this reading) =
    filter (fun p => (Reading.timestamp reading - 900000 <=? fst p)%Z) (recent this)
    ++ [(Reading.timestamp reading, reading)].
Proof.
  unfold ingest. cbn [recent].
  assert (E : forall l : list (Z * Reading.t),
             filter (fun p => (fst p >=? Reading.timestamp reading - 15 * 60000)%Z) l =
             filter (fun p => (Reading.timestamp reading - 900000 <=? fst p)%Z) l).
  { intro l. apply filter_ext. intro p. rewrite Z.geb_leb. reflexivity. }
  rewrite E, filter_app. cbn [filter fst].
  rewrite (proj2 (Z.leb_le _ _)) by lia.
  reflexivity.
Qed.

(** X7: after [ingest] the window ends with the new reading, holds
    only readings stamped within 15 minutes before it, keeps every
    earlier reading that is within those 15 minutes, and has grown by
    at most one. *)
Theorem ingest_window (this : DecisionEngine) (reading : Reading.t) :
  let t := Reading.timestamp reading in
  (exists kept, recent (ingest this reading) = kept ++ [(t, reading)]) /\
  Forall (fun p => (t - 900000 <= fst p)%Z) (recent (ingest this reading)) /\
  (forall p, In p (recent this) -> (t - 900000 <= fst p)%Z ->
             In p (recent (ingest this reading))) /\
  (length (recent (ingest this reading)) <= S (length (recent this)))%nat.
Proof.
  cbv zeta. rewrite ingest_recent.
  split; [eexists; reflexivity|]. split; [|split].
  - apply Forall_app. split.
    + apply Forall_forall. intros p Hp. apply filter_In in Hp.
      destruct Hp as [_ Hp]. now apply Z.leb_le.
    + repeat constructor. cbn [fst]. lia.
  - intros p Hin Hp. apply in_or_app. left. apply filter_In.
    split; [assumption | now apply Z.leb_le].
  - rewrite length_app. cbn [length].
    pose proof (filter_length_le
                  (fun p : Z * Reading.t => (Reading.timestamp reading - 900000 <=? fst p)%Z)
                  (recent this)).
    lia.
Qed.

(** X8: when every reading in the window is more than 15 minutes
    older than the new one (as for the first reading of an engine),
    the window is the new reading alone and the humidity trend is 0. *)
Theorem trend_flat_on_single_point (this : DecisionEngine) (reading : Reading.t) :
  Forall (fun p => (fst p < Reading.timestamp reading - 900000)%Z) (recent this) ->
  recent (ingest this reading) = [(Reading.timestamp reading, reading)] /\
  humiditySlopePerMin (ingest this reading) == 0.
Proof.
  intro H.
  assert (E : recent (ingest this reading) = [(Reading.timestamp reading, reading)]).
  { rewrite ingest_recent.
    replace (filter _ (recent this)) with (@nil (Z * Reading.t)); [reflexivity|].
    symmetry. induction H as [|p l Hp Hl IH]; [reflexivity|].
    cbn [filter]. rewrite (proj2 (Z.leb_gt _ _)) by lia. exact IH. }
  split; [exact E|].
  unfold humiditySlopePerMin. rewrite E. cbn. reflexivity.
Qed.

Lemma trend_flat_on_single_point_witness :
  humiditySlopePerMin (ingest Engine.constructor Samples.calm) == 0.
Proof.
  apply (trend_flat_on_single_point Engine.constructor Samples.calm).
  apply Forall_nil.
Defined.

Lemma if_push (A : Type) (c : bool) (l : list A) (x : A) :
  (if c then l ++ [x] else l) = l ++ (if c then [x] else []).
Proof. destruct c; [reflexivity | now rewrite app_nil_r]. Qed.

Lemma piece_length (A : Type) (c : bool) (x : A) :
  (length (if c then [x] else []) <= 1)%nat.
Proof. destruct c; cbn; lia. Qed.

Lemma piece_nil (A : Type) (c : bool) (x : A) :
  (if c then [x] else []) = [] <-> c = false.
Proof. destruct c; split; intro H; try discriminate; reflexivity. Qed.

Lemma piece_avoids (A : Type) (c : bool) (x y : A) :
  x <> y -> Forall (fun z => z <> y) (if c then [x] else []).
Proof. intro H. destruct c; repeat constructor. exact H. Qed.

Lemma not_safe_iff (s : string) : negb (String.eqb s "safe") = false <-> s = "safe".
Proof.
  destruct (String.eqb_spec s "safe"); cbn; split; intro H; congruence.
Qed.

Lemma buildInsights_cases
  (slope : Q) (reading : Reading.t) (standards : Standards.Entry) (t h m a v : string) :
  let l := buildInsights slope reading standards t h m a v in
  l <> [] /\
  (length l <= 6)%nat /\
  (l = [stableInsight] <->
   t = "safe" /\ h = "safe" /\ m = "safe" /\ a = "safe" /\ v = "safe").
Proof.
  cbv zeta. unfold buildInsights. cbv zeta.
  rewrite !if_push. cbn [app].
  match goal with
  | |- context [?P ++ (if negb (String.eqb t "safe") then [?x] else [])] =>
      set (pP := P); set (xT := x); set (pT := if negb (String.eqb t "safe") then [xT] else [])
  end.
  match goal with
  | |- context [(pP ++ pT) ++ (if ?c then [?x] else [])] =>
      set (xH := x); set (pH := if c then [xH] else [])
  end.
  match goal with
  | |- context [((pP ++ pT) ++ pH) ++ (if ?c then [?x] else [])] =>
      set (xM := x); set (pM := if c then [xM] else [])
  end.
  match goal with
  | |- context [(((pP ++ pT) ++ pH) ++ pM) ++ (if ?c then [?x] else [])] =>
      set (xA := x); set (pA := if c then [xA] else [])
  end.
  match goal with
  | |- context [((((pP ++ pT) ++ pH) ++ pM) ++ pA) ++ (if ?c then [?x] else [])] =>
      set (xV := x); set (pV := if c then [xV] else [])
  end.
  assert (LP : (length pP <= 1)%nat).
  { unfold pP. destruct (predictionForHumidity _ _ _); cbn; lia. }
  assert (LT : (length pT <= 1)%nat) by apply piece_length.
  assert (LH : (length pH <= 1)%nat) by apply piece_length.
  assert (LM : (length pM <= 1)%nat) by apply piece_length.
  assert (LA : (length pA <= 1)%nat) by apply piece_length.
  assert (LV : (length pV <= 1)%nat) by apply piece_length.
  assert (AP : Forall (fun z => z <> stableInsight) pP).
  { unfold pP, predictionForHumidity.
    repeat match goal with
           | |- context [if ?c then _ else _] => destruct c
           end; repeat constructor; discriminate. }
  assert (AT : Forall (fun z => z <> stableInsight) pT) by (apply piece_avoids; discriminate).
  assert (AH : Forall (fun z => z <> stableInsight) pH) by (apply piece_avoids; discriminate).
  assert (AM : Forall (fun z => z <> stableInsight) pM) by (apply piece_avoids; discriminate).
  assert (AA : Forall (fun z => z <> stableInsight) pA) by (apply piece_avoids; discriminate).
  assert (AV : Forall (fun z => z <> stableInsight) pV) by (apply piece_avoids; discriminate).
  assert (NT : pT = [] <-> t = "safe").
  { unfold pT. rewrite piece_nil. apply not_safe_iff. }
  assert (NH : pH = [] <-> h = "safe").
  { unfold pH. rewrite piece_nil. apply not_safe_iff. }
  assert (NM : pM = [] <-> m = "safe").
  { unfold pM. rewrite piece_nil. apply not_safe_iff. }
  assert (NA : pA = [] <-> a = "safe").
  { unfold pA. rewrite piece_nil. apply not_safe_iff. }
  assert (NV : pV = [] <-> v = "safe").
  { unfold pV. rewrite piece_nil. apply not_safe_iff. }
  assert (NP : h = "safe" -> pP = []).
  { intros ->. reflexivity. }
  clearbody pP pT pH pM pA pV. clear xT xH xM xA xV.
  match goal with
  | |- match ?X with _ => _ end <> _ /\ _ => set (L := X)
  end.
  assert (Hlen : (length L <= 6)%nat).
  { unfold L. rewrite !length_app. unfold Template in *. lia. }
  assert (Havoid : Forall (fun z => z <> stableInsight) L).
  { unfold L. repeat (apply Forall_app; split); assumption. }
  assert (Hnil : L = [] <->
                 t = "safe" /\ h = "safe" /\ m = "safe" /\ a = "safe" /\ v = "safe").
  { unfold L. split.
    - intro E.
      apply app_eq_nil in E. destruct E as [E EV].
      apply app_eq_nil in E. destruct E as [E EA].
      apply app_eq_nil in E. destruct E as [E EM].
      apply app_eq_nil in E. destruct E as [E EH].
      apply app_eq_nil in E. destruct E as [_ ET].
      rewrite <- NT, <- NH, <- NM, <- NA, <- NV. auto.
    - intros (Ht & Hh & Hm & Ha & Hv).
      rewrite (NP Hh), (proj2 NT Ht), (proj2 NH Hh), (proj2 NM Hm),
        (proj2 NA Ha), (proj2 NV Hv). reflexivity. }
  clearbody L.
  destruct L as [|x L']; cbv iota; cbn [app].
  - split; [discriminate|]. split; [cbn; lia|].
    split; [intros _; now apply Hnil | reflexivity].
  - split; [discriminate|]. split; [exact Hlen|].
    split.
    + intro E. injection E as -> _. inversion Havoid as [|? ? Hx _]. contradiction.
    + intro H. apply Hnil in H. discriminate H.
Qed.

(** X9: an assessment always carries between one and six insights,
    and the insights are the single "all stable" sentence exactly when
    all five statuses are safe. *)
Theorem insights_never_empty
  (this : DecisionEngine) (reading : Reading.t) (standards : Standards.Entry) :
  let a := snd (evaluate this reading standards) in
  Assessment.insights a <> [] /\
  (length (Assessment.insights a) <= 6)%nat /\
  (Assessment.insights a = [stableInsight] <-> allSafe a).
Proof.
  cbv zeta. unfold evaluate, allSafe.
  cbn [snd Assessment.insights Assessment.statuses Assessment.temperature
       Assessment.humidity Assessment.moisture Assessment.access Assessment.vibration
       Assessment.status].
  apply buildInsights_cases.
Qed.

Lemma selectedTypes_shape (reading : Reading.t) (standards : Standards.Entry) :
  exists hum temp lock,
    selectedTypes reading standards = hum ++ temp ++ lock /\
    (hum = [] \/ hum = ["DEHUMIDIFY"; "TRIGGER_AIRFLOW"] \/ hum = ["HUMIDIFY"]) /\
    (temp = [] \/ temp = ["ADJUST_TEMP_DOWN"] \/ temp = ["ADJUST_TEMP_UP"]) /\
    (lock = [] \/ lock = ["LOCK_ACCESS_10_MIN"]).
Proof.
  unfold selectedTypes, selectedActions, selectActions. cbv zeta.
  set (hS := rangeStatus (Reading.humidityPct reading) (Standards.humidityPct standards)).
  set (tS := rangeStatus (Reading.temperatureC reading) (Standards.temperatureC standards)).
  set (cH1 := String.eqb hS "danger"
              || (String.eqb hS "warn"
                  && gtb (Reading.humidityPct reading)
                       (snd (Standards.safe (Standards.humidityPct standards))))).
  set (cH2 := String.eqb hS "warn"
              && ltb (Reading.humidityPct reading)
                   (fst (Standards.safe (Standards.humidityPct standards)))).
  set (cT := String.eqb tS "danger" || String.eqb tS "warn").
  set (cD := gtb (Reading.temperatureC reading) _).
  set (cL := String.eqb (accessStatus reading standards) "danger").
  exists (if cH1 then ["DEHUMIDIFY"; "TRIGGER_AIRFLOW"] else if cH2 then ["HUMIDIFY"] else []),
         (if cT then if cD then ["ADJUST_TEMP_DOWN"] else ["ADJUST_TEMP_UP"] else []),
         (if cL then ["LOCK_ACCESS_10_MIN"] else []).
  split.
  - destruct cH1, cH2, cT, cD, cL; reflexivity.
  - destruct cH1, cH2, cT, cD, cL; auto.
Qed.

(** X10: the actions [evaluate] collects before the gate are all
    cases of the simulator's [applyAction], none twice and at most
    four; DEHUMIDIFY never comes with HUMIDIFY, ADJUST_TEMP_DOWN never
    with ADJUST_TEMP_UP, and DEHUMIDIFY comes exactly with
    TRIGGER_AIRFLOW. *)
Theorem selected_actions_well_formed (reading : Reading.t) (standards : Standards.Entry) :
  let types := selectedTypes reading standards in
  (forall ty, In ty types -> In ty knownActionTypes) /\
  NoDup types /\
  (length types <= 4)%nat /\
  ~ (In "DEHUMIDIFY" types /\ In "HUMIDIFY" types) /\
  ~ (In "ADJUST_TEMP_DOWN" types /\ In "ADJUST_TEMP_UP" types) /\
  (In "DEHUMIDIFY" types <-> In "TRIGGER_AIRFLOW" types).
Proof.
  cbv zeta.
  destruct (selectedTypes_shape reading standards)
    as (hs & ts & ls & E & Hh & Ht & Hl); rewrite E; clear E.
  destruct Hh as [-> | [-> | ->]], Ht as [-> | [-> | ->]], Hl as [-> | ->]; cbn [app].
  all: repeat split.
  all: try (intros ty Hin; cbn in Hin; cbn; intuition congruence).
  all: try (repeat constructor; cbn; intuition discriminate).
  all: try (cbn; lia).
  all: try (cbn; intuition discriminate).
Qed.

Lemma rangeStatus_not_safe (x : Q) (b : Standards.Band) :
  isBetweenInclusive x (Standards.safe b) = false ->
  String.eqb (rangeStatus x b) "danger" || String.eqb (rangeStatus x b) "warn" = true.
Proof.
  intro H. unfold rangeStatus. rewrite H.
  destruct (isBetweenInclusive x (Standards.warn b)); reflexivity.
Qed.

(** X11: with an ordered safe range, a temperature above it
    selects ADJUST_TEMP_DOWN and not ADJUST_TEMP_UP, and a temperature
    below it selects ADJUST_TEMP_UP and not ADJUST_TEMP_DOWN. *)
Theorem temperature_action_points_to_band (reading : Reading.t) (standards : Standards.Entry) :
  let safe := Standards.safe (Standards.temperatureC standards) in
  let types := selectedTypes reading standards in
  fst safe <= snd safe ->
  (snd safe < Reading.temperatureC reading ->
   In "ADJUST_TEMP_DOWN" types /\ ~ In "ADJUST_TEMP_UP" types) /\
  (Reading.temperatureC reading < fst safe ->
   In "ADJUST_TEMP_UP" types /\ ~ In "ADJUST_TEMP_DOWN" types).
Proof.
  cbv zeta. intro Hs.
  unfold selectedTypes, selectedActions, selectActions. cbv zeta.
  destruct (Standards.safe (Standards.temperatureC standards)) as [s0 s1] eqn:Esafe.
  cbn [fst snd] in *.
  split; intro Hx.
  - rewrite rangeStatus_not_safe by (rewrite Esafe; now apply between_false_above).
    replace (gtb (Reading.temperatureC reading) ((s0 + s1) / 2)) with true.
    2:{ symmetry. apply ltb_true. apply Qlt_shift_div_r; lra. }
    cbn [String.eqb Ascii.eqb Bool.eqb].
    repeat match goal with
           | |- context [if ?c then _ else _] => destruct c
           end; cbn; intuition discriminate.
  - rewrite rangeStatus_not_safe by (rewrite Esafe; now apply between_false_below).
    replace (gtb (Reading.temperatureC reading) ((s0 + s1) / 2)) with false.
    2:{ symmetry. apply ltb_false. apply Qle_shift_div_l; lra. }
    cbn [String.eqb Ascii.eqb Bool.eqb].
    repeat match goal with
           | |- context [if ?c then _ else _] => destruct c
           end; cbn; intuition discriminate.
Qed.

Lemma temperature_action_points_to_band_witness :
  In "ADJUST_TEMP_DOWN" (selectedTypes Samples.hot Standards.FOSSILS) /\
  ~ In "ADJUST_TEMP_UP" (selectedTypes Samples.hot Standards.FOSSILS).
Proof.
  assert (H : fst (Standards.safe (Standards.temperatureC Standards.FOSSILS))
              <= snd (Standards.safe (Standards.temperatureC Standards.FOSSILS)))
    by (cbn; lra).
  apply (proj1 (temperature_action_points_to_band Samples.hot Standards.FOSSILS H)).
  cbn. lra.
Defined.

(** X12: on a band whose warn range contains its safe range, a
    humidity above the safe range selects DEHUMIDIFY and
    TRIGGER_AIRFLOW first; a humidity below the safe range but inside
    the warn range selects HUMIDIFY first; a humidity below the warn
    range selects DEHUMIDIFY and TRIGGER_AIRFLOW first as well. *)
Theorem humidity_action_by_side (reading : Reading.t) (standards : Standards.Entry) :
  let band := Standards.humidityPct standards in
  let h := Reading.humidityPct reading in
  let types := selectedTypes reading standards in
  Standards.bandOrdered band ->
  (snd (Standards.safe band) < h ->
   exists rest, types = "DEHUMIDIFY" :: "TRIGGER_AIRFLOW" :: rest) /\
  (fst (Standards.warn band) <= h -> h < fst (Standards.safe band) ->
   exists rest, types = "HUMIDIFY" :: rest) /\
  (h < fst (Standards.warn band) ->
   exists rest, types = "DEHUMIDIFY" :: "TRIGGER_AIRFLOW" :: rest).
Proof.
  cbv zeta.
  unfold selectedTypes, selectedActions, selectActions, rangeStatus. cbv zeta.
  destruct (Standards.humidityPct standards) as [[s0 s1] [w0 w1]].
  unfold Standards.bandOrdered. cbn [Standards.safe Standards.warn fst snd].
  intros (Hw0 & Hs & Hw1).
  set (tS := if isBetweenInclusive (Reading.temperatureC reading) _ then _ else _).
  split; [|split].
  - intro Hx. rewrite (between_false_above _ s0 s1 Hx).
    replace (gtb (Reading.humidityPct reading) s1) with true
      by (symmetry; now apply ltb_true).
    destruct (isBetweenInclusive (Reading.humidityPct reading) (w0, w1));
      cbn [String.eqb Ascii.eqb Bool.eqb orb andb app map Assessment.type];
      repeat match goal with
             | |- context [if ?c then _ else _] => destruct c
             end; cbn; eexists; reflexivity.
  - intros Hx0 Hx. rewrite (between_false_below _ s0 s1 Hx).
    rewrite between_true by lra.
    replace (gtb (Reading.humidityPct reading) s1) with false
      by (symmetry; apply ltb_false; lra).
    rewrite (ltb_true _ s0 Hx).
    cbn [String.eqb Ascii.eqb Bool.eqb orb andb app map Assessment.type].
    repeat match goal with
           | |- context [if ?c then _ else _] => destruct c
           end; cbn; eexists; reflexivity.
  - intro Hx. rewrite between_false_below by lra.
    rewrite (between_false_below _ w0 w1 Hx).
    cbn [String.eqb Ascii.eqb Bool.eqb orb andb app map Assessment.type].
    repeat match goal with
           | |- context [if ?c then _ else _] => destruct c
           end; cbn; eexists; reflexivity.
Qed.

Lemma humidity_action_by_side_witness :
  exists rest,
    selectedTypes Scenarios.parched Standards.FOSSILS
    = "DEHUMIDIFY" :: "TRIGGER_AIRFLOW" :: rest.
Proof.
  assert (H : Standards.bandOrdered (Standards.humidityPct Standards.FOSSILS)).
  { unfold Standards.bandOrdered. cbn. repeat split; lra. }
  apply (proj2 (proj2 (humidity_action_by_side Scenarios.parched Standards.FOSSILS H))).
  cbn. lra.
Defined.

End EngineFacts.

(* ------------------------------------------------------------------ *)
(** ** Further properties: the simulator *)

Section SimulatorFacts.
Import Js Utils Simulator Actuators.
Open Scope string_scope.
Open Scope list_scope.

Ltac eqb_cases :=
  repeat match goal with
         | |- context [String.eqb ?a ?b] => destruct (String.eqb_spec a b)
         end.

(** X13: [applyAction] never touches the simulated state, the
    artifact type or the demo mode, and an action type that is not one
    of the six cases of its switch changes nothing at all. *)
Theorem applyAction_frame (this : Simulator.t) (actionType : string) (now : Z) :
  state (applyAction this actionType now) = state this /\
  artifactType (applyAction this actionType now) = artifactType this /\
  demoMode (applyAction this actionType now) = demoMode this /\
  (~ In actionType knownActionTypes -> applyAction this actionType now = this).
Proof.
  unfold applyAction.
  repeat split; try (eqb_cases; reflexivity).
  intro Hn. eqb_cases; try reflexivity; exfalso; apply Hn; subst; cbn; auto 10.
Qed.

Lemma applyAction_frame_witness :
  ~ In "OPEN_WINDOW" knownActionTypes /\
  applyAction Samples.fossils "OPEN_WINDOW" 0 = Samples.fossils.
Proof.
  assert (H : ~ In "OPEN_WINDOW" knownActionTypes).
  { cbn. intuition discriminate. }
  split; [exact H|].
  exact (proj2 (proj2 (proj2 (applyAction_frame Samples.fossils "OPEN_WINDOW" 0))) H).
Defined.

Lemma clamp_above (x n lo hi : Q) : x <= hi -> x <= n -> x <= clamp n lo hi.
Proof.
  intros H1 H2. unfold clamp.
  apply Qle_trans with (Math_min hi n); [|apply Math_max_r].
  unfold Math_min. destruct (leb hi n); assumption.
Qed.

Lemma applyAction_airflow (this : Simulator.t) (actionType : string) (now : Z) :
  airflowInRange this ->
  airflowInRange (applyAction this actionType now) /\
  airflowBoost (controls this) <= airflowBoost (controls (applyAction this actionType now)).
Proof.
  unfold airflowInRange, applyAction. intros [H0 H1].
  pose proof (clamp_bounds (airflowBoost (controls this) + 0.2) 0 1).
  pose proof (clamp_bounds (airflowBoost (controls this) + 0.25) 0 1).
  pose proof (clamp_id (airflowBoost (controls this) + 0.2) 0 1).
  pose proof (clamp_id (airflowBoost (controls this) + 0.25) 0 1).
  assert (G1 : airflowBoost (controls this) <= clamp (airflowBoost (controls this) + 0.2) 0 1)
    by (apply clamp_above; lra).
  assert (G2 : airflowBoost (controls this) <= clamp (airflowBoost (controls this) + 0.25) 0 1)
    by (apply clamp_above; lra).
  eqb_cases; cbn [controls set_controls airflowBoost]; lra.
Qed.

Lemma call_controls (this : Simulator.t) (c : Call) :
  match c with
  | CallApplyAction actionType now =>
      fst (call this c) = applyAction this actionType now
  | _ => controls (fst (call this c)) = controls this
  end.
Proof.
  destruct c as [nowMs nz|actionType now|a now u|m now u]; cbn [call fst].
  - pose proof (tick_controls this nowMs nz) as H.
    destruct (tick this nowMs nz); exact H.
  - reflexivity.
  - exact (initState_controls _ now u).
  - exact (initState_controls _ now u).
Qed.

Lemma call_airflow (this : Simulator.t) (c : Call) :
  airflowInRange this ->
  airflowInRange (fst (call this c)) /\
  airflowBoost (controls this) <= airflowBoost (controls (fst (call this c))).
Proof.
  intro H. pose proof (call_controls this c) as E.
  destruct c as [nowMs nz|actionType now|a now u|m now u].
  2:{ rewrite E. now apply applyAction_airflow. }
  all: unfold airflowInRange in *; rewrite E; split; [exact H | lra].
Qed.

Lemma run_fst_cons (this : Simulator.t) (c : Call) (cs : list Call) :
  fst (run this (c :: cs)) = fst (run (fst (call this c)) cs).
Proof.
  cbn [run]. destruct (call this c) as [this' r]. cbn [fst].
  destruct (run this' cs) as [this'' rs]. reflexivity.
Qed.

(** X14: through any sequence of ticks, actions and
    reinitialisations, [airflowBoost] stays within 0..1 once it is, and
    it never decreases. *)
Theorem airflow_stays_in_range (this : Simulator.t) (calls : list Call) :
  airflowInRange this ->
  airflowInRange (fst (run this calls)) /\
  airflowBoost (controls this) <= airflowBoost (controls (fst (run this calls))).
Proof.
  revert this. induction calls as [|c cs IH]; intros this H.
  - cbn [run fst]. split; [exact H | lra].
  - rewrite run_fst_cons.
    destruct (call_airflow this c H) as [H1 H2].
    destruct (IH _ H1) as [H3 H4]. split; [exact H3 | lra].
Qed.

Lemma airflow_stays_in_range_witness :
  airflowInRange Samples.fossils /\
  airflowInRange
    (fst (run Samples.fossils
            [CallApplyAction "DEHUMIDIFY" 0; CallTick 1000 Samples.quiet;
             CallApplyAction "TRIGGER_AIRFLOW" 2000; CallApplyAction "TRIGGER_AIRFLOW" 3000;
             CallApplyAction "DEHUMIDIFY" 4000; CallApplyAction "DEHUMIDIFY" 5000])).
Proof.
  assert (H : airflowInRange Samples.fossils).
  { unfold airflowInRange. cbn. lra. }
  split; [exact H|].
  exact (proj1 (airflow_stays_in_range Samples.fossils _ H)).
Defined.

Lemma clamp_strict (a b lo hi : Q) :
  a < b -> lo < clamp b lo hi -> clamp b lo hi < hi -> clamp a lo hi < clamp b lo hi.
Proof.
  unfold clamp, Math_max, Math_min. intros H.
  destruct (leb_spec hi a), (leb_spec hi b);
    repeat match goal with
           | |- context [leb ?p ?q] => destruct (leb_spec p q)
           end; intros; lra.
Qed.

(** The humidity [tick] leaves in the state. *)
Lemma tick_humidity (this this' : Simulator.t) (nowMs : Z) (nz : Noise) (r : Reading.t) :
  tick this nowMs nz = Returned r this' ->
  humidityPct (state this') =
  clamp (humidityPct (state this) +
         (nHumidity nz * 0.10 + snd (drift (demoMode this))
          + humidityBiasPct (controls this) * 0.03
          + airflowBoost (controls this) * -0.03)) 5 95.
Proof.
  unfold tick.
  destruct (drift (demoMode this)) as [driftT driftH].
  destruct (Standards.entry_of _) as [std|]; [|discriminate].
  destruct (doorStep _ _ _ _ _ _ _) as [[door lastToggle] opens].
  intro H. injection H as _ <-. reflexivity.
Qed.

(** X15: with the same noise, the tick after a DEHUMIDIFY leaves
    the simulated humidity no higher than the tick without it, and
    strictly lower when the latter is strictly inside 5..95. *)
Theorem dehumidify_lowers_next_humidity
  (this dry wet : Simulator.t) (t nowMs : Z) (nz : Noise) (r1 r2 : Reading.t) :
  airflowBoost (controls this) <= 1 ->
  tick this nowMs nz = Returned r1 wet ->
  tick (applyAction this "DEHUMIDIFY" t) nowMs nz = Returned r2 dry ->
  humidityPct (state dry) <= humidityPct (state wet) /\
  (5 < humidityPct (state wet) < 95 -> humidityPct (state dry) < humidityPct (state wet)).
Proof.
  intros Ha H1 H2.
  rewrite (tick_humidity _ _ _ _ _ H1), (tick_humidity _ _ _ _ _ H2).
  cbn [applyAction String.eqb Ascii.eqb Bool.eqb set_controls controls state demoMode
       humidityBiasPct airflowBoost].
  set (a := airflowBoost (controls this)) in *.
  assert (G : a <= clamp (a + 0.2) 0 1) by (apply clamp_above; lra).
  split.
  - apply clamp_mono. lra.
  - intros [Hlo Hhi]. apply clamp_strict; [lra | assumption | assumption].
Qed.

Lemma dehumidify_lowers_next_humidity_witness :
  match tick Samples.fossils 1000 Samples.quiet,
        tick (applyAction Samples.fossils "DEHUMIDIFY" 0) 1000 Samples.quiet with
  | Returned _ wet, Returned _ dry =>
      airflowBoost (controls Samples.fossils) <= 1 /\
      5 < humidityPct (state wet) < 95 /\
      humidityPct (state dry) < humidityPct (state wet)
  | _, _ => False
  end.
Proof.
  assert (Ha : airflowBoost (controls Samples.fossils) <= 1) by (cbn; lra).
  destruct (tick Samples.fossils 1000 Samples.quiet) as [r1 wet|] eqn:E1.
  2:{ vm_compute in E1. discriminate E1. }
  destruct (tick (applyAction Samples.fossils "DEHUMIDIFY" 0) 1000 Samples.quiet)
    as [r2 dry|] eqn:E2.
  2:{ vm_compute in E2. discriminate E2. }
  assert (Hw : 5 < humidityPct (state wet) < 95).
  { vm_compute in E1. injection E1 as _ <-. cbn. lra. }
  split; [exact Ha|]. split; [exact Hw|].
  exact (proj2 (dehumidify_lowers_next_humidity _ _ _ 0 1000 Samples.quiet r1 r2 Ha E1 E2) Hw).
Defined.

(** What the door block gives, by case. *)
Lemma doorStep_cases
  (mode : string) (locked : bool) (nowMs : Z) (u : Q)
  (door : string) (last : Z) (opens : list Z) :
  let '(door', last', _) := doorStep mode locked nowMs u door last opens in
  (locked = true -> door' <> "open") /\
  (door' <> door ->
   last' = nowMs /\
   ((locked = true /\ door = "open" /\ door' = "closed") \/
    (locked = false /\ (nowMs - last > 10000)%Z))) /\
  (door' = door -> last' = last).
Proof.
  unfold doorStep.
  destruct locked; cbn [negb andb].
  - destruct (String.eqb_spec door "open") as [->|Hd];
      repeat split; intros; try congruence;
      try (left; repeat split; reflexivity).
  - destruct (Z.gtb_spec (nowMs - last) 10000) as [Hg|Hg]; cbn [andb].
    + destruct (ltb u _).
      * destruct (String.eqb_spec door "closed") as [->|Hc];
          repeat split; intros; try congruence;
          try (right; split; [reflexivity | lia]).
      * repeat split; intros; try congruence.
    + repeat split; intros; try congruence.
Qed.

Lemma tick_door (this this' : Simulator.t) (nowMs : Z) (nz : Noise) (r : Reading.t) :
  tick this nowMs nz = Returned r this' ->
  let '(d, l, _) :=
    doorStep (demoMode this) (nowMs <? lockEnd this)%Z nowMs
      (uToggle nz) (doorState (state this)) (lastDoorToggleMs (state this))
      (opensInLastHour (state this)) in
  Reading.accessLocked r = (nowMs <? lockEnd this)%Z /\
  Reading.doorState r = d /\
  doorState (state this') = d /\
  lastDoorToggleMs (state this') = l.
Proof.
  unfold tick, lockEnd.
  destruct (drift (demoMode this)) as [driftT driftH].
  destruct (Standards.entry_of _) as [std|]; [|discriminate].
  destruct (doorStep _ _ _ _ _ _ _) as [[door lastToggle] opens].
  intro H. injection H as <- <-. repeat split.
Qed.

Lemma call_lockEnd (this : Simulator.t) (c : Call) :
  (lockEnd this <= lockEnd (fst (call this c)))%Z.
Proof.
  pose proof (call_controls this c) as E.
  destruct c as [nowMs nz|actionType now|a now u|m now u].
  2:{ rewrite E. apply applyAction_lock_le. }
  all: unfold lockEnd; rewrite E; lia.
Qed.

Lemma run_lockEnd (cs : list Call) :
  forall this, (lockEnd this <= lockEnd (fst (run this cs)))%Z.
Proof.
  induction cs as [|c cs IH]; intro this.
  - cbn. lia.
  - rewrite run_fst_cons. pose proof (call_lockEnd this c). pose proof (IH (fst (call this c))).
    lia.
Qed.

(** X16: after LOCK_ACCESS_10_MIN at time [t], whatever calls
    follow, every tick stamped before [t] + 10 minutes reports the
    access locked and the door not open, and leaves the door not
    open. *)
Theorem lock_holds_for_ten_minutes
  (this this' : Simulator.t) (t nowMs : Z) (calls : list Call) (nz : Noise) (r : Reading.t) :
  tick (fst (run (applyAction this "LOCK_ACCESS_10_MIN" t) calls)) nowMs nz
    = Returned r this' ->
  (nowMs < t + 10 * 60000)%Z ->
  Reading.accessLocked r = true /\
  Reading.doorState r <> "open" /\
  doorState (state this') <> "open".
Proof.
  intros Ht Hnow.
  set (s := fst (run (applyAction this "LOCK_ACCESS_10_MIN" t) calls)) in *.
  assert (Hlock : (nowMs <? lockEnd s)%Z = true).
  { apply Z.ltb_lt.
    pose proof (run_lockEnd calls (applyAction this "LOCK_ACCESS_10_MIN" t)) as H1.
    fold s in H1. rewrite applyAction_lock in H1. lia. }
  pose proof (tick_door _ _ _ _ _ Ht) as Hd.
  pose proof (doorStep_cases (demoMode s) (nowMs <? lockEnd s)%Z nowMs (uToggle nz)
                (doorState (state s)) (lastDoorToggleMs (state s))
                (opensInLastHour (state s))) as Hc.
  destruct (doorStep _ _ _ _ _ _ _) as [[d l] o].
  destruct Hd as (Ha & Hr & Hs & _). destruct Hc as (Hopen & _).
  rewrite Ha, Hr, Hs. repeat split; auto.
Qed.

Lemma lock_holds_for_ten_minutes_witness :
  match tick (fst (run (applyAction Samples.fossils "LOCK_ACCESS_10_MIN" 0)
                     [CallApplyAction "HUMIDIFY" 1000; CallTick 20000 Samples.toggling]))
             300000 Samples.toggling with
  | Returned r this' =>
      (300000 < 0 + 10 * 60000)%Z /\
      Reading.accessLocked r = true /\ Reading.doorState r <> "open"
  | Thrown _ => False
  end.
Proof.
  destruct (tick _ 300000 Samples.toggling) as [r this'|] eqn:E.
  - assert (H : (300000 < 0 + 10 * 60000)%Z) by lia.
    split; [exact H|].
    destruct (lock_holds_for_ten_minutes _ _ _ _ _ _ _ E H) as (H1 & H2 & _).
    split; assumption.
  - vm_compute in E. discriminate E.
Defined.

(** X17: a tick changes the door state only by closing an open
    door under lock, or, with no lock, more than ten seconds after the
    last toggle; a change stamps [lastDoorToggleMs] with the tick's
    time and no change leaves the stamp alone. *)
Theorem door_changes_only_when_allowed
  (this this' : Simulator.t) (nowMs : Z) (nz : Noise) (r : Reading.t) :
  tick this nowMs nz = Returned r this' ->
  (doorState (state this') <> doorState (state this) ->
   lastDoorToggleMs (state this') = nowMs /\
   (((nowMs < lockEnd this)%Z /\ doorState (state this) = "open"
     /\ doorState (state this') = "closed") \/
    ((lockEnd this <= nowMs)%Z /\ (nowMs - lastDoorToggleMs (state this) > 10000)%Z))) /\
  (doorState (state this') = doorState (state this) ->
   lastDoorToggleMs (state this') = lastDoorToggleMs (state this)).
Proof.
  intro Ht.
  pose proof (tick_door _ _ _ _ _ Ht) as Hd.
  pose proof (doorStep_cases (demoMode this) (nowMs <? lockEnd this)%Z nowMs (uToggle nz)
                (doorState (state this)) (lastDoorToggleMs (state this))
                (opensInLastHour (state this))) as Hc.
  destruct (doorStep _ _ _ _ _ _ _) as [[d l] o].
  destruct Hd as (_ & _ & Hs & Hl). destruct Hc as (_ & Hch & Hsame).
  rewrite Hs, Hl. split.
  - intro Hne. destruct (Hch Hne) as [E [(Hlk & Hop & Hcl)|(Hlk & Hg)]].
    + split; [exact E|]. left. apply Z.ltb_lt in Hlk. auto.
    + split; [exact E|]. right. apply Z.ltb_ge in Hlk. auto.
  - exact Hsame.
Qed.

Lemma door_changes_only_when_allowed_witness :
  match tick Samples.fossils 20000 Samples.toggling with
  | Returned r this' =>
      doorState (state this') <> doorState (state Samples.fossils) /\
      lastDoorToggleMs (state this') = 20000%Z
  | Thrown _ => False
  end.
Proof.
  destruct (tick Samples.fossils 20000 Samples.toggling) as [r this'|] eqn:E.
  - assert (Hne : doorState (state this') <> doorState (state Samples.fossils)).
    { vm_compute in E. injection E as _ <-. discriminate. }
    split; [exact Hne|].
    exact (proj1 (proj1 (door_changes_only_when_allowed _ _ _ _ _ E) Hne)).
  - vm_compute in E. discriminate E.
Defined.

(** The lookup gives an inherited value exactly on the names of
    [Object.prototype]. *)
Lemma entry_of_none_iff (key : string) :
  Standards.entry_of (Standards.getStandards key) = None <-> Standards.inherited key = true.
Proof.
  unfold Standards.getStandards, Standards.get, Standards.STANDARDS_BY_TYPE.
  cbn [Standards.own].
  destruct (String.eqb_spec "FOSSILS" key) as [<-|_]; [cbn; split; discriminate|].
  destruct (String.eqb_spec "ORGANIC" key) as [<-|_]; [cbn; split; discriminate|].
  destruct (String.eqb_spec "METALLIC" key) as [<-|_]; [cbn; split; discriminate|].
  destruct (String.eqb_spec "STONE" key) as [<-|_]; [cbn; split; discriminate|].
  destruct (Standards.inherited key); cbn; split; congruence.
Qed.

Lemma initialState_none_iff (a m : string) (now : Z) (u : InitDraws) :
  initialState a m now u = None <-> Standards.inherited a = true.
Proof.
  rewrite <- entry_of_none_iff. unfold initialState.
  destruct (Standards.entry_of (Standards.getStandards a)) as [std|].
  - split; [|discriminate].
    repeat match goal with
           | |- context [if ?c then _ else _] => destruct c
           end; discriminate.
  - split; reflexivity.
Qed.

(** X18: [new Simulator] throws exactly on an artifact type that
    names a property of [Object.prototype]; on every listed type it
    returns; and what it returns has the given type and mode, all
    controls at 0, the door closed since the construction time, no
    opens on record and no vibration. *)
Theorem constructor_throws_iff_inherited (a m : string) (now : Z) (u : InitDraws) :
  (constructor a m now u = None <-> Standards.inherited a = true) /\
  (In a Standards.ARTIFACT_TYPES -> constructor a m now u <> None) /\
  match constructor a m now u with
  | Some s =>
      artifactType s = a /\ demoMode s = m /\ controls s = initialControls /\
      doorState (state s) = "closed" /\ lastDoorToggleMs (state s) = now /\
      opensInLastHour (state s) = [] /\ vibration (state s) = 0
  | None => True
  end.
Proof.
  assert (E : constructor a m now u = None <-> Standards.inherited a = true).
  { rewrite <- (initialState_none_iff a m now u). unfold constructor.
    destruct (initialState a m now u); split; congruence. }
  split; [exact E|]. split.
  - intros Hin Hnone. apply E in Hnone.
    cbn in Hin. destruct Hin as [<-|[<-|[<-|[<-|[]]]]]; discriminate Hnone.
  - unfold constructor. destruct (initialState a m now u) as [st|] eqn:Est; [|exact I].
    cbn [artifactType demoMode controls state].
    unfold initialState in Est. destruct (Standards.entry_of _); [|discriminate].
    repeat match type of Est with
           | context [if ?c then _ else _] => destruct c
           end; injection Est as <-; repeat split.
Qed.

Lemma constructor_throws_iff_inherited_witness :
  In "STONE" Standards.ARTIFACT_TYPES /\
  constructor "STONE" "atRisk" 5 Samples.draws <> None.
Proof.
  assert (H : In "STONE" Standards.ARTIFACT_TYPES) by (cbn; auto).
  split; [exact H|].
  exact (proj1 (proj2 (constructor_throws_iff_inherited "STONE" "atRisk" 5 Samples.draws)) H).
Defined.

(** X19: [setArtifactType] with a name of [Object.prototype]
    throws after it has stored the name: state and controls are as
    before, and from then on every [tick] and every [generateHistory]
    on the object throws. *)
Theorem failed_setArtifactType_breaks_tick
  (this : Simulator.t) (a : string) (now : Z) (u : InitDraws) :
  Standards.inherited a = true ->
  exists broken,
    setArtifactType this a now u = Thrown broken /\
    artifactType broken = a /\
    state broken = state this /\ controls broken = controls this /\
    (forall nowMs nz, exists left, tick broken nowMs nz = Thrown left) /\
    (forall t nz24 nz7, exists left, generateHistory broken t nz24 nz7 = Thrown left).
Proof.
  intro Hin.
  pose proof (proj2 (initialState_none_iff a (demoMode this) now u) Hin) as Hinit.
  pose proof (proj2 (entry_of_none_iff a) Hin) as Hentry.
  unfold setArtifactType, _initState. cbn [artifactType demoMode]. rewrite Hinit.
  eexists. split; [reflexivity|]. cbn [artifactType state controls].
  repeat split.
  - intros nowMs nz. unfold tick. cbn [artifactType]. rewrite Hentry.
    destruct (drift _). eexists. reflexivity.
  - intros t nz24 nz7. unfold generateHistory.
    change (24 * 60)%nat with (S (24 * 60 - 1)). cbn [historyLoop].
    unfold tick. cbn [artifactType]. rewrite Hentry.
    destruct (drift _). eexists. reflexivity.
Qed.

Lemma failed_setArtifactType_breaks_tick_witness :
  Standards.inherited "toString" = true /\
  exists broken,
    setArtifactType Samples.fossils "toString" 0 Samples.draws = Thrown broken /\
    state broken = state Samples.fossils.
Proof.
  assert (H : Standards.inherited "toString" = true) by reflexivity.
  split; [exact H|].
  destruct (failed_setArtifactType_breaks_tick Samples.fossils "toString" 0 Samples.draws H)
    as (broken & E & _ & Hs & _).
  exists broken. split; assumption.
Defined.

Lemma historyLoop_frame (stepMs now : Z) (nz : nat -> Noise) (i : nat) :
  forall this history,
    controls (after (historyLoop stepMs now nz i this history)) = controls this /\
    artifactType (after (historyLoop stepMs now nz i this history)) = artifactType this /\
    demoMode (after (historyLoop stepMs now nz i this history)) = demoMode this.
Proof.
  induction i as [|i IH]; intros this history; cbn [historyLoop].
  - pose proof (tick_controls this (now - Z.of_nat 0 * stepMs) (nz 0%nat)) as Hc.
    pose proof (tick_artifactType this (now - Z.of_nat 0 * stepMs) (nz 0%nat)) as [Ha Hm].
    destruct (tick this _ _); cbn [after] in *; repeat split; assumption.
  - pose proof (tick_controls this (now - Z.of_nat (S i) * stepMs) (nz (S i))) as Hc.
    pose proof (tick_artifactType this (now - Z.of_nat (S i) * stepMs) (nz (S i))) as [Ha Hm].
    destruct (tick this _ _) as [r this1|this1]; cbn [after] in *.
    + destruct (IH this1 (history ++ [r])) as (H1 & H2 & H3).
      rewrite H1, H2, H3. repeat split; assumption.
    + repeat split; assumption.
Qed.

Lemma generateHistory_returns
  (this : Simulator.t) (now : Z) (nz24 nz7 : nat -> Noise) (std : Standards.Entry) :
  Standards.entry_of (Standards.getStandards (artifactType this)) = Some std ->
  exists h24 h7 this',
    generateHistory this now nz24 nz7 = Returned (h24, h7) this' /\
    (length h24 = 1441%nat /\ length h7 = 337%nat) /\
    (map Reading.timestamp h24 =
       map (fun k => (now - Z.of_nat k * 60000)%Z) (countdown (24 * 60)) /\
     map Reading.timestamp h7 =
       map (fun k => (now - Z.of_nat k * (30 * 60000))%Z) (countdown (7 * 48))) /\
    controls this' = controls this /\
    artifactType this' = artifactType this /\
    demoMode this' = demoMode this.
Proof.
  intro Hstd. unfold generateHistory.
  pose proof (historyLoop_frame 60000 now nz24 (24 * 60) this []) as F1.
  destruct (historyLoop_fresh 60000 now nz24 std (24 * 60) this Hstd)
    as (h24 & this1 & E1 & Hty1 & Hlen1 & Hmap1).
  rewrite E1 in F1 |- *. cbn [after] in F1. destruct F1 as (Fc1 & Fa1 & Fm1).
  pose proof (historyLoop_frame (30 * 60000) now nz7 (7 * 48) this1 []) as F2.
  destruct (historyLoop_fresh (30 * 60000) now nz7 std (7 * 48) this1)
    as (h7 & this2 & E2 & Hty2 & Hlen2 & Hmap2).
  { now rewrite Hty1. }
  rewrite E2 in F2 |- *. cbn [after] in F2. destruct F2 as (Fc2 & Fa2 & Fm2).
  exists h24, h7, this2.
  split; [reflexivity|].
  split; [split; [rewrite Hlen1 | rewrite Hlen2]; reflexivity|].
  split; [split; assumption|].
  repeat split; congruence.
Qed.

(** X20: on a simulator whose type resolves to a standards entry,
    [generateHistory] returns the 24-hour series stamped one minute
    apart from [now] - 24 h up to [now] and the 7-day series stamped 30
    minutes apart from [now] - 7 d up to [now], and leaves the controls,
    the artifact type and the demo mode as they were. *)
Theorem generateHistory_timestamps
  (this : Simulator.t) (now : Z) (nz24 nz7 : nat -> Noise) (std : Standards.Entry) :
  Standards.entry_of (Standards.getStandards (artifactType this)) = Some std ->
  exists history24h history7d this',
    generateHistory this now nz24 nz7 = Returned (history24h, history7d) this' /\
    map Reading.timestamp history24h =
      map (fun k => (now - Z.of_nat k * 60000)%Z) (countdown (24 * 60)) /\
    map Reading.timestamp history7d =
      map (fun k => (now - Z.of_nat k * (30 * 60000))%Z) (countdown (7 * 48)) /\
    controls this' = controls this /\
    artifactType this' = artifactType this /\
    demoMode this' = demoMode this.
Proof.
  intro Hstd.
  destruct (generateHistory_returns this now nz24 nz7 std Hstd)
    as (h24 & h7 & this' & E & _ & [M1 M2] & Hc & Ha & Hm).
  exists h24, h7, this'. repeat split; assumption.
Qed.

Lemma generateHistory_timestamps_witness :
  exists history24h history7d this',
    generateHistory Samples.fossils 0 (fun _ => Samples.quiet) (fun _ => Samples.quiet)
      = Returned (history24h, history7d) this' /\
    map Reading.timestamp history24h =
      map (fun k => (0 - Z.of_nat k * 60000)%Z) (countdown (24 * 60)) /\
    map Reading.timestamp history7d =
      map (fun k => (0 - Z.of_nat k * (30 * 60000))%Z) (countdown (7 * 48)) /\
    controls this' = controls Samples.fossils /\
    artifactType this' = artifactType Samples.fossils /\
    demoMode this' = demoMode Samples.fossils.
Proof.
  apply (generateHistory_timestamps Samples.fossils 0 _ _ Standards.FOSSILS).
  reflexivity.
Defined.

Lemma rand_between (min max u : Q) :
  min <= max -> 0 <= u <= 1 -> min <= rand min max u <= max.
Proof.
  intros Hm [Hu0 Hu1]. unfold rand, lerp.
  assert (H0 : 0 <= (max - min) * u) by (apply Qmult_le_0_compat; lra).
  assert (H1 : (max - min) * u <= (max - min) * 1).
  { rewrite !(Qmult_comm (max - min)). apply Qmult_le_compat_r; lra. }
  lra.
Qed.

Lemma midpoint_half (a b : Q) : midpoint (a, b) == (a + b) * (1 # 2).
Proof. unfold midpoint, Qdiv. reflexivity. Qed.

(** In normal mode the start is inside a safe band that is at least
    0.8 wide for temperature and 3 wide for humidity, and under any
    moisture safeMax. *)
Lemma normal_start_safe (std : Standards.Entry) (a : string) (now : Z) (u : InitDraws) (st : State) :
  Standards.entry_of (Standards.getStandards a) = Some std ->
  0.8 <= snd (Standards.safe (Standards.temperatureC std))
         - fst (Standards.safe (Standards.temperatureC std)) ->
  3 <= snd (Standards.safe (Standards.humidityPct std))
       - fst (Standards.safe (Standards.humidityPct std)) ->
  0 <= uTemperature u <= 1 -> 0 <= uHumidity u <= 1 -> 0 <= uMoisture u <= 1 ->
  initialState a "normal" now u = Some st ->
  Engine.rangeStatus (temperatureC st) (Standards.temperatureC std) = "safe" /\
  Engine.rangeStatus (humidityPct st) (Standards.humidityPct std) = "safe" /\
  Engine.maxStatus (moisturePct st) (Standards.moisturePct std) = "safe".
Proof.
  intros Hstd HT HH Hu1 Hu2 Hu3. unfold initialState. rewrite Hstd.
  cbn [String.eqb Ascii.eqb Bool.eqb].
  intro E. injection E as <-. cbn [temperatureC humidityPct moisturePct].
  destruct (Standards.safe (Standards.temperatureC std)) as [t0 t1] eqn:ET.
  destruct (Standards.safe (Standards.humidityPct std)) as [h0 h1] eqn:EH.
  cbn [fst snd] in *.
  pose proof (rand_between (-0.4) 0.4 (uTemperature u)) as RT.
  pose proof (rand_between (-1.5) 1.5 (uHumidity u)) as RH.
  pose proof (rand_between (-0.3) 0.3 (uMoisture u)) as RM.
  pose proof (midpoint_half t0 t1) as MT. pose proof (midpoint_half h0 h1) as MH.
  pose proof (Math_min_l (Standards.safeMax (Standards.moisturePct std) - 0.5)
                (Standards.safeMax (Standards.moisturePct std))) as MM.
  unfold Engine.rangeStatus, Engine.maxStatus. rewrite ET, EH.
  rewrite between_true by lra. rewrite between_true by lra.
  rewrite leb_true by lra. repeat split.
Qed.

(** X21: a simulator constructed in normal mode (random draws
    within 0..1) starts with temperature, humidity and moisture inside
    the safe ranges of its standards. *)
Theorem normal_mode_starts_safe (a : string) (now : Z) (u : InitDraws) (s : Simulator.t) :
  0 <= uTemperature u <= 1 -> 0 <= uHumidity u <= 1 -> 0 <= uMoisture u <= 1 ->
  constructor a "normal" now u = Some s ->
  exists std,
    Standards.getStandards a = Standards.VEntry std /\
    Engine.rangeStatus (temperatureC (state s)) (Standards.temperatureC std) = "safe" /\
    Engine.rangeStatus (humidityPct (state s)) (Standards.humidityPct std) = "safe" /\
    Engine.maxStatus (moisturePct (state s)) (Standards.moisturePct std) = "safe".
Proof.
  intros Hu1 Hu2 Hu3. unfold constructor.
  destruct (initialState a "normal" now u) as [st|] eqn:Est; [|discriminate].
  intro E. injection E as <-. cbn [state].
  destruct (Standards.getStandards a) as [std| |] eqn:Eg.
  2:{ unfold initialState in Est. rewrite Eg in Est. discriminate Est. }
  2:{ unfold initialState in Est. rewrite Eg in Est. discriminate Est. }
  exists std. split; [reflexivity|].
  assert (Hentry : Standards.entry_of (Standards.getStandards a) = Some std) by now rewrite Eg.
  assert (Hw : 0.8 <= snd (Standards.safe (Standards.temperatureC std))
                      - fst (Standards.safe (Standards.temperatureC std)) /\
               3 <= snd (Standards.safe (Standards.humidityPct std))
                    - fst (Standards.safe (Standards.humidityPct std))).
  { revert Eg. unfold Standards.getStandards, Standards.get, Standards.STANDARDS_BY_TYPE.
    cbn [Standards.own].
    destruct (String.eqb "FOSSILS" a); [cbn; intro H; injection H as <-; cbn; lra|].
    destruct (String.eqb "ORGANIC" a); [cbn; intro H; injection H as <-; cbn; lra|].
    destruct (String.eqb "METALLIC" a); [cbn; intro H; injection H as <-; cbn; lra|].
    destruct (String.eqb "STONE" a); [cbn; intro H; injection H as <-; cbn; lra|].
    destruct (Standards.inherited a); cbn; intro H; [discriminate H|].
    injection H as <-; cbn; lra. }
  destruct Hw as [HT HH].
  exact (normal_start_safe std a now u st Hentry HT HH Hu1 Hu2 Hu3 Est).
Qed.

Lemma normal_mode_starts_safe_witness :
  match constructor "ORGANIC" "normal" 0 Samples.draws with
  | Some s =>
      exists std,
        Standards.getStandards "ORGANIC" = Standards.VEntry std /\
        Engine.rangeStatus (temperatureC (state s)) (Standards.temperatureC std) = "safe" /\
        Engine.rangeStatus (humidityPct (state s)) (Standards.humidityPct std) = "safe" /\
        Engine.maxStatus (moisturePct (state s)) (Standards.moisturePct std) = "safe"
  | None => False
  end.
Proof.
  destruct (constructor "ORGANIC" "normal" 0 Samples.draws) as [s|] eqn:E.
  - apply (normal_mode_starts_safe "ORGANIC" 0 Samples.draws s); try (cbn; lra). exact E.
  - vm_compute in E. discriminate E.
Defined.

End SimulatorFacts.

(* ------------------------------------------------------------------ *)
(** ** Further properties: the store *)

Section StoreFacts.
Open Scope string_scope.
Open Scope list_scope.

Variables Snapshot Point Log : Type.

Lemma pushCapped_skipn (A : Type) (max : nat) (arr : list A) (x : A) :
  Store.pushCapped max arr x = skipn (S (length arr) - max) (arr ++ [x]).
Proof.
  unfold Store.pushCapped. rewrite length_app. cbn [length].
  replace (length arr + 1)%nat with (S (length arr)) by lia.
  destruct (Nat.ltb_spec max (S (length arr))) as [H|H]; [reflexivity|].
  replace (S (length arr) - max)%nat with 0%nat by lia. reflexivity.
Qed.

Lemma pushCapped_length (A : Type) (max : nat) (arr : list A) (x : A) :
  length (Store.pushCapped max arr x) = Nat.min (S (length arr)) max.
Proof.
  rewrite pushCapped_skipn, length_skipn, length_app. cbn [length]. lia.
Qed.

Lemma pushCapped_last (A : Type) (max : nat) (arr : list A) (x : A) :
  (1 <= max)%nat ->
  exists front, Store.pushCapped max arr x = front ++ [x].
Proof.
  intro H. rewrite pushCapped_skipn.
  exists (skipn (S (length arr) - max) arr).
  rewrite skipn_app.
  replace (S (length arr) - max - length arr)%nat with 0%nat by lia. reflexivity.
Qed.

Lemma pushCapped_suffix (A : Type) (max : nat) (arr : list A) (x : A) :
  exists dropped, arr ++ [x] = dropped ++ Store.pushCapped max arr x.
Proof.
  rewrite pushCapped_skipn.
  exists (firstn (S (length arr) - max) (arr ++ [x])).
  now rewrite firstn_skipn.
Qed.

(** X22: after [pushLog] the log holds at most 500 entries, the
    pushed entry is its last, and it is a suffix of the old log with
    the entry appended: only the oldest entries are dropped. *)
Theorem pushLog_keeps_newest_500 (this : Store.t Snapshot Point Log) (entry : Log) :
  length (Store.logs (Store.pushLog this entry))
    = Nat.min (S (length (Store.logs this))) 500 /\
  (exists front, Store.logs (Store.pushLog this entry) = front ++ [entry]) /\
  (exists dropped,
     Store.logs this ++ [entry] = dropped ++ Store.logs (Store.pushLog this entry)).
Proof.
  unfold Store.pushLog. cbn [Store.logs].
  split; [apply pushCapped_length|].
  split; [apply pushCapped_last; lia | apply pushCapped_suffix].
Qed.

Lemma safeLimit_range (number : Store.Number) : 1 <= Store.safeLimit number <= 500.
Proof.
  destruct number; cbn [Store.safeLimit]; try (apply clamp_bounds; lra); lra.
Qed.

Lemma limit_count_range (number : Store.Number) :
  (1 <= Z.to_nat (Qfloor (Store.safeLimit number)) <= 500)%nat.
Proof.
  pose proof (safeLimit_range number) as [H1 H2].
  assert (1 <= Qfloor (Store.safeLimit number) <= 500)%Z.
  { split.
    - rewrite <- (Qfloor_Z 1). now apply Qfloor_resp_le.
    - rewrite <- (Qfloor_Z 500). now apply Qfloor_resp_le. }
  lia.
Qed.

(** X23: [getLogs] returns at most 500 entries and at least one
    when there is any; they are the newest entries of the log, newest
    first, so an entry just pushed comes first; without a usable limit
    (NaN or 0) it returns 50 entries or the whole log if shorter, and
    with an infinite limit 500 or the whole log. *)
Theorem getLogs_newest_first (this : Store.t Snapshot Point Log) (number : Store.Number) (entry : Log) :
  (length (Store.getLogs this number) <= 500)%nat /\
  (Store.logs this <> [] -> Store.getLogs this number <> []) /\
  (exists older, Store.logs this = older ++ rev (Store.getLogs this number)) /\
  (exists rest, Store.getLogs (Store.pushLog this entry) number = entry :: rest) /\
  (number = Store.NaN \/ number = Store.Finite 0 ->
   length (Store.getLogs this number) = Nat.min (length (Store.logs this)) 50) /\
  (number = Store.PosInfinity ->
   length (Store.getLogs this number) = Nat.min (length (Store.logs this)) 500).
Proof.
  unfold Store.getLogs.
  pose proof (limit_count_range number) as Hk.
  set (k := Z.to_nat (Qfloor (Store.safeLimit number))) in *.
  repeat split.
  - rewrite length_rev, length_skipn. lia.
  - intros Hne E. apply (f_equal (@length Log)) in E.
    rewrite length_rev, length_skipn in E. cbn [length] in E.
    destruct (Store.logs this); [contradiction|]. cbn [length] in E. lia.
  - exists (firstn (length (Store.logs this) - k) (Store.logs this)).
    rewrite rev_involutive. now rewrite firstn_skipn.
  - destruct (pushCapped_last Log 500 (Store.logs this) entry) as [front E]; [lia|].
    unfold Store.pushLog. cbn [Store.logs]. rewrite E.
    rewrite length_app. cbn [length]. rewrite skipn_app.
    replace (length front + 1 - k - length front)%nat with 0%nat by lia.
    cbn [skipn]. rewrite rev_app_distr. cbn [rev app]. eexists. reflexivity.
  - intro Hn. rewrite length_rev, length_skipn.
    assert (k = 50%nat).
    { unfold k. destruct Hn as [->| ->]; vm_compute; reflexivity. }
    lia.
  - intro Hn. rewrite length_rev, length_skipn.
    assert (k = 500%nat) by (unfold k; rewrite Hn; vm_compute; reflexivity).
    lia.
Qed.

(** X24: [appendToHistory] puts the point last in the series of
    the given range, which holds at most 400 points for "7d" and at
    most 2000 for any other range, and it leaves the other series, the
    logs and the live snapshot alone. *)
Theorem appendToHistory_caps (this : Store.t Snapshot Point Log) (range : string) (point : Point) :
  let after := Store.appendToHistory this range point in
  let cap := if String.eqb range "7d" then 400%nat else 2000%nat in
  (exists front, Store.getHistory after range = front ++ [point]) /\
  length (Store.getHistory after range)
    = Nat.min (S (length (Store.getHistory this range))) cap /\
  (forall other,
     String.eqb other "7d" <> String.eqb range "7d" ->
     Store.getHistory after other = Store.getHistory this other) /\
  Store.logs after = Store.logs this /\ Store.live after = Store.live this.
Proof.
  cbv zeta. unfold Store.appendToHistory, Store.getHistory.
  destruct (String.eqb range "7d") eqn:E; cbn [Store.history7d Store.history24h Store.logs Store.live].
  - repeat split.
    + apply pushCapped_last. lia.
    + apply pushCapped_length.
    + intros other H. destruct (String.eqb other "7d"); [contradiction|reflexivity].
  - repeat split.
    + apply pushCapped_last. lia.
    + apply pushCapped_length.
    + intros other H. destruct (String.eqb other "7d"); [reflexivity|contradiction].
Qed.

End StoreFacts.

(* ------------------------------------------------------------------ *)
(** ** Further properties: the server *)

Section ServerFacts.
Import Js Utils Simulator Server.
Open Scope string_scope.
Open Scope list_scope.

Lemma listed_entry (a : string) :
  In a Standards.ARTIFACT_TYPES ->
  exists std, Standards.entry_of (Standards.getStandards a) = Some std.
Proof.
  intro H. destruct (getStandards_listed a H) as [e ->]. now exists e.
Qed.

Lemma initialState_some (a m : string) (now : Z) (u : InitDraws) (std : Standards.Entry) :
  Standards.entry_of (Standards.getStandards a) = Some std ->
  exists st, initialState a m now u = Some st.
Proof.
  intro H. unfold initialState. rewrite H. cbv zeta.
  destruct (String.eqb m "remediation"); [eexists; reflexivity|].
  destruct (String.eqb m "atRisk"); eexists; reflexivity.
Qed.

Lemma setArtifactType_returns
  (this : Simulator.t) (a : string) (now : Z) (u : InitDraws) (std : Standards.Entry) :
  Standards.entry_of (Standards.getStandards a) = Some std ->
  exists this',
    setArtifactType this a now u = Returned tt this' /\
    artifactType this' = a /\ demoMode this' = demoMode this /\
    controls this' = controls this.
Proof.
  intro H. unfold setArtifactType, _initState. cbn [artifactType demoMode].
  destruct (initialState_some a (demoMode this) now u std H) as [st ->].
  eexists. repeat split.
Qed.

Lemma setDemoMode_returns
  (this : Simulator.t) (m : string) (now : Z) (u : InitDraws) (std : Standards.Entry) :
  Standards.entry_of (Standards.getStandards (artifactType this)) = Some std ->
  exists this',
    setDemoMode this m now u = Returned tt this' /\
    artifactType this' = artifactType this /\ demoMode this' = m /\
    controls this' = controls this.
Proof.
  intro H. unfold setDemoMode, _initState. cbn [artifactType demoMode].
  destruct (initialState_some (artifactType this) m now u std H) as [st ->].
  eexists. repeat split.
Qed.

(** X25: the module initialisation of the server never throws: it
    leaves a consistent server with the config FOSSILS/normal, 1441
    points of 24-hour history, 337 points of 7-day history, no log, no
    live snapshot and all controls at 0. *)
Theorem server_starts
  (now0 : Z) (u : InitDraws) (now1 : Z) (nz24 nz7 : nat -> Noise) :
  exists sv,
    start now0 u now1 nz24 nz7 = Some sv /\
    consistent sv /\
    config sv = {| Config.artifactType := "FOSSILS"; Config.demoMode := "normal" |} /\
    length (Store.getHistory (store sv) "24h") = 1441%nat /\
    length (Store.getHistory (store sv) "7d") = 337%nat /\
    Store.logs (store sv) = [] /\
    Store.live (store sv) = None /\
    controls (simulator sv) = initialControls.
Proof.
  unfold start. cbv zeta. cbn [Config.artifactType Config.demoMode].
  unfold constructor.
  destruct (initialState_some "FOSSILS" "normal" now0 u Standards.FOSSILS eq_refl) as [st ->].
  set (sim := {| artifactType := "FOSSILS"; demoMode := "normal";
                 controls := initialControls; state := st |}).
  destruct (generateHistory_returns sim now1 nz24 nz7 Standards.FOSSILS eq_refl)
    as (h24 & h7 & sim' & -> & [L1 L2] & _ & Hc & Ha & Hm).
  eexists. split; [reflexivity|].
  cbn [config simulator store Store.setHistory Store.getHistory Store.history24h
       Store.history7d Store.logs Store.live Store.constructor
       String.eqb Ascii.eqb Bool.eqb].
  repeat split; try assumption.
  - cbn. auto.
  - cbn. auto.
Qed.

Lemma includes_In (l : list string) (v : option Json) :
  includes l v = true -> exists s, v = Some (JString s) /\ In s l.
Proof.
  destruct v as [[| | |s|]|]; try discriminate. cbn [includes].
  intro H. apply existsb_exists in H. destruct H as (x & Hin & Hx).
  apply String.eqb_eq in Hx. subst x. now exists s.
Qed.

(** The field after [if (v) config.field = v], once [v] has passed the
    check against [l]. *)
Lemma assigned_checked (l : list string) (old : string) (v : option Json) :
  truthy v && negb (includes l v) = false ->
  In old l ->
  In (assigned old v) l /\
  (truthy v = true -> v = Some (JString (assigned old v))) /\
  (truthy v = false -> assigned old v = old).
Proof.
  intros H Hold. destruct (truthy v) eqn:T.
  - cbn [andb] in H. apply negb_false_iff in H.
    destruct (includes_In l v H) as (s & -> & Hs).
    unfold assigned. rewrite T. repeat split; auto. discriminate.
  - repeat split; try discriminate.
    + destruct v as [[| | |s|]|]; cbn [assigned]; try assumption. now rewrite T.
    + intros _. destruct v as [[| | |s|]|]; cbn [assigned]; try reflexivity. now rewrite T.
Qed.

Lemma idle_consistent : consistent Scenarios.idle.
Proof. unfold consistent. cbn. auto 10. Qed.

(** X26: on a consistent server, POST /api/config never throws and
    leaves the server consistent.  A request is rejected exactly when a
    truthy [artifactType] or [demoMode] is not a listed string, and
    then nothing changes.  An accepted request sets each truthy field,
    keeps each falsy one, answers with the new config, replaces both
    history series (1441 and 337 points), logs and broadcasts one
    CONFIG entry, and leaves the controls, the engine's window and the
    live snapshot as they were. *)
Theorem postConfig_validated
  (sv : Server.t) (artifactType demoMode : option Json) (env : ConfigEnv) :
  consistent sv ->
  let sv' := fst (postConfig sv artifactType demoMode env) in
  consistent sv' /\
  match snd (postConfig sv artifactType demoMode env) with
  | BadRequest _ =>
      sv' = sv /\
      (truthy artifactType && negb (includes Standards.ARTIFACT_TYPES artifactType)
       || truthy demoMode && negb (includes DEMO_MODES demoMode) = true)
  | Ok answered =>
      answered = config sv' /\
      (truthy artifactType = true ->
       artifactType = Some (JString (Config.artifactType answered))) /\
      (truthy artifactType = false ->
       Config.artifactType answered = Config.artifactType (config sv)) /\
      (truthy demoMode = true ->
       demoMode = Some (JString (Config.demoMode answered))) /\
      (truthy demoMode = false ->
       Config.demoMode answered = Config.demoMode (config sv)) /\
      length (Store.getHistory (store sv') "24h") = 1441%nat /\
      length (Store.getHistory (store sv') "7d") = 337%nat /\
      (exists front id iso message,
         Store.logs (store sv') = front ++ [LogEntry.CONFIG id iso message] /\
         broadcasts sv' =
           broadcasts sv ++ [LogMessage (LogEntry.CONFIG id iso message)]) /\
      controls (simulator sv') = controls (simulator sv) /\
      engine sv' = engine sv /\
      Store.live (store sv') = Store.live (store sv)
  | InternalError => False
  end.
Proof.
  intros (HA & HM & HsA & HsM). cbv zeta. unfold postConfig.
  destruct (truthy artifactType && negb (includes Standards.ARTIFACT_TYPES artifactType))
    eqn:CA.
  { cbn [fst snd orb]. repeat split; assumption. }
  destruct (truthy demoMode && negb (includes DEMO_MODES demoMode)) eqn:CM.
  { cbn [fst snd orb]. repeat split; assumption. }
  destruct (assigned_checked _ _ _ CA HA) as (HA' & HA1 & HA0).
  destruct (assigned_checked _ _ _ CM HM) as (HM' & HM1 & HM0).
  cbv zeta. cbn [Config.artifactType Config.demoMode set_config simulator config].
  set (a := assigned (Config.artifactType (config sv)) artifactType) in *.
  set (m := assigned (Config.demoMode (config sv)) demoMode) in *.
  destruct (listed_entry a HA') as [std Hstd].
  destruct (setArtifactType_returns (simulator sv) a (nowType env) (drawsType env) std Hstd)
    as (s1 & -> & Ha1 & Hm1 & Hc1).
  destruct (setDemoMode_returns s1 m (nowMode env) (drawsMode env) std)
    as (s2 & -> & Ha2 & Hm2 & Hc2).
  { now rewrite Ha1. }
  destruct (generateHistory_returns s2 (nowHistory env) (noise24h env) (noise7d env) std)
    as (h24 & h7 & s3 & -> & [L1 L2] & _ & Hc3 & Ha3 & Hm3).
  { now rewrite Ha2, Ha1. }
  cbn [fst snd].
  unfold logEvent, broadcast, set_store, set_simulator, set_config, consistent.
  cbn [config simulator engine store broadcasts Config.artifactType Config.demoMode
       Store.setHistory Store.pushLog Store.getHistory Store.history24h Store.history7d
       Store.logs Store.live String.eqb Ascii.eqb Bool.eqb].
  split.
  { repeat split; try assumption; congruence. }
  split; [reflexivity|].
  split; [assumption|]. split; [assumption|].
  split; [assumption|]. split; [assumption|].
  split; [assumption|]. split; [assumption|].
  split.
  { destruct (pushCapped_last _ 500 (Store.logs (store sv))
               (LogEntry.CONFIG (logId env) (logIso env)
                  [Txt "Config updated: artifactType="; Txt a; Txt ", demoMode="; Txt m]))
      as [front E]; [lia|].
    exists front. eexists. eexists. eexists. split; [exact E | reflexivity]. }
  repeat split. congruence.
Qed.

Lemma postConfig_validated_witness :
  consistent
    (fst (postConfig Scenarios.idle (Some (JString "PLASTIC")) None Scenarios.env)).
Proof.
  exact (proj1 (postConfig_validated Scenarios.idle (Some (JString "PLASTIC")) None
                  Scenarios.env idle_consistent)).
Defined.

Lemma applyAction_keeps (this : Simulator.t) (actionType : string) (now : Z) :
  artifactType (applyAction this actionType now) = artifactType this /\
  demoMode (applyAction this actionType now) = demoMode this /\
  state (applyAction this actionType now) = state this.
Proof.
  unfold applyAction.
  repeat match goal with
         | |- context [if String.eqb ?a ?b then _ else _] => destruct (String.eqb a b)
         end; repeat split.
Qed.

(** The indexed calls [applyActions] makes on the simulator. *)
Lemma applyActions_trace (actions : list Assessment.Action) (reading : Reading.t)
  (stamps : nat -> Stamp) :
  forall (sv : Server.t) (k : nat),
    let sv' := Server.applyActions sv actions reading stamps k in
    (exists entries,
       broadcasts sv' = broadcasts sv ++ map LogMessage entries /\
       map LogEntry.actionType entries = map (fun a => Some (Assessment.type a)) actions /\
       exists dropped,
         Store.logs (store sv) ++ entries = dropped ++ Store.logs (store sv')) /\
    simulator sv' =
      Simulator.applyActions (simulator sv)
        (combine (map Assessment.type actions)
                 (map (fun i => clock (stamps i)) (seq k (length actions)))) /\
    config sv' = config sv /\ engine sv' = engine sv /\
    Store.live (store sv') = Store.live (store sv) /\
    Store.history24h (store sv') = Store.history24h (store sv) /\
    Store.history7d (store sv') = Store.history7d (store sv).
Proof.
  induction actions as [|action rest IH]; intros sv k; cbv zeta.
  - cbn [Server.applyActions map length seq combine]. split.
    + exists []. cbn [map]. rewrite !app_nil_r. repeat split. now exists [].
    + repeat split.
  - cbn [Server.applyActions]. cbv zeta.
    set (e := LogEntry.AUTO_REMEDIATION _ _ _ _ _ _).
    set (sv1 := logEvent _ e).
    destruct (IH sv1 (S k)) as ((entries & Hb & Hty & dropped & Hl) & Hs & Hc & He & Hlive & H24 & H7).
    split.
    + exists (e :: entries). split; [|split].
      * rewrite Hb. unfold sv1, logEvent, broadcast. cbn [broadcasts set_store set_simulator map].
        now rewrite <- app_assoc.
      * cbn [map]. now rewrite Hty.
      * destruct (pushCapped_suffix _ 500 (Store.logs (store sv)) e) as [d1 Hd1].
        exists (d1 ++ dropped). rewrite <- app_assoc, <- Hl.
        unfold sv1, logEvent, broadcast.
        cbn [store set_store set_simulator Store.pushLog Store.logs].
        rewrite app_assoc, <- Hd1. rewrite <- app_assoc. reflexivity.
    + rewrite Hs, Hc, He, Hlive, H24, H7.
      unfold sv1, logEvent, broadcast.
      cbn [simulator config engine store set_store set_simulator Store.pushLog Store.live
           Store.history24h Store.history7d map length seq combine].
      unfold Simulator.applyActions. cbn [fold_left fst snd].
      repeat split.
Qed.

Lemma applyActions_keeps (acts : list (string * Z)) :
  forall this : Simulator.t,
    artifactType (Simulator.applyActions this acts) = artifactType this /\
    demoMode (Simulator.applyActions this acts) = demoMode this /\
    state (Simulator.applyActions this acts) = state this.
Proof.
  induction acts as [|[ty now] rest IH]; intro this; [repeat split|].
  unfold Simulator.applyActions. cbn [fold_left fst snd].
  destruct (IH (applyAction this ty now)) as (H1 & H2 & H3).
  unfold Simulator.applyActions in H1, H2, H3. rewrite H1, H2, H3.
  apply applyAction_keeps.
Qed.

(** What the callback does when the config is consistent: the reading
    and assessment it works with, and the server it leaves. *)
Lemma cycle_runs (sv : Server.t) (nowMs : Z) (nz : Noise) (stamps : nat -> Stamp) :
  consistent sv ->
  exists reading sim standards,
    tick (simulator sv) nowMs nz = Returned reading sim /\
    Standards.getStandards (Config.artifactType (config sv)) = Standards.VEntry standards /\
    let window := Engine.ingest (engine sv) reading in
    let assessment := snd (Engine.evaluate window reading standards) in
    let acted :=
      Server.applyActions (set_engine (set_simulator sv sim) window)
        (Assessment.actions assessment) reading stamps 0 in
    let shown :=
      {| Tick.timestamp := nowMs;
         Tick.artifactType := Config.artifactType (config acted);
         Tick.demoMode := Config.demoMode (config acted);
         Tick.reading := reading;
         Tick.standards := standards;
         Tick.assessment := assessment |} in
    let told := broadcast (set_store acted (Store.setLive (store acted) shown))
                  (TickMessage shown) in
    let minute :=
      if (Z.rem nowMs 60000 <? 1000)%Z
      then set_store told (Store.appendToHistory (store told) "24h" reading)
      else told in
    let halfHour :=
      if (Z.rem nowMs (30 * 60000) <? 1000)%Z
      then set_store minute (Store.appendToHistory (store minute) "7d" reading)
      else minute in
    cycle sv nowMs nz stamps = Done halfHour.
Proof.
  intros (HA & HM & HsA & HsM).
  destruct (getStandards_listed _ HA) as [std Hstd].
  destruct (tick_returns (simulator sv) nowMs nz std) as (r & sim & Etick & Hts & Hty).
  { now rewrite HsA, Hstd. }
  exists r, sim, std. split; [exact Etick|]. split; [exact Hstd|].
  cbv zeta. unfold cycle. rewrite Etick. cbv zeta.
  cbn [config set_engine set_simulator engine]. rewrite Hstd. cbn [Standards.entry_of].
  rewrite Hts.
  set (w := Engine.ingest (engine sv) r).
  destruct (Engine.evaluate w r std) as [eng a] eqn:Eev.
  assert (Heng : eng = w) by (apply (f_equal fst) in Eev; exact (eq_sym Eev)).
  subst eng. cbn [snd].
  destruct (Assessment.actions a) as [|act rest];
    destruct (Z.rem nowMs 60000 <? 1000)%Z, (Z.rem nowMs (30 * 60000) <? 1000)%Z;
    reflexivity.
Qed.

(** X27: on a consistent server one run of the main loop returns
    and leaves the server consistent with the same config; the live
    snapshot is then the tick of this run, stamped with the run's time,
    carrying the config's type and mode, the standards entry of that
    type, a reading within the physical bounds and the assessment of
    that reading over the window the reading was just added to. *)
Theorem cycle_never_crashes
  (sv : Server.t) (nowMs : Z) (nz : Noise) (stamps : nat -> Stamp) :
  consistent sv ->
  exists sv' shown,
    cycle sv nowMs nz stamps = Done sv' /\
    consistent sv' /\
    config sv' = config sv /\
    Store.live (store sv') = Some shown /\
    Tick.timestamp shown = nowMs /\
    Reading.timestamp (Tick.reading shown) = nowMs /\
    Tick.artifactType shown = Config.artifactType (config sv) /\
    Tick.demoMode shown = Config.demoMode (config sv) /\
    Standards.getStandards (Tick.artifactType shown) = Standards.VEntry (Tick.standards shown) /\
    Reading.inPhysicalBounds (Tick.reading shown) /\
    Tick.assessment shown =
      snd (Engine.evaluate (engine sv') (Tick.reading shown) (Tick.standards shown)) /\
    engine sv' = Engine.ingest (engine sv) (Tick.reading shown).
Proof.
  intro Hc.
  destruct (cycle_runs sv nowMs nz stamps Hc) as (r & sim & std & Etick & Hstd & Hrun).
  cbv zeta in Hrun.
  destruct Hc as (HA & HM & HsA & HsM).
  set (w := Engine.ingest (engine sv) r) in *.
  set (a := snd (Engine.evaluate w r std)) in *.
  destruct (applyActions_trace (Assessment.actions a) r stamps
              (set_engine (set_simulator sv sim) w) 0)
    as (_ & Hsim & Hcfg & Heng & _).
  cbv zeta in Hsim, Hcfg, Heng.
  set (acted := Server.applyActions (set_engine (set_simulator sv sim) w)
                  (Assessment.actions a) r stamps 0) in *.
  cbn [config engine simulator set_engine set_simulator] in Hsim, Hcfg, Heng.
  destruct (applyActions_keeps
              (combine (map Assessment.type (Assessment.actions a))
                 (map (fun i => clock (stamps i)) (seq 0 (length (Assessment.actions a)))))
              sim) as (Ka & Km & _).
  rewrite <- Hsim in Ka, Km.
  pose proof (tick_artifactType (simulator sv) nowMs nz) as [Ta Tm].
  rewrite Etick in Ta, Tm. cbn [after] in Ta, Tm.
  destruct (tick_returns (simulator sv) nowMs nz std) as (r' & sim' & Etick' & Hts & _).
  { now rewrite HsA, Hstd. }
  rewrite Etick in Etick'. injection Etick' as <- <-.
  eexists. eexists. split; [exact Hrun|].
  destruct (Z.rem nowMs 60000 <? 1000)%Z, (Z.rem nowMs (30 * 60000) <? 1000)%Z;
    unfold consistent, broadcast, set_store, Store.appendToHistory, Store.setLive;
    cbn [config simulator engine store Store.live String.eqb Ascii.eqb Bool.eqb
         Tick.timestamp Tick.reading Tick.artifactType Tick.demoMode Tick.standards
         Tick.assessment];
    rewrite ?Hcfg, ?Heng, ?Ka, ?Km, ?Ta, ?Tm;
    (repeat split; try assumption; try reflexivity;
     try (eapply tick_inPhysicalBounds; exact Etick)).
Qed.

Lemma cycle_never_crashes_witness :
  exists sv' shown,
    cycle Scenarios.idle 1000 Samples.quiet Scenarios.stamps = Done sv' /\
    consistent sv' /\
    config sv' = config Scenarios.idle /\
    Store.live (store sv') = Some shown /\
    Tick.timestamp shown = 1000%Z /\
    Reading.timestamp (Tick.reading shown) = 1000%Z /\
    Tick.artifactType shown = Config.artifactType (config Scenarios.idle) /\
    Tick.demoMode shown = Config.demoMode (config Scenarios.idle) /\
    Standards.getStandards (Tick.artifactType shown) = Standards.VEntry (Tick.standards shown) /\
    Reading.inPhysicalBounds (Tick.reading shown) /\
    Tick.assessment shown =
      snd (Engine.evaluate (engine sv') (Tick.reading shown) (Tick.standards shown)) /\
    engine sv' = Engine.ingest (engine Scenarios.idle) (Tick.reading shown).
Proof.
  exact (cycle_never_crashes Scenarios.idle 1000 Samples.quiet Scenarios.stamps
           idle_consistent).
Defined.



End ServerFacts.
